(** * Ledger consistency of the Islamic-economy bot (bot.py)

    A shallow embedding of the money-moving handlers of [bot.py] and of the
    SQLite tables they act on, followed by the properties of the ledger
    that the specification states about them.

    Conventions of the embedding.
    - Amounts.  [REAL] columns and Python floats are IEEE 754 binary64
      numbers.  The handlers are embedded twice.  The first embedding
      reads an amount as the rational it stands for ([Q]) and a sum or
      a difference as the exact one, so that a balance written there as
      [b - amt] or [b + amt] stands for the double nearest to that
      number.  What is concluded over it are facts that rounding to the
      nearest double keeps: which rows and columns a handler writes,
      which calls change nothing, and comparisons between a balance
      before and after (the rounded difference of a balance and a
      positive amount within it is not above the balance and not below
      zero, a rounded sum of a balance and a positive amount is not
      below the balance).  The second embedding, the module [Double],
      carries [transfer_money] and [repay_loan] with the binary64
      operations of [SpecFloat]; the properties that depend on how a
      sum or a difference is rounded are stated there.  Amounts reach
      the handlers through JSON or a Discord option, which deliver
      finite numbers; where a property over [Double] needs an argument
      to be finite it says so.
    - The [users] table has a [TEXT PRIMARY KEY]; it is a finite map from
      [user_id] to the remaining columns.  Tables with an
      [INTEGER PRIMARY KEY AUTOINCREMENT] are lists in rowid order, the
      order in which a table scan returns them.
    - A connection works on a copy of the database: [commit] publishes the
      copy, while [rollback], an exception, or dropping the connection
      leave the database as it was when the transaction began.
    - [DATE] strings of the form YYYY-MM-DD are read as day numbers ([Z]);
      they compare the same way.
    - Strings are byte strings: [isdigit] and [lower] are read on ASCII.
      The length and the prefixes of a text are those of the string
      for texts typed in ASCII ([ascii_only]); a property that counts
      characters is stated for such texts.
    - Failures of the database file itself (locked, unreadable) are not
      modelled; the exceptions that are come from the constraints and
      column names of the schema. *)

From Stdlib Require Import QArith Lqa ZArith String Ascii List Bool Lia.
From Stdlib Require Import Floats.SpecFloat.
From stdpp Require Import gmap strings list fin_maps.

Open Scope string_scope.

(** ** Exceptions raised by the database driver *)

Inductive sql_error :=
| OperationalError (msg : string)
| IntegrityError (msg : string)
| PythonException (msg : string).

Definition str (e : sql_error) : string :=
  match e with
  | OperationalError m | IntegrityError m | PythonException m => m
  end.

Definition exec (A : Type) : Type := sum sql_error A.

Definition raise {A} (e : sql_error) : exec A := inl e.
Definition ret {A} (a : A) : exec A := inr a.

Definition bind {A B} (m : exec A) (k : A -> exec B) : exec B :=
  match m with
  | inl e => inl e
  | inr a => k a
  end.

Notation "'let*' x ':=' m 'in' k" :=
  (bind m (fun x => k))
  (at level 10, x pattern, m at level 100, k at level 200).

(** ** Rows of the tables created by [init_database] *)

(** The two balance columns of [users]. *)
Inductive column := gold_dinars | silver_dirhams.

(** [users]: [last_zakat_payment], [total_charity] and [created_at] are
    neither read nor written by the handlers below and are left out. *)
Record user_row := {
  username : string;
  gold : Q;
  silver : Q;
}.

(** The columns the table [users] is created with (lines 52-62). *)
Definition users_columns : list string :=
  ["user_id"; "username"; "gold_dinars"; "silver_dirhams";
   "last_zakat_payment"; "total_charity"; "created_at"].

(** The f-strings written into [transactions.description], one
    constructor per template, carrying the values formatted into it. *)
Inductive description :=
| Minecraft_transfer
| Funded_loan_application (application_id : nat) (borrower_name : string)
| Received_loan_funding_from (lender_name : string)
| Loan_repayment (loan_id : nat)
| Loan_repayment_received (loan_id : nat)
| Deposit_to_bank_account (account_number : string)
| Withdrawal_from_bank_account (account_number : string)
| Transfer_from_to (from_number to_number : string)
| Exchanged_for (amount : Q) (from_currency : string) (received : Q) (to_currency : string)
| Account_reset_Loan_default (remaining : Q) (days_overdue : Z).

Record transaction_row := {
  tx_user_id : string;
  transaction_type : string;
  tx_amount : Q;
  tx_currency : string;
  tx_description : description;
  partner_id : option string;
}.

Record application_row := {
  app_id : nat;
  app_borrower_id : string;
  borrower_name : string;
  app_loan_amount : Q;
  app_currency : string;
  repayment_days : Z;
  app_due_date : Z;
  purpose : string;
  app_status : string;
  funded_by : option string;
}.

Record loan_row := {
  loan_id : nat;
  lender_id : string;
  borrower_id : string;
  loan_amount : Q;
  loan_currency : string;
  due_date : Z;
  repaid_amount : Q;
  loan_status : string;
}.

Record business_row := {
  business_id : nat;
  business_owner : string;
  business_name : string;
  business_type : string;
  business_status : string;
  license_code : option string;
}.

Record investment_row := {
  inv_user_id : string;
  inv_status : string;
}.

Record listing_row := {
  seller_id : string;
  item_name : string;
}.

Record bank_account_row := {
  account_id : nat;
  account_number : string;
  institution_business_id : nat;
  owner_user_id : string;
  account_type : string;
  account_currency : string;
  balance : Q;
  profit_share_ratio : option Q;
  account_status : string;
}.

Record permission_row := {
  perm_account_id : nat;
  perm_user_id : string;
  role : string;
}.

Record bank_ledger_row := {
  bl_account_id : nat;
  entry_type : string;
  bl_amount : Q;
  bl_currency : string;
  bl_description : string;
  counterparty_account_id : option nat;
  created_by_user_id : string;
}.

Record DB := {
  users : gmap string user_row;
  transactions : list transaction_row;
  loan_applications : list application_row;
  loans : list loan_row;
  businesses : list business_row;
  investments : list investment_row;
  marketplace : list listing_row;
  bank_accounts : list bank_account_row;
  bank_account_permissions : list permission_row;
  bank_ledger : list bank_ledger_row;
}.

(** The database right after [init_database] on a fresh file. *)
Definition empty_db : DB :=
  {| users := ∅; transactions := []; loan_applications := []; loans := [];
     businesses := []; investments := []; marketplace := [];
     bank_accounts := []; bank_account_permissions := []; bank_ledger := [] |}.

Definition set_users (f : gmap string user_row -> gmap string user_row) (db : DB) : DB :=
  {| users := f (users db); transactions := transactions db;
     loan_applications := loan_applications db; loans := loans db;
     businesses := businesses db; investments := investments db;
     marketplace := marketplace db; bank_accounts := bank_accounts db;
     bank_account_permissions := bank_account_permissions db;
     bank_ledger := bank_ledger db |}.

Definition set_transactions (f : list transaction_row -> list transaction_row) (db : DB) : DB :=
  {| users := users db; transactions := f (transactions db);
     loan_applications := loan_applications db; loans := loans db;
     businesses := businesses db; investments := investments db;
     marketplace := marketplace db; bank_accounts := bank_accounts db;
     bank_account_permissions := bank_account_permissions db;
     bank_ledger := bank_ledger db |}.

Definition set_loan_applications (f : list application_row -> list application_row) (db : DB) : DB :=
  {| users := users db; transactions := transactions db;
     loan_applications := f (loan_applications db); loans := loans db;
     businesses := businesses db; investments := investments db;
     marketplace := marketplace db; bank_accounts := bank_accounts db;
     bank_account_permissions := bank_account_permissions db;
     bank_ledger := bank_ledger db |}.

Definition set_loans (f : list loan_row -> list loan_row) (db : DB) : DB :=
  {| users := users db; transactions := transactions db;
     loan_applications := loan_applications db; loans := f (loans db);
     businesses := businesses db; investments := investments db;
     marketplace := marketplace db; bank_accounts := bank_accounts db;
     bank_account_permissions := bank_account_permissions db;
     bank_ledger := bank_ledger db |}.

Definition set_businesses (f : list business_row -> list business_row) (db : DB) : DB :=
  {| users := users db; transactions := transactions db;
     loan_applications := loan_applications db; loans := loans db;
     businesses := f (businesses db); investments := investments db;
     marketplace := marketplace db; bank_accounts := bank_accounts db;
     bank_account_permissions := bank_account_permissions db;
     bank_ledger := bank_ledger db |}.

Definition set_investments (f : list investment_row -> list investment_row) (db : DB) : DB :=
  {| users := users db; transactions := transactions db;
     loan_applications := loan_applications db; loans := loans db;
     businesses := businesses db; investments := f (investments db);
     marketplace := marketplace db; bank_accounts := bank_accounts db;
     bank_account_permissions := bank_account_permissions db;
     bank_ledger := bank_ledger db |}.

Definition set_marketplace (f : list listing_row -> list listing_row) (db : DB) : DB :=
  {| users := users db; transactions := transactions db;
     loan_applications := loan_applications db; loans := loans db;
     businesses := businesses db; investments := investments db;
     marketplace := f (marketplace db); bank_accounts := bank_accounts db;
     bank_account_permissions := bank_account_permissions db;
     bank_ledger := bank_ledger db |}.

Definition set_bank_accounts (f : list bank_account_row -> list bank_account_row) (db : DB) : DB :=
  {| users := users db; transactions := transactions db;
     loan_applications := loan_applications db; loans := loans db;
     businesses := businesses db; investments := investments db;
     marketplace := marketplace db; bank_accounts := f (bank_accounts db);
     bank_account_permissions := bank_account_permissions db;
     bank_ledger := bank_ledger db |}.

Definition set_bank_account_permissions (f : list permission_row -> list permission_row) (db : DB) : DB :=
  {| users := users db; transactions := transactions db;
     loan_applications := loan_applications db; loans := loans db;
     businesses := businesses db; investments := investments db;
     marketplace := marketplace db; bank_accounts := bank_accounts db;
     bank_account_permissions := f (bank_account_permissions db);
     bank_ledger := bank_ledger db |}.

Definition set_bank_ledger (f : list bank_ledger_row -> list bank_ledger_row) (db : DB) : DB :=
  {| users := users db; transactions := transactions db;
     loan_applications := loan_applications db; loans := loans db;
     businesses := businesses db; investments := investments db;
     marketplace := marketplace db; bank_accounts := bank_accounts db;
     bank_account_permissions := bank_account_permissions db;
     bank_ledger := f (bank_ledger db) |}.

(** ** Comparisons of Python floats *)

Definition Qleb (x y : Q) : bool := Qle_bool x y.
Definition Qltb (x y : Q) : bool := negb (Qle_bool y x).

(** ** Transactions on a connection *)

Inductive tx_end (R : Type) :=
| Commit (r : R)
| Rollback (r : R).
Arguments Commit {R} r.
Arguments Rollback {R} r.

(** Runs [body] on the working copy.  Only [Commit] publishes it. *)
Definition run_transaction {R} (body : DB -> exec (DB * tx_end R))
    (on_exception : sql_error -> R) (db : DB) : DB * R :=
  match body db with
  | inr (db', Commit r) => (db', r)
  | inr (_, Rollback r) => (db, r)
  | inl e => (db, on_exception e)
  end.

(** ** Statements on [users] and [transactions] *)

Definition balance_of (c : column) (u : user_row) : Q :=
  match c with
  | gold_dinars => gold u
  | silver_dirhams => silver u
  end.

Definition set_balance (c : column) (v : Q) (u : user_row) : user_row :=
  match c with
  | gold_dinars => {| username := username u; gold := v; silver := silver u |}
  | silver_dirhams => {| username := username u; gold := gold u; silver := v |}
  end.

(** [UPDATE users SET {c} = {c} - ? WHERE user_id = ? AND {c} >= ?];
    the second component is [cursor.rowcount]. *)
Definition update_debit (c : column) (amount : Q) (user_id : string) (db : DB) : DB * nat :=
  match users db !! user_id with
  | Some u =>
      if Qleb amount (balance_of c u)
      then (set_users (insert user_id (set_balance c (balance_of c u - amount) u)) db, 1%nat)
      else (db, 0%nat)
  | None => (db, 0%nat)
  end.

(** [UPDATE users SET {c} = {c} + ? WHERE user_id = ?] with its rowcount. *)
Definition update_credit (c : column) (amount : Q) (user_id : string) (db : DB) : DB * nat :=
  match users db !! user_id with
  | Some u =>
      (set_users (insert user_id (set_balance c (balance_of c u + amount) u)) db, 1%nat)
  | None => (db, 0%nat)
  end.

(** [UPDATE users SET {c} = ? WHERE user_id = ?]. *)
Definition update_balance (c : column) (v : Q) (user_id : string) (db : DB) : DB :=
  match users db !! user_id with
  | Some u => set_users (insert user_id (set_balance c v u)) db
  | None => db
  end.

(** [INSERT INTO transactions (...)].  [transactions.user_id] references
    [users (user_id)]; the check is made when the connection has run
    [PRAGMA foreign_keys = ON]. *)
Definition insert_transaction (foreign_keys : bool) (row : transaction_row) (db : DB) : exec DB :=
  if foreign_keys && negb (bool_decide (is_Some (users db !! tx_user_id row)))
  then raise (IntegrityError "FOREIGN KEY constraint failed")
  else ret (set_transactions (fun t => (t ++ [row])%list) db).

(** ** Input validation of the HTTP API (lines 486-503) *)

Definition verify_api_token (API_TOKEN token : string) : bool :=
  String.eqb token API_TOKEN.

Definition is_digit (c : ascii) : bool :=
  (48 <=? nat_of_ascii c)%nat && (nat_of_ascii c <=? 57)%nat.

Fixpoint all_digits (s : string) : bool :=
  match s with
  | EmptyString => true
  | String c s' => is_digit c && all_digits s'
  end.

(** [str.isdigit]: false on the empty string. *)
Definition isdigit (s : string) : bool :=
  negb (String.eqb s "") && all_digits s.

(** [None] stands for a value that is missing or not a [str]. *)
Definition validate_user_id (user_id : option string) : bool :=
  match user_id with
  | None => false
  | Some s =>
      if String.eqb s "" then false
      else isdigit s && ((17 <=? String.length s)%nat && (String.length s <=? 19)%nat)
  end.

Definition validate_amount (amount : Q) : bool :=
  Qleb (1 # 100) amount && Qleb amount (99999999 # 100).

(** The column a validated currency name selects in
    [f'UPDATE users SET {currency} = ...']. *)
Definition currency_column (currency : string) : option column :=
  if String.eqb currency "gold_dinars" then Some gold_dinars
  else if String.eqb currency "silver_dirhams" then Some silver_dirhams
  else None.

(** ** POST /api/pay (lines 543-613) *)

Record pay_json := {
  from_user : option string;
  to_user : option string;
  amount : option Q;        (* [None]: absent (the default 0) or not a number *)
  currency : option string; (* [None]: absent, so 'gold_dinars' *)
}.

(** [bearer] is the Authorization header with 'Bearer ' removed;
    [json] is [None] for a missing or empty body. *)
Record pay_request := {
  bearer : string;
  json : option pay_json;
}.

Inductive json_body :=
| json_error (msg : string)
| json_success (amount : Q) (currency : string).

Record http_response := {
  status_code : nat;
  body : json_body;
}.

Definition error (code : nat) (msg : string) : http_response :=
  {| status_code := code; body := json_error msg |}.

Definition success (amount : Q) (currency : string) : http_response :=
  {| status_code := 200; body := json_success amount currency |}.

(** Lines 580-608: the statements between [BEGIN IMMEDIATE] and the
    [commit] or [rollback]. *)
Definition transfer_money_transaction (c : column) (currency : string) (amount : Q)
    (from_user to_user : string) (db : DB) : exec (DB * tx_end http_response) :=
  let '(db1, rowcount) := update_debit c amount from_user db in
  if (rowcount =? 0)%nat
  then ret (db1, Rollback (error 400 "Insufficient funds or user not found"))
  else
    let '(db2, rowcount) := update_credit c amount to_user db1 in
    if (rowcount =? 0)%nat
    then ret (db2, Rollback (error 400 "Recipient user not found"))
    else
      let* db3 := insert_transaction true
        {| tx_user_id := from_user; transaction_type := "transfer_send";
           tx_amount := amount; tx_currency := currency;
           tx_description := Minecraft_transfer; partner_id := Some to_user |} db2 in
      let* db4 := insert_transaction true
        {| tx_user_id := to_user; transaction_type := "transfer_receive";
           tx_amount := amount; tx_currency := currency;
           tx_description := Minecraft_transfer; partner_id := Some from_user |} db3 in
      ret (db4, Commit (success amount currency)).

Definition transfer_money (API_TOKEN : string) (req : pay_request) (db : DB) : DB * http_response :=
  if negb (verify_api_token API_TOKEN (bearer req)) then (db, error 401 "Unauthorized")
  else
    match json req with
    | None => (db, error 400 "No JSON data provided")
    | Some data =>
        let amount := default 0%Q (amount data) in
        let currency := default "gold_dinars" (currency data) in
        if negb (validate_user_id (from_user data)) || negb (validate_user_id (to_user data))
        then (db, error 400 "Invalid user ID format")
        else if negb (validate_amount amount) then (db, error 400 "Invalid amount")
        else
          match currency_column currency, from_user data, to_user data with
          | None, _, _ => (db, error 400 "Invalid currency type")
          | Some c, Some from_user, Some to_user =>
              if String.eqb from_user to_user
              then (db, error 400 "Cannot transfer to yourself")
              else
                run_transaction
                  (transfer_money_transaction c currency amount from_user to_user)
                  (fun e => error 500 (str e)) db
          | Some _, _, _ => (db, error 400 "Invalid user ID format")
          end
    end.

(** ** Accounts: [sanitize_username] and [get_user_account] (lines 505-512, 745-816) *)

(** The characters removed by the pattern of [sanitize_username]:
    less-than, greater-than, double quote, quote, semicolon, ampersand
    and backslash. *)
Definition dangerous (c : ascii) : bool :=
  existsb (Nat.eqb (nat_of_ascii c)) [60; 62; 34; 39; 59; 38; 92]%nat.

Fixpoint remove_dangerous (s : string) : string :=
  match s with
  | EmptyString => EmptyString
  | String c s' =>
      if dangerous c then remove_dangerous s' else String c (remove_dangerous s')
  end.

Definition sanitize_username (username : string) : string :=
  if String.eqb username "" then "Unknown User"
  else substring 0 50 (remove_dangerous username).

(** The dictionary returned by [get_user_account]. *)
Record user_data := {
  ud_user_id : string;
  ud_username : string;
  ud_gold_dinars : Q;
  ud_silver_dirhams : Q;
}.

Definition user_data_of (user_id : string) (u : user_row) : user_data :=
  {| ud_user_id := user_id; ud_username := username u;
     ud_gold_dinars := gold u; ud_silver_dirhams := silver u |}.

(** Get or create: the row of a new user is inserted and committed on a
    connection of its own, before the caller opens its transaction. *)
Definition get_user_account (user_id username : string) (db : DB) : user_data * DB :=
  if negb (validate_user_id (Some user_id))
  then ({| ud_user_id := user_id; ud_username := "Invalid User";
           ud_gold_dinars := 0; ud_silver_dirhams := 0 |}, db)
  else
    let username := sanitize_username username in
    match users db !! user_id with
    | Some u => (user_data_of user_id u, db)
    | None =>
        let u := {| username := username; gold := 100; silver := 500 |} in
        (user_data_of user_id u, set_users (insert user_id u) db)
    end.

(** [user_data['gold_dinars'] if currency == 'gold_dinars' else
    user_data['silver_dirhams']] *)
Definition currency_balance_of (currency : string) (d : user_data) : Q :=
  if String.eqb currency "gold_dinars" then ud_gold_dinars d else ud_silver_dirhams d.

(** The branch [if currency == 'gold_dinars': ... else: ...] that writes
    the new balance of the paying side. *)
Definition update_wallet (currency : string) (new_balance : Q) (user_id : string) (db : DB) : DB :=
  if String.eqb currency "gold_dinars"
  then update_balance gold_dinars new_balance user_id db
  else update_balance silver_dirhams new_balance user_id db.

(** ** Column names spliced into SQL text *)

Definition lower_ascii (c : ascii) : ascii :=
  let n := nat_of_ascii c in
  if (65 <=? n)%nat && (n <=? 90)%nat then ascii_of_nat (n + 32) else c.

Fixpoint lower (s : string) : string :=
  match s with
  | EmptyString => EmptyString
  | String c s' => String (lower_ascii c) (lower s')
  end.

(** SQLite resolves a column name without regard to case. *)
Definition resolve_column (name : string) : option column :=
  currency_column (lower name).

(** [f'UPDATE users SET {currency} = {currency} + ? WHERE user_id = ?']
    with the currency taken from a table row. *)
Definition update_credit_named (currency : string) (amount : Q) (user_id : string) (db : DB) : exec DB :=
  match resolve_column currency with
  | Some c => ret (fst (update_credit c amount user_id db))
  | None => raise (OperationalError ("no such column: " ++ currency))
  end.

Definition user_exists (user_id : string) (db : DB) : bool :=
  bool_decide (is_Some (users db !! user_id)).

(** The rowid an [AUTOINCREMENT] key gives the next row: one more than
    the largest rowid the table has held.  No handler deletes a row of
    these tables, so that is the largest rowid in the table. *)
Definition next_id (ids : list nat) : nat := S (foldr Nat.max 0%nat ids).

(** ** Loans: [apply_for_loan], [fund_loan], [repay_loan] (lines 3658-4031) *)

Inductive reply :=
(* apply_for_loan *)
| Currency_must_be_gold_dinars_or_silver_dirhams
| Loan_amount_and_repayment_days_must_be_positive
| Maximum_loan_term_is_365_days
| Please_provide_a_detailed_purpose
| Only_3_pending_loan_applications
| Loan_Application_Submitted (application_id : nat)
| Error_submitting_loan_application
(* fund_loan *)
| Loan_application_not_found_or_already_funded
| You_cannot_fund_your_own_loan_application
| Insufficient_funds_Need (need have : Q) (currency : string)
| Loan_Successfully_Funded (loan_id : nat)
| Error_funding_loan
(* repay_loan *)
| Loan_not_found_or_you_are_not_the_borrower
| This_loan_is_not_active
| Repayment_amount_exceeds_remaining_balance (remaining : Q)
| Repayment_amount_must_be_positive
| Insufficient_funds_You_have (have : Q) (currency : string)
| Loan_Repayment_Processed (remaining : Q) (status : string)
| Error_processing_loan_repayment
(* exchange *)
| Currencies_must_be_gold_or_silver
| Cannot_exchange_same_currency
| Exchange_amount_must_be_positive
| Insufficient_gold_dinars (have : Q)
| Insufficient_silver_dirhams (have : Q)
| Currency_Exchange_Successful (new_gold new_silver : Q)
| Error_processing_exchange.

Definition apply_for_loan (today : Z) (caller caller_name : string) (loan_amount : Q)
    (currency : string) (repayment_days : Z) (purpose : string) (db : DB) : DB * reply :=
  if negb (existsb (String.eqb (lower currency)) ["gold_dinars"; "silver_dirhams"])
  then (db, Currency_must_be_gold_dinars_or_silver_dirhams)
  else if Qleb loan_amount 0 || (repayment_days <=? 0)%Z
  then (db, Loan_amount_and_repayment_days_must_be_positive)
  else if (365 <? repayment_days)%Z then (db, Maximum_loan_term_is_365_days)
  else if (String.length purpose <? 10)%nat then (db, Please_provide_a_detailed_purpose)
  else
    let pending_count :=
      length (List.filter (fun a => String.eqb (app_borrower_id a) caller
                                    && String.eqb (app_status a) "pending")
                          (loan_applications db)) in
    if (3 <=? pending_count)%nat then (db, Only_3_pending_loan_applications)
    else
      let due_date := (today + repayment_days)%Z in
      let application_id := next_id (map app_id (loan_applications db)) in
      run_transaction
        (fun db =>
           if negb (user_exists caller db)
           then raise (IntegrityError "FOREIGN KEY constraint failed")
           else
             ret (set_loan_applications
                    (fun t => (t ++ [{| app_id := application_id; app_borrower_id := caller;
                                        borrower_name := caller_name;
                                        app_loan_amount := loan_amount;
                                        app_currency := currency;
                                        repayment_days := repayment_days;
                                        app_due_date := due_date; purpose := purpose;
                                        app_status := "pending"; funded_by := None |}])%list) db,
                  Commit (Loan_Application_Submitted application_id)))
        (fun _ => Error_submitting_loan_application) db.

Definition set_application_funded (lender : string) (a : application_row) : application_row :=
  {| app_id := app_id a; app_borrower_id := app_borrower_id a;
     borrower_name := borrower_name a; app_loan_amount := app_loan_amount a;
     app_currency := app_currency a; repayment_days := repayment_days a;
     app_due_date := app_due_date a; purpose := purpose a;
     app_status := "funded"; funded_by := Some lender |}.

(** [INSERT INTO loans (...) VALUES (..., 'active')]; [repaid_amount]
    takes its default 0.0.  Both parties reference [users]. *)
Definition insert_loan (row : loan_row) (db : DB) : exec DB :=
  if negb (user_exists (lender_id row) db) || negb (user_exists (borrower_id row) db)
  then raise (IntegrityError "FOREIGN KEY constraint failed")
  else ret (set_loans (fun t => (t ++ [row])%list) db).

(** Lines 3840-3882: from [BEGIN IMMEDIATE] to [COMMIT]. *)
Definition fund_loan_transaction (caller caller_name : string) (application_id : nat)
    (application : application_row) (d : user_data) (db : DB) : exec (DB * tx_end reply) :=
  let loan_amount := app_loan_amount application in
  let currency := app_currency application in
  let borrower_id := app_borrower_id application in
  let new_lender_balance := (currency_balance_of currency d - loan_amount)%Q in
  let db := update_wallet currency new_lender_balance caller db in
  let* db := update_credit_named currency loan_amount borrower_id db in
  let loan_id := next_id (map loan_id (loans db)) in
  let* db := insert_loan
    {| loan_id := loan_id; lender_id := caller; borrower_id := borrower_id;
       loan_amount := loan_amount; loan_currency := currency;
       due_date := app_due_date application; repaid_amount := 0;
       loan_status := "active" |} db in
  let* db :=
    if negb (user_exists caller db)
    then raise (IntegrityError "FOREIGN KEY constraint failed")
    else ret (set_loan_applications
                (map (fun a => if (app_id a =? application_id)%nat
                               then set_application_funded caller a else a)) db) in
  let* db := insert_transaction true
    {| tx_user_id := caller; transaction_type := "loan_given";
       tx_amount := loan_amount; tx_currency := currency;
       tx_description := Funded_loan_application application_id (borrower_name application);
       partner_id := Some borrower_id |} db in
  let* db := insert_transaction true
    {| tx_user_id := borrower_id; transaction_type := "loan_received";
       tx_amount := loan_amount; tx_currency := currency;
       tx_description := Received_loan_funding_from caller_name;
       partner_id := Some caller |} db in
  ret (db, Commit (Loan_Successfully_Funded loan_id)).

Definition fund_loan (caller caller_name : string) (application_id : nat) (db : DB) : DB * reply :=
  match find (fun a => (app_id a =? application_id)%nat && String.eqb (app_status a) "pending")
             (loan_applications db) with
  | None => (db, Loan_application_not_found_or_already_funded)
  | Some application =>
      if String.eqb (app_borrower_id application) caller
      then (db, You_cannot_fund_your_own_loan_application)
      else
        let '(d, db) := get_user_account caller caller_name db in
        let currency := app_currency application in
        let currency_balance := currency_balance_of currency d in
        if Qltb currency_balance (app_loan_amount application)
        then (db, Insufficient_funds_Need (app_loan_amount application) currency_balance currency)
        else
          run_transaction
            (fund_loan_transaction caller caller_name application_id application d)
            (fun _ => Error_funding_loan) db
  end.

Definition set_loan_repaid (new_repaid_amount : Q) (status : string) (l : loan_row) : loan_row :=
  {| loan_id := loan_id l; lender_id := lender_id l; borrower_id := borrower_id l;
     loan_amount := loan_amount l; loan_currency := loan_currency l;
     due_date := due_date l; repaid_amount := new_repaid_amount;
     loan_status := status |}.

(** Lines 3962-3997: from [BEGIN IMMEDIATE] to [COMMIT]. *)
Definition repay_loan_transaction (caller : string) (id : nat) (repayment_amount : Q)
    (loan : loan_row) (d : user_data) (db : DB) : exec (DB * tx_end reply) :=
  let currency := loan_currency loan in
  let new_balance := (currency_balance_of currency d - repayment_amount)%Q in
  let db := update_wallet currency new_balance caller db in
  let* db := update_credit_named currency repayment_amount (lender_id loan) db in
  let new_repaid_amount := (repaid_amount loan + repayment_amount)%Q in
  let status := if Qleb (loan_amount loan) new_repaid_amount then "completed" else "active" in
  let db := set_loans (map (fun l => if (loan_id l =? id)%nat
                                     then set_loan_repaid new_repaid_amount status l
                                     else l)) db in
  let* db := insert_transaction true
    {| tx_user_id := caller; transaction_type := "loan_repayment";
       tx_amount := repayment_amount; tx_currency := currency;
       tx_description := Loan_repayment id; partner_id := Some (lender_id loan) |} db in
  let* db := insert_transaction true
    {| tx_user_id := lender_id loan; transaction_type := "loan_repayment_received";
       tx_amount := repayment_amount; tx_currency := currency;
       tx_description := Loan_repayment_received id; partner_id := Some caller |} db in
  ret (db, Commit (Loan_Repayment_Processed (loan_amount loan - new_repaid_amount) status)).

Definition repay_loan (caller caller_name : string) (id : nat) (repayment_amount : Q)
    (db : DB) : DB * reply :=
  match find (fun l => (loan_id l =? id)%nat && String.eqb (borrower_id l) caller) (loans db) with
  | None => (db, Loan_not_found_or_you_are_not_the_borrower)
  | Some loan =>
      if negb (String.eqb (loan_status loan) "active") then (db, This_loan_is_not_active)
      else
        let remaining_amount := (loan_amount loan - repaid_amount loan)%Q in
        if Qltb remaining_amount repayment_amount
        then (db, Repayment_amount_exceeds_remaining_balance remaining_amount)
        else if Qleb repayment_amount 0 then (db, Repayment_amount_must_be_positive)
        else
          let '(d, db) := get_user_account caller caller_name db in
          let currency_balance := currency_balance_of (loan_currency loan) d in
          if Qltb currency_balance repayment_amount
          then (db, Insufficient_funds_You_have currency_balance (loan_currency loan))
          else
            run_transaction (repay_loan_transaction caller id repayment_amount loan d)
              (fun _ => Error_processing_loan_repayment) db
  end.

(** ** Currency exchange (lines 7456-7538) *)

Definition get_exchange_rate : Q := 12.

Definition currency_exchange (caller caller_name : string) (amount : Q)
    (from_currency to_currency : string) (db : DB) : DB * reply :=
  if negb (existsb (String.eqb (lower from_currency)) ["gold"; "silver"])
     || negb (existsb (String.eqb (lower to_currency)) ["gold"; "silver"])
  then (db, Currencies_must_be_gold_or_silver)
  else if String.eqb (lower from_currency) (lower to_currency)
  then (db, Cannot_exchange_same_currency)
  else if Qleb amount 0 then (db, Exchange_amount_must_be_positive)
  else
    let '(d, db) := get_user_account caller caller_name db in
    let exchange_rate := get_exchange_rate in
    let exchange (new_gold new_silver received_amount : Q) :=
      run_transaction
        (fun db =>
           let db := set_users
             (alter (fun u => {| username := username u; gold := new_gold;
                                 silver := new_silver |}) (ud_user_id d)) db in
           let* db := insert_transaction true
             {| tx_user_id := ud_user_id d; transaction_type := "currency_exchange";
                tx_amount := amount;
                tx_currency := lower from_currency ++ "_to_" ++ lower to_currency;
                tx_description :=
                  Exchanged_for amount from_currency received_amount to_currency;
                partner_id := None |} db in
           ret (db, Commit (Currency_Exchange_Successful new_gold new_silver)))
        (fun _ => Error_processing_exchange) db in
    if String.eqb (lower from_currency) "gold"
    then
      if Qltb (ud_gold_dinars d) amount then (db, Insufficient_gold_dinars (ud_gold_dinars d))
      else
        let received_amount := (amount * exchange_rate)%Q in
        exchange (ud_gold_dinars d - amount)%Q (ud_silver_dirhams d + received_amount)%Q
                 received_amount
    else
      if Qltb (ud_silver_dirhams d) amount
      then (db, Insufficient_silver_dirhams (ud_silver_dirhams d))
      else
        let received_amount := (amount / exchange_rate)%Q in
        exchange (ud_gold_dinars d + received_amount)%Q (ud_silver_dirhams d - amount)%Q
                 received_amount.

(** ** Bank accounts (lines 4179-4674) *)

Inductive bank_result :=
| bank_error (msg : string)
| Insufficient_wallet_balance (have : Q) (currency : string)
| Insufficient_account_balance (have : Q)
| Insufficient_balance_in_source_account (have : Q)
| account_created (account_id : nat) (account_number institution_name account_type
                   currency : string) (profit_share_ratio : option Q)
| deposit_done (account_number institution_name : string) (amount : Q) (currency : string)
               (new_account_balance new_wallet_balance : Q)
| withdrawal_done (account_number institution_name : string) (amount : Q) (currency : string)
                  (new_account_balance new_wallet_balance : Q)
| transfer_done (from_account to_account from_institution to_institution : string)
                (amount : Q) (currency : string) (new_from_balance new_to_balance : Q).

Definition is_success (r : bank_result) : bool :=
  match r with
  | bank_error _ | Insufficient_wallet_balance _ _ | Insufficient_account_balance _
  | Insufficient_balance_in_source_account _ => false
  | _ => true
  end.

Definition is_account_number_unique (number : string) (db : DB) : bool :=
  (length (List.filter (fun a => String.eqb (account_number a) number)
                       (bank_accounts db)) =? 0)%nat.

(** [draws n] is the value of the [n]-th call of [generate_account_number],
    which draws eight random characters.  [None]: no unique number in
    [max_attempts] draws, the exception of line 4193. *)
Fixpoint generate_unique_account_number_from (draws : nat -> string) (n max_attempts : nat)
    (db : DB) : option string :=
  match max_attempts with
  | O => None
  | S k =>
      if is_account_number_unique (draws n) db then Some (draws n)
      else generate_unique_account_number_from draws (S n) k db
  end.

Definition generate_unique_account_number (draws : nat -> string) (db : DB) : option string :=
  generate_unique_account_number_from draws 0 50 db.

Definition get_user_account_count (user_id : string) (institution_id : nat) (db : DB) : nat :=
  length (List.filter (fun a => String.eqb (owner_user_id a) user_id
                                && (institution_business_id a =? institution_id)%nat
                                && String.eqb (account_status a) "active")
                      (bank_accounts db)).

Definition ratio_in_range (r : option Q) : bool :=
  match r with
  | None => true
  | Some q => Qleb 0 q && Qleb q 1
  end.

(** [INSERT INTO bank_accounts] under the constraints of lines 366-380.
    The connection of [create_bank_account] does not switch foreign keys on. *)
Definition insert_bank_account (row : bank_account_row) (db : DB) : exec DB :=
  if negb (is_account_number_unique (account_number row) db)
  then raise (IntegrityError "UNIQUE constraint failed: bank_accounts.account_number")
  else if negb (existsb (String.eqb (account_type row)) ["wadiah"; "mudarabah"])
          || negb (existsb (String.eqb (account_currency row)) ["gold_dinars"; "silver_dirhams"])
          || negb (Qleb 0 (balance row))
          || negb (ratio_in_range (profit_share_ratio row))
          || negb (existsb (String.eqb (account_status row)) ["active"; "closed"])
  then raise (IntegrityError "CHECK constraint failed")
  else ret (set_bank_accounts (fun t => (t ++ [row])%list) db).

(** [INSERT INTO bank_account_permissions] (lines 401-412). *)
Definition insert_permission (row : permission_row) (db : DB) : exec DB :=
  if negb (existsb (String.eqb (role row)) ["owner"; "joint_owner"; "manager"; "viewer"])
  then raise (IntegrityError "CHECK constraint failed")
  else if existsb (fun p => (perm_account_id p =? perm_account_id row)%nat
                            && String.eqb (perm_user_id p) (perm_user_id row))
                  (bank_account_permissions db)
  then raise (IntegrityError "UNIQUE constraint failed")
  else ret (set_bank_account_permissions (fun t => (t ++ [row])%list) db).

(** [INSERT INTO bank_ledger] under the constraints of lines 384-398,
    among them [CHECK (amount > 0)]. *)
Definition insert_bank_ledger (foreign_keys : bool) (row : bank_ledger_row) (db : DB) : exec DB :=
  if negb (existsb (String.eqb (entry_type row))
             ["deposit"; "withdrawal"; "transfer_in"; "transfer_out"; "profit_share";
              "service_fee"])
     || negb (Qltb 0 (bl_amount row))
     || negb (existsb (String.eqb (bl_currency row)) ["gold_dinars"; "silver_dirhams"])
  then raise (IntegrityError "CHECK constraint failed")
  else if foreign_keys
          && (negb (existsb (fun a => (account_id a =? bl_account_id row)%nat) (bank_accounts db))
              || negb (user_exists (created_by_user_id row) db)
              || match counterparty_account_id row with
                 | Some i => negb (existsb (fun a => (account_id a =? i)%nat) (bank_accounts db))
                 | None => false
                 end)
  then raise (IntegrityError "FOREIGN KEY constraint failed")
  else ret (set_bank_ledger (fun t => (t ++ [row])%list) db).

(** [created_by_user_id or owner_user_id] *)
Definition or_default (o : option string) (d : string) : string :=
  match o with
  | Some s => if String.eqb s "" then d else s
  | None => d
  end.

(** Lines 4320-4346: the statements up to [conn.commit()]. *)
Definition create_bank_account_transaction (draws : nat -> string) (owner_user_id : string)
    (institution_business_id : nat) (account_type currency : string)
    (profit_share_ratio : option Q) (created_by_user_id : option string)
    (business_name : string) (db : DB) : exec (DB * tx_end bank_result) :=
  let* account_number :=
    match generate_unique_account_number draws db with
    | Some n => ret n
    | None => raise (PythonException "Unable to generate unique account number after 50 attempts")
    end in
  let account_id := next_id (map account_id (bank_accounts db)) in
  let* db := insert_bank_account
    {| account_id := account_id; account_number := account_number;
       institution_business_id := institution_business_id;
       owner_user_id := owner_user_id; account_type := account_type;
       account_currency := currency; balance := 0;
       profit_share_ratio := profit_share_ratio; account_status := "active" |} db in
  let* db := insert_permission
    {| perm_account_id := account_id; perm_user_id := owner_user_id; role := "owner" |} db in
  let created_by := or_default created_by_user_id owner_user_id in
  let* db := insert_bank_ledger false
    {| bl_account_id := account_id; entry_type := "deposit"; bl_amount := 0;
       bl_currency := currency; bl_description := "Account opened";
       counterparty_account_id := None; created_by_user_id := created_by |} db in
  ret (db, Commit (account_created account_id account_number business_name account_type
                     currency profit_share_ratio)).

Definition create_bank_account (draws : nat -> string) (owner_user_id : string)
    (institution_business_id : nat) (account_type currency : string)
    (profit_share_ratio : option Q) (created_by_user_id : option string)
    (db : DB) : DB * bank_result :=
  if negb (existsb (String.eqb account_type) ["wadiah"; "mudarabah"])
  then (db, bank_error "Invalid account type. Must be wadiah or mudarabah.")
  else if negb (existsb (String.eqb currency) ["gold_dinars"; "silver_dirhams"])
  then (db, bank_error "Invalid currency. Must be gold_dinars or silver_dirhams.")
  else if String.eqb account_type "mudarabah"
          && match profit_share_ratio with
             | None => true
             | Some r => Qltb r 0 || Qltb 1 r
             end
  then (db, bank_error "Mudarabah accounts require profit_share_ratio between 0 and 1.")
  else if negb (String.eqb account_type "mudarabah")
          && bool_decide (is_Some profit_share_ratio)
  then (db, bank_error "Wadiah accounts cannot have profit sharing.")
  else if (5 <=? get_user_account_count owner_user_id institution_business_id db)%nat
  then (db, bank_error "Maximum 5 accounts per institution reached.")
  else
    match find (fun b => (business_id b =? institution_business_id)%nat
                         && String.eqb (business_type b) "islamic_finance"
                         && String.eqb (business_status b) "active"
                         && bool_decide (is_Some (license_code b)))
               (businesses db) with
    | None => (db, bank_error "Institution not found or not a valid Islamic finance business.")
    | Some institution =>
        run_transaction
          (create_bank_account_transaction draws owner_user_id institution_business_id
             account_type currency profit_share_ratio created_by_user_id
             (business_name institution))
          (fun _ => bank_error "Database error occurred during account creation.") db
    end.

(** The join of [bank_accounts] with [businesses] on the institution,
    restricted to one account id and to active accounts. *)
Definition select_active_account (id : nat) (db : DB) : option (bank_account_row * string) :=
  match find (fun a => (account_id a =? id)%nat && String.eqb (account_status a) "active"
                       && existsb (fun b => (business_id b =? institution_business_id a)%nat)
                                  (businesses db))
             (bank_accounts db) with
  | Some a =>
      match find (fun b => (business_id b =? institution_business_id a)%nat) (businesses db) with
      | Some b => Some (a, business_name b)
      | None => None
      end
  | None => None
  end.

(** Owner of the account, or a permission row with role owner,
    joint_owner or manager. *)
Definition may_operate (a : bank_account_row) (user_id : string) (db : DB) : bool :=
  String.eqb (owner_user_id a) user_id
  || existsb (fun p => (perm_account_id p =? account_id a)%nat
                       && String.eqb (perm_user_id p) user_id
                       && existsb (String.eqb (role p)) ["owner"; "joint_owner"; "manager"])
             (bank_account_permissions db).

Definition set_account_balance (v : Q) (a : bank_account_row) : bank_account_row :=
  {| account_id := account_id a; account_number := account_number a;
     institution_business_id := institution_business_id a;
     owner_user_id := owner_user_id a; account_type := account_type a;
     account_currency := account_currency a; balance := v;
     profit_share_ratio := profit_share_ratio a; account_status := account_status a |}.

(** [UPDATE bank_accounts SET balance = ? WHERE id = ?] under
    [CHECK (balance >= 0)]. *)
Definition update_account_balance (v : Q) (id : nat) (db : DB) : exec DB :=
  if existsb (fun a => (account_id a =? id)%nat) (bank_accounts db) && negb (Qleb 0 v)
  then raise (IntegrityError "CHECK constraint failed: balance >= 0")
  else ret (set_bank_accounts
              (map (fun a => if (account_id a =? id)%nat then set_account_balance v a else a)) db).

Definition bank_deposit (id : nat) (user_id : string) (amount : Q) (db : DB) : DB * bank_result :=
  if Qleb amount 0 then (db, bank_error "Deposit amount must be positive.")
  else
    match select_active_account id db with
    | None => (db, bank_error "Account not found or inactive.")
    | Some (account, institution_name) =>
        if negb (may_operate account user_id db)
        then (db, bank_error "You do not have permission to deposit to this account.")
        else
          let currency := account_currency account in
          let '(d, db) := get_user_account user_id "" db in
          let wallet_balance := currency_balance_of currency d in
          if Qltb wallet_balance amount
          then (db, Insufficient_wallet_balance wallet_balance currency)
          else
            let new_wallet_balance := (currency_balance_of currency d - amount)%Q in
            let new_account_balance := (balance account + amount)%Q in
            run_transaction
              (fun db =>
                 let db := update_wallet currency new_wallet_balance user_id db in
                 let* db := update_account_balance new_account_balance id db in
                 let* db := insert_bank_ledger true
                   {| bl_account_id := id; entry_type := "deposit"; bl_amount := amount;
                      bl_currency := currency; bl_description := "Deposit from wallet";
                      counterparty_account_id := None; created_by_user_id := user_id |} db in
                 let* db := insert_transaction true
                   {| tx_user_id := user_id; transaction_type := "bank_deposit";
                      tx_amount := amount; tx_currency := currency;
                      tx_description := Deposit_to_bank_account (account_number account);
                      partner_id := None |} db in
                 ret (db, Commit (deposit_done (account_number account) institution_name amount
                                    currency new_account_balance new_wallet_balance)))
              (fun _ => bank_error "Database error occurred during deposit.") db
    end.

Definition bank_withdraw (id : nat) (user_id : string) (amount : Q) (db : DB) : DB * bank_result :=
  if Qleb amount 0 then (db, bank_error "Withdrawal amount must be positive.")
  else
    match select_active_account id db with
    | None => (db, bank_error "Account not found or inactive.")
    | Some (account, institution_name) =>
        if negb (may_operate account user_id db)
        then (db, bank_error "You do not have permission to withdraw from this account.")
        else if Qltb (balance account) amount
        then (db, Insufficient_account_balance (balance account))
        else
          let currency := account_currency account in
          let '(d, db) := get_user_account user_id "" db in
          let new_account_balance := (balance account - amount)%Q in
          let new_wallet_balance := (currency_balance_of currency d + amount)%Q in
          run_transaction
            (fun db =>
               let* db := update_account_balance new_account_balance id db in
               let db := update_wallet currency new_wallet_balance user_id db in
               let* db := insert_bank_ledger true
                 {| bl_account_id := id; entry_type := "withdrawal"; bl_amount := amount;
                    bl_currency := currency; bl_description := "Withdrawal to wallet";
                    counterparty_account_id := None; created_by_user_id := user_id |} db in
               let* db := insert_transaction true
                 {| tx_user_id := user_id; transaction_type := "bank_withdrawal";
                    tx_amount := amount; tx_currency := currency;
                    tx_description := Withdrawal_from_bank_account (account_number account);
                    partner_id := None |} db in
               ret (db, Commit (withdrawal_done (account_number account) institution_name amount
                                  currency new_account_balance new_wallet_balance)))
            (fun _ => bank_error "Database error occurred during withdrawal.") db
    end.

(** [description]: the optional argument of [bank_transfer]; [None] or
    the empty string give 'Transfer to <number>'. *)
Definition bank_transfer (from_account_id to_account_id : nat) (user_id : string) (amount : Q)
    (description : option string) (db : DB) : DB * bank_result :=
  if Qleb amount 0 then (db, bank_error "Transfer amount must be positive.")
  else if (from_account_id =? to_account_id)%nat
  then (db, bank_error "Cannot transfer to the same account.")
  else
    match select_active_account from_account_id db, select_active_account to_account_id db with
    | Some (from_account, from_institution), Some (to_account, to_institution) =>
        if negb (String.eqb (account_currency from_account) (account_currency to_account))
        then (db, bank_error "Cannot transfer between different currencies.")
        else if negb (may_operate from_account user_id db)
        then (db, bank_error "You do not have permission to transfer from the source account.")
        else if Qltb (balance from_account) amount
        then (db, Insufficient_balance_in_source_account (balance from_account))
        else
          let new_from_balance := (balance from_account - amount)%Q in
          let new_to_balance := (balance to_account + amount)%Q in
          let description :=
            or_default description ("Transfer to " ++ account_number to_account) in
          run_transaction
            (fun db =>
               let* db := update_account_balance new_from_balance from_account_id db in
               let* db := update_account_balance new_to_balance to_account_id db in
               let* db := insert_bank_ledger true
                 {| bl_account_id := from_account_id; entry_type := "transfer_out";
                    bl_amount := amount; bl_currency := account_currency from_account;
                    bl_description := description;
                    counterparty_account_id := Some to_account_id;
                    created_by_user_id := user_id |} db in
               let* db := insert_bank_ledger true
                 {| bl_account_id := to_account_id; entry_type := "transfer_in";
                    bl_amount := amount; bl_currency := account_currency to_account;
                    bl_description := "Transfer from " ++ account_number from_account;
                    counterparty_account_id := Some from_account_id;
                    created_by_user_id := user_id |} db in
               let* db := insert_transaction true
                 {| tx_user_id := user_id; transaction_type := "bank_transfer";
                    tx_amount := amount; tx_currency := account_currency from_account;
                    tx_description :=
                      Transfer_from_to (account_number from_account) (account_number to_account);
                    partner_id := None |} db in
               ret (db, Commit (transfer_done (account_number from_account)
                                  (account_number to_account) from_institution to_institution
                                  amount (account_currency from_account)
                                  new_from_balance new_to_balance)))
            (fun _ => bank_error "Database error occurred during transfer.") db
    | _, _ => (db, bank_error "One or both accounts not found or inactive.")
    end.

(** ** The overdue-loan sweep (lines 5139-5351) *)

(** The tuple selected by [check_overdue_loans]. *)
Record overdue_loan := {
  od_borrower_id : string;
  od_due_date : Z;
  od_loan_amount : Q;
  od_repaid_amount : Q;
  od_id : nat;
}.

(** [today] is the date of [datetime.datetime.now()]; the cutoff is the
    date fourteen days before it. *)
Definition check_overdue_loans (today : Z) (db : DB) : list overdue_loan :=
  let cutoff_date := (today - 14)%Z in
  map (fun l => {| od_borrower_id := borrower_id l; od_due_date := due_date l;
                   od_loan_amount := loan_amount l; od_repaid_amount := repaid_amount l;
                   od_id := loan_id l |})
      (List.filter (fun l => String.eqb (loan_status l) "active"
                             && (due_date l <? cutoff_date)%Z
                             && Qltb (repaid_amount l) (loan_amount l))
                   (loans db)).

(** The columns assigned by the [UPDATE users] of [reset_user_data]
    (lines 5180-5197). *)
Definition reset_user_data_columns : list string :=
  ["gold_dinars"; "silver_dirhams"; "last_work_date"; "last_community_service";
   "last_quran_recitation"; "last_skill_development"; "last_mentoring"; "current_job";
   "daily_earnings"; "skill_count"; "charity_count"; "quran_count"; "mentoring_count";
   "service_count"].

(** The first column a statement names that its table does not have:
    SQLite refuses to prepare such a statement. *)
Definition missing_column (table_columns statement_columns : list string) : option string :=
  find (fun c => negb (existsb (String.eqb c) table_columns)) statement_columns.

(** [UPDATE users SET gold_dinars = 0, silver_dirhams = 0, ... WHERE user_id = ?] *)
Definition update_users_reset (user_id : string) (db : DB) : exec DB :=
  match missing_column users_columns reset_user_data_columns with
  | Some c => raise (OperationalError ("no such column: " ++ c))
  | None =>
      ret (set_users (alter (fun u => {| username := username u; gold := 0; silver := 0 |})
                            user_id) db)
  end.

Definition set_business_status (s : string) (b : business_row) : business_row :=
  {| business_id := business_id b; business_owner := business_owner b;
     business_name := business_name b; business_type := business_type b;
     business_status := s; license_code := license_code b |}.

Definition set_application_status (s : string) (a : application_row) : application_row :=
  {| app_id := app_id a; app_borrower_id := app_borrower_id a;
     borrower_name := borrower_name a; app_loan_amount := app_loan_amount a;
     app_currency := app_currency a; repayment_days := repayment_days a;
     app_due_date := app_due_date a; purpose := purpose a;
     app_status := s; funded_by := funded_by a |}.

Definition set_loan_status (s : string) (l : loan_row) : loan_row :=
  {| loan_id := loan_id l; lender_id := lender_id l; borrower_id := borrower_id l;
     loan_amount := loan_amount l; loan_currency := loan_currency l;
     due_date := due_date l; repaid_amount := repaid_amount l; loan_status := s |}.

Definition set_investment_status (s : string) (i : investment_row) : investment_row :=
  {| inv_user_id := inv_user_id i; inv_status := s |}.

(** Lines 5173-5227: the statements up to [conn.commit()]. *)
Definition reset_user_data_transaction (user_id : string) (reason : description) (db : DB)
    : exec (DB * tx_end bool) :=
  let* db := insert_transaction true
    {| tx_user_id := user_id; transaction_type := "account_reset"; tx_amount := 0;
       tx_currency := "system"; tx_description := reason; partner_id := None |} db in
  let* db := update_users_reset user_id db in
  let db := set_businesses
    (map (fun b => if String.eqb (business_owner b) user_id
                      && String.eqb (business_status b) "active"
                   then set_business_status "closed" b else b)) db in
  let db := set_loan_applications
    (map (fun a => if String.eqb (app_borrower_id a) user_id
                      && String.eqb (app_status a) "pending"
                   then set_application_status "cancelled" a else a)) db in
  let db := set_loans
    (map (fun l => if String.eqb (borrower_id l) user_id
                      && String.eqb (loan_status l) "active"
                   then set_loan_status "defaulted" l else l)) db in
  let db := set_investments
    (map (fun i => if String.eqb (inv_user_id i) user_id
                      && String.eqb (inv_status i) "active"
                   then set_investment_status "cancelled" i else i)) db in
  let db := set_marketplace
    (List.filter (fun m => negb (String.eqb (seller_id m) user_id))) db in
  ret (db, Commit true).

Definition reset_user_data (user_id : string) (reason : description) (db : DB) : DB * bool :=
  run_transaction (reset_user_data_transaction user_id reason) (fun _ => false) db.

(** What the sweep hands to the notification sink. *)
Inductive notification :=
| overdue_warning (user_id : string) (days_overdue : Z)
| reset_notice (user_id : string) (reason : description).

(** The body of the [for] loop of [process_overdue_loans], threading the
    database, the set [processed_users] and the notifications sent. *)
Definition process_overdue_loan (today : Z) (o : overdue_loan)
    (st : DB * list string * list notification) : DB * list string * list notification :=
  let '(db, processed_users, sent) := st in
  let user_id := od_borrower_id o in
  if existsb (String.eqb user_id) processed_users then st
  else
    let days_overdue := (today - od_due_date o)%Z in
    if (14 <=? days_overdue)%Z then
      let remaining := (od_loan_amount o - od_repaid_amount o)%Q in
      let reset_reason := Account_reset_Loan_default remaining days_overdue in
      let '(db, ok) := reset_user_data user_id reset_reason db in
      (db, user_id :: processed_users,
       if ok then (sent ++ [reset_notice user_id reset_reason])%list else sent)
    else if (7 <=? days_overdue)%Z then
      (db, user_id :: processed_users, (sent ++ [overdue_warning user_id days_overdue])%list)
    else st.

Definition process_overdue_loans (today : Z) (db : DB) : DB * list notification :=
  let overdue_loans := check_overdue_loans today db in
  let '(db, _, sent) :=
    fold_left (fun st o => process_overdue_loan today o st) overdue_loans (db, [], []) in
  (db, sent).

(** ** GET /api/balance (lines 514-541) *)



(** ** The trade proposal (lines 1692-1751) *)

Inductive trade_reply :=
| Currency_must_be_gold_or_silver
| Trade_amount_must_be_positive
| Cannot_trade_with_yourself
| Trade_insufficient_gold_dinars (have : Q)
| Trade_insufficient_silver_dirhams (have : Q)
| Trade_Proposal (sender receiver : string) (amount : Q) (currency : string).

Definition trade (caller caller_name partner partner_name : string) (amount : Q)
    (currency : string) (db : DB) : DB * trade_reply :=
  if negb (existsb (String.eqb (lower currency)) ["gold"; "silver"])
  then (db, Currency_must_be_gold_or_silver)
  else if Qleb amount 0 then (db, Trade_amount_must_be_positive)
  else if String.eqb partner caller then (db, Cannot_trade_with_yourself)
  else
    let '(user_data, db) := get_user_account caller caller_name db in
    let '(partner_data, db) := get_user_account partner partner_name db in
    if String.eqb (lower currency) "gold" && Qltb (ud_gold_dinars user_data) amount
    then (db, Trade_insufficient_gold_dinars (ud_gold_dinars user_data))
    else if String.eqb (lower currency) "silver" && Qltb (ud_silver_dirhams user_data) amount
    then (db, Trade_insufficient_silver_dirhams (ud_silver_dirhams user_data))
    else (db, Trade_Proposal caller_name partner_name amount currency).

(** ** License codes (lines 883-913) *)

Definition is_license_code_unique (code : string) (db : DB) : bool :=
  (length (List.filter (fun b => match license_code b with
                                 | Some c => String.eqb c code
                                 | None => false
                                 end) (businesses db)) =? 0)%nat.

(** [draws n] is the value of the [n]-th call of
    [generate_business_license_code]; [None] is the exception raised
    after [max_attempts] draws. *)
Fixpoint generate_unique_license_code_from (draws : nat -> string) (n max_attempts : nat)
    (db : DB) : option string :=
  match max_attempts with
  | O => None
  | S k =>
      if is_license_code_unique (draws n) db then Some (draws n)
      else generate_unique_license_code_from draws (S n) k db
  end.

Definition generate_unique_license_code (draws : nat -> string) (db : DB) : option string :=
  generate_unique_license_code_from draws 0 50 db.

(** * Vocabulary of the properties *)

Module Ledger.

(** The system-wide total of one currency over all wallets. *)
Definition sum_Q (l : list Q) : Q := foldr Qplus 0%Q l.

Definition total_balance (c : column) (db : DB) : Q :=
  sum_Q (map (fun p => balance_of c (snd p)) (map_to_list (users db))).

(** The gates of [transfer_money] in front of [BEGIN IMMEDIATE]
    (lines 546-572): the parties, amount, currency name and column of a
    request that passes all of them. *)
Definition validated_request (API_TOKEN : string) (req : pay_request)
    : option (string * string * Q * string * column) :=
  if negb (verify_api_token API_TOKEN (bearer req)) then None
  else
    match json req with
    | None => None
    | Some data =>
        let amt := default 0%Q (amount data) in
        let cur := default "gold_dinars" (currency data) in
        match from_user data, to_user data, currency_column cur with
        | Some a, Some b, Some c =>
            if validate_user_id (Some a) && validate_user_id (Some b)
               && validate_amount amt && negb (String.eqb a b)
            then Some (a, b, amt, cur, c)
            else None
        | _, _, _ => None
        end
    end.

Definition send_row (a b : string) (amt : Q) (cur : string) : transaction_row :=
  {| tx_user_id := a; transaction_type := "transfer_send"; tx_amount := amt;
     tx_currency := cur; tx_description := Minecraft_transfer; partner_id := Some b |}.

Definition receive_row (a b : string) (amt : Q) (cur : string) : transaction_row :=
  {| tx_user_id := b; transaction_type := "transfer_receive"; tx_amount := amt;
     tx_currency := cur; tx_description := Minecraft_transfer; partner_id := Some a |}.

(** No wallet holds a negative balance. *)
Definition balances_nonneg (db : DB) : Prop :=
  map_Forall (fun _ u => (0 <= gold u)%Q /\ (0 <= silver u)%Q) (users db).

(** Pending applications ask for a positive amount, as [apply_for_loan]
    (line 3666) makes sure of every row it inserts. *)
Definition applications_positive (db : DB) : Prop :=
  Forall (fun a => app_status a = "pending" -> (0 < app_loan_amount a)%Q)
         (loan_applications db).

(** The invariant of the wallets; it reads [users] and
    [loan_applications] only. *)
Definition inv (db : DB) : Prop := balances_nonneg db /\ applications_positive db.

(** The money operations, each with the arguments of its handler. *)
Inductive operation :=
| op_transfer_money (API_TOKEN : string) (req : pay_request)
| op_apply_for_loan (today : Z) (caller caller_name : string) (loan_amount : Q)
                    (currency : string) (repayment_days : Z) (purpose : string)
| op_fund_loan (caller caller_name : string) (application_id : nat)
| op_repay_loan (caller caller_name : string) (id : nat) (repayment_amount : Q)
| op_bank_deposit (id : nat) (user_id : string) (amount : Q)
| op_bank_withdraw (id : nat) (user_id : string) (amount : Q)
| op_bank_transfer (from_account_id to_account_id : nat) (user_id : string) (amount : Q)
                   (description : option string)
| op_currency_exchange (caller caller_name : string) (amount : Q)
                       (from_currency to_currency : string)
| op_create_bank_account (draws : nat -> string) (owner_user_id : string)
                         (institution_business_id : nat) (account_type currency : string)
                         (profit_share_ratio : option Q) (created_by_user_id : option string)
| op_process_overdue_loans (today : Z).

(** The database a handler leaves behind. *)
Definition step (db : DB) (op : operation) : DB :=
  match op with
  | op_transfer_money t r => fst (transfer_money t r db)
  | op_apply_for_loan t c n a cur d p => fst (apply_for_loan t c n a cur d p db)
  | op_fund_loan c n i => fst (fund_loan c n i db)
  | op_repay_loan c n i a => fst (repay_loan c n i a db)
  | op_bank_deposit i u a => fst (bank_deposit i u a db)
  | op_bank_withdraw i u a => fst (bank_withdraw i u a db)
  | op_bank_transfer f t u a d => fst (bank_transfer f t u a d db)
  | op_currency_exchange c n a f t => fst (currency_exchange c n a f t db)
  | op_create_bank_account dr o i ty cur r cb =>
      fst (create_bank_account dr o i ty cur r cb db)
  | op_process_overdue_loans t => fst (process_overdue_loans t db)
  end.

(** Handlers run one after the other. *)
Definition run (ops : list operation) (db : DB) : DB := fold_left step ops db.

Definition loan_ids_unique (db : DB) : Prop := NoDup (map loan_id (loans db)).

Definition application_ids_unique (db : DB) : Prop :=
  NoDup (map app_id (loan_applications db)).

(** The row written by the [UPDATE loans] of an accepted repayment of
    [amt] on [loan] (lines 3980-3984). *)
Definition repaid_row (loan : loan_row) (amt : Q) (l : loan_row) : loan_row :=
  set_loan_repaid (repaid_amount loan + amt)
    (if Qleb (loan_amount loan) (repaid_amount loan + amt) then "completed" else "active") l.

(** Type and ratio of every account, in table order. *)
Definition bank_profile (db : DB) : list (string * option Q) :=
  map (fun a => (account_type a, profit_share_ratio a)) (bank_accounts db).

(** The ratio of an account is present exactly for the profit-sharing type. *)
Definition ratio_iff_mudarabah (db : DB) : Prop :=
  Forall (fun a => is_Some (profit_share_ratio a) <-> account_type a = "mudarabah")
         (bank_accounts db).

(** A request whose ratio does not fit its account type. *)
Definition bad_ratio (account_type : string) (r : option Q) : Prop :=
  (account_type = "mudarabah"
   /\ (r = None \/ exists q, r = Some q /\ ((q < 0)%Q \/ (1 < q)%Q)))
  \/ (account_type = "wadiah" /\ is_Some r).

Definition is_validation_error (r : bank_result) : Prop :=
  r = bank_error "Invalid account type. Must be wadiah or mudarabah."
  \/ r = bank_error "Invalid currency. Must be gold_dinars or silver_dirhams."
  \/ r = bank_error "Mudarabah accounts require profit_share_ratio between 0 and 1."
  \/ r = bank_error "Wadiah accounts cannot have profit sharing."
  \/ r = bank_error "Maximum 5 accounts per institution reached."
  \/ r = bank_error "Institution not found or not a valid Islamic finance business.".

End Ledger.

(** ** Concrete databases used below *)

Module Sample.

Definition alice : string := "11111111111111111".
Definition bob : string := "22222222222222222".
Definition carol : string := "33333333333333333".

Definition wallets : gmap string user_row :=
  <[alice := {| username := "alice"; gold := 100; silver := 500 |}]>
    (<[bob := {| username := "bob"; gold := 0; silver := 20 |}]> ∅).

Definition db0 : DB := set_users (fun _ => wallets) empty_db.

Definition pay (from to : string) (amt : Q) : pay_request :=
  {| bearer := "token";
     json := Some {| from_user := Some from; to_user := Some to; amount := Some amt;
                     currency := Some "gold_dinars" |} |}.

(** Bob borrowed 50 gold dinars from Alice, due on day [due]. *)
Definition loan_due (due : Z) : loan_row :=
  {| loan_id := 1; lender_id := alice; borrower_id := bob; loan_amount := 50;
     loan_currency := "gold_dinars"; due_date := due; repaid_amount := 0;
     loan_status := "active" |}.

Definition db_loan (due : Z) : DB := set_loans (fun _ => [loan_due due]) db0.

(** The same after Bob received the 50 gold dinars. *)
Definition db_borrowed (due : Z) : DB :=
  set_users (insert bob {| username := "bob"; gold := 50; silver := 20 |}) (db_loan due).

Definition application (status : string) : application_row :=
  {| app_id := 1; app_borrower_id := bob; borrower_name := "bob"; app_loan_amount := 50;
     app_currency := "silver_dirhams"; repayment_days := 30; app_due_date := 130;
     purpose := "tools for the workshop"; app_status := status; funded_by := None |}.

Definition db_application (status : string) : DB :=
  set_loan_applications (fun _ => [application status]) db0.

Definition bank : business_row :=
  {| business_id := 1; business_owner := alice; business_name := "Bayt al-Mal";
     business_type := "islamic_finance"; business_status := "active";
     license_code := Some "BLI-AAAAA-BBBBB" |}.

Definition db_bank : DB := set_businesses (fun _ => [bank]) db0.

(** Carol, who has no row in [users], applied for 50 silver dirhams. *)
Definition orphan_application : application_row :=
  {| app_id := 1; app_borrower_id := carol; borrower_name := "carol";
     app_loan_amount := 50; app_currency := "silver_dirhams"; repayment_days := 30;
     app_due_date := 130; purpose := "tools for the workshop"; app_status := "pending";
     funded_by := None |}.

Definition db_orphan_application : DB :=
  set_loan_applications (fun _ => [orphan_application]) db0.

(** Alice owes 50 silver dirhams to Carol, who has no row in [users]. *)
Definition orphan_loan : loan_row :=
  {| loan_id := 1; lender_id := carol; borrower_id := alice; loan_amount := 50;
     loan_currency := "silver_dirhams"; due_date := 130; repaid_amount := 0;
     loan_status := "active" |}.

Definition db_orphan_loan : DB := set_loans (fun _ => [orphan_loan]) db0.

Definition draws (n : nat) : string := "IBK-AAAAAAAA".

(** A day in the life of the ledger. *)
Definition day : list Ledger.operation :=
  [Ledger.op_transfer_money "token" (pay alice bob 30);
   Ledger.op_currency_exchange alice "alice" 10 "gold" "silver";
   Ledger.op_apply_for_loan 100 bob "bob" 50 "gold_dinars" 30 "tools for the workshop";
   Ledger.op_fund_loan alice "alice" 1;
   Ledger.op_repay_loan bob "bob" 1 80;
   Ledger.op_repay_loan bob "bob" 1 20;
   Ledger.op_bank_withdraw 1 bob 5;
   Ledger.op_process_overdue_loans 200].

End Sample.


(** ** Vocabulary of the further properties *)


(** The columns of a loan, of an application and of a bank account that
    no statement writes once the row is inserted. *)
Definition loan_terms (l : loan_row) : nat * string * string * Q * string * Z :=
  (loan_id l, lender_id l, borrower_id l, loan_amount l, loan_currency l, due_date l).

Definition application_terms (a : application_row)
    : nat * string * string * Q * string * Z * Z * string :=
  (app_id a, app_borrower_id a, borrower_name a, app_loan_amount a, app_currency a,
   repayment_days a, app_due_date a, purpose a).

Definition account_terms (a : bank_account_row)
    : nat * string * nat * string * string * string * option Q * string :=
  (account_id a, account_number a, institution_business_id a, owner_user_id a,
   account_type a, account_currency a, profit_share_ratio a, account_status a).

(** [extends db db']: the history of [db] is still in [db'].  The two
    logs and the two loan tables have only grown at the end, every user
    is still there under the same name, and the remaining tables are as
    they were, the balances of the bank accounts apart. *)
Definition extends (db db' : DB) : Prop :=
  transactions db `prefix_of` transactions db'
  /\ bank_ledger db `prefix_of` bank_ledger db'
  /\ map loan_terms (loans db) `prefix_of` map loan_terms (loans db')
  /\ map application_terms (loan_applications db)
       `prefix_of` map application_terms (loan_applications db')
  /\ map account_terms (bank_accounts db') = map account_terms (bank_accounts db)
  /\ (forall k u, users db !! k = Some u ->
                  exists u', users db' !! k = Some u' /\ username u' = username u)
  /\ businesses db' = businesses db /\ investments db' = investments db
  /\ marketplace db' = marketplace db
  /\ bank_account_permissions db' = bank_account_permissions db.

(** [SELECT COUNT( * ) FROM loan_applications WHERE borrower_id = ? AND
    status = 'pending'] (lines 3684-3689). *)
Definition pending_count (borrower : string) (db : DB) : nat :=
  length (List.filter (fun a => String.eqb (app_borrower_id a) borrower
                                && String.eqb (app_status a) "pending")
                      (loan_applications db)).

(** [CHECK (balance >= 0)] on every row of [bank_accounts]. *)
Definition bank_balances_nonneg (db : DB) : Prop :=
  Forall (fun a => (0 <= balance a)%Q) (bank_accounts db).


(** The row [UPDATE bank_accounts SET balance = ? WHERE id = ?] leaves
    in the place of [a]. *)
Definition with_balance (id : nat) (v : Q) (a : bank_account_row) : bank_account_row :=
  if (account_id a =? id)%nat then set_account_balance v a else a.

(** [user_id] may move money out of or into the active account [id]:
    as its owner, or through a permission row with one of the three
    operating roles (lines 4394-4403, 4490-4499, 4603-4612). *)
Definition authorised (user_id : string) (id : nat) (db : DB) : Prop :=
  exists a, a ∈ bank_accounts db /\ account_id a = id /\ account_status a = "active"
    /\ (owner_user_id a = user_id
        \/ exists p, p ∈ bank_account_permissions db
                     /\ perm_account_id p = id /\ perm_user_id p = user_id
                     /\ (role p = "owner" \/ role p = "joint_owner" \/ role p = "manager")).

(** A bank with two accounts in gold dinars: account 1 of Alice, which
    Carol may view and no more, and account 2 of Bob. *)
Definition account_of (id : nat) (number owner : string) (v : Q) : bank_account_row :=
  {| account_id := id; account_number := number; institution_business_id := 1;
     owner_user_id := owner; account_type := "wadiah"; account_currency := "gold_dinars";
     balance := v; profit_share_ratio := None; account_status := "active" |}.

Definition db_accounts : DB :=
  set_bank_account_permissions
    (fun _ => [{| perm_account_id := 1; perm_user_id := Sample.carol; role := "viewer" |}])
    (set_bank_accounts
       (fun _ => [account_of 1 "IBK-AAAAAAAA" Sample.alice 40;
                  account_of 2 "IBK-BBBBBBBB" Sample.bob 0])
       Sample.db_bank).

Definition banking_day : list Ledger.operation :=
  [Ledger.op_bank_deposit 1 Sample.alice 10;
   Ledger.op_bank_transfer 1 2 Sample.alice 25 None;
   Ledger.op_bank_withdraw 2 Sample.bob 5;
   Ledger.op_bank_withdraw 1 Sample.carol 5].





(** A database with a history: two loans, one funded application and
    one pending. *)
Definition db_busy : DB :=
  set_loans
    (fun _ => [Sample.loan_due 130;
               {| loan_id := 2; lender_id := Sample.bob; borrower_id := Sample.alice;
                  loan_amount := 5; loan_currency := "silver_dirhams"; due_date := 140;
                  repaid_amount := 0; loan_status := "active" |}])
    (set_loan_applications
       (fun _ => [Sample.application "funded";
                  {| app_id := 2; app_borrower_id := Sample.alice; borrower_name := "alice";
                     app_loan_amount := 10; app_currency := "silver_dirhams";
                     repayment_days := 20; app_due_date := 120;
                     purpose := "a new loom for the shop"; app_status := "pending";
                     funded_by := None |}])
       Sample.db0).

(** Two applications, two fundings and a repayment on top of it. *)
Definition busy_day : list Ledger.operation :=
  [Ledger.op_apply_for_loan 100 Sample.bob "bob" 15 "silver_dirhams" 30 "seed for the spring";
   Ledger.op_fund_loan Sample.bob "bob" 2;
   Ledger.op_fund_loan Sample.alice "alice" 3;
   Ledger.op_apply_for_loan 101 Sample.alice "alice" 5 "gold_dinars" 10
     "repairs of the roof";
   Ledger.op_repay_loan Sample.bob "bob" 4 15].

(** Bob applies four times in a row. *)
Definition four_applications : list Ledger.operation :=
  [Ledger.op_apply_for_loan 100 Sample.bob "bob" 10 "gold_dinars" 30 "tools for the workshop";
   Ledger.op_apply_for_loan 100 Sample.bob "bob" 20 "silver_dirhams" 60 "seed for the spring";
   Ledger.op_apply_for_loan 101 Sample.bob "bob" 30 "gold_dinars" 90 "repairs of the roof";
   Ledger.op_apply_for_loan 102 Sample.bob "bob" 40 "silver_dirhams" 10
     "a new loom for the shop"].

(** * The same handlers on binary64

    Python floats and the [REAL] columns of SQLite are IEEE 754 binary64
    numbers.  [Double] embeds the two handlers whose stated properties
    depend on how sums and differences are rounded, [transfer_money]
    and [repay_loan], with that arithmetic: the operations are those of
    [SpecFloat] at precision 53 and maximal exponent 1024, the
    comparisons are the IEEE comparisons, false on a NaN. *)

Module Double.

Definition float : Type := spec_float.

Definition prec : Z := 53.
Definition emax : Z := 1024.

Definition add : float -> float -> float := SFadd prec emax.
Definition sub : float -> float -> float := SFsub prec emax.
Definition div : float -> float -> float := SFdiv prec emax.
Definition ltb : float -> float -> bool := SFltb.
Definition leb : float -> float -> bool := SFleb.

(** [float(n)] for an integer [n]. *)
Definition of_Z (n : Z) : float := binary_normalize prec emax n 0 false.

(** The double a decimal literal denotes: [decimal 1 10] is [0.1], the
    double nearest to one tenth. *)
Definition decimal (n d : Z) : float := div (of_Z n) (of_Z d).

Definition zero : float := S754_zero false.

(** The number a double stands for; an infinity or a NaN stands for none
    and is given 0. *)
Definition value (x : float) : Q :=
  match x with
  | S754_finite s m e => (if s then - inject_Z (Zpos m) else inject_Z (Zpos m)) * 2 ^ e
  | _ => 0
  end.



Record user_row := {
  username : string;
  gold : float;
  silver : float;
}.

Record transaction_row := {
  tx_user_id : string;
  transaction_type : string;
  tx_amount : float;
  tx_currency : string;
  tx_description : description;
  partner_id : option string;
}.

Record loan_row := {
  loan_id : nat;
  lender_id : string;
  borrower_id : string;
  loan_amount : float;
  loan_currency : string;
  due_date : Z;
  repaid_amount : float;
  loan_status : string;
}.

(** The tables the two handlers read and write. *)
Record DB := {
  users : gmap string user_row;
  transactions : list transaction_row;
  loans : list loan_row;
}.

Definition set_users (f : gmap string user_row -> gmap string user_row) (db : DB) : DB :=
  {| users := f (users db); transactions := transactions db; loans := loans db |}.

Definition set_transactions (f : list transaction_row -> list transaction_row) (db : DB) : DB :=
  {| users := users db; transactions := f (transactions db); loans := loans db |}.

Definition set_loans (f : list loan_row -> list loan_row) (db : DB) : DB :=
  {| users := users db; transactions := transactions db; loans := f (loans db) |}.

Definition run_transaction {R} (body : DB -> exec (DB * tx_end R))
    (on_exception : sql_error -> R) (db : DB) : DB * R :=
  match body db with
  | inr (db', Commit r) => (db', r)
  | inr (_, Rollback r) => (db, r)
  | inl e => (db, on_exception e)
  end.

Definition balance_of (c : column) (u : user_row) : float :=
  match c with
  | gold_dinars => gold u
  | silver_dirhams => silver u
  end.

Definition set_balance (c : column) (v : float) (u : user_row) : user_row :=
  match c with
  | gold_dinars => {| username := username u; gold := v; silver := silver u |}
  | silver_dirhams => {| username := username u; gold := gold u; silver := v |}
  end.

(** [UPDATE users SET {c} = {c} - ? WHERE user_id = ? AND {c} >= ?] with
    its rowcount. *)
Definition update_debit (c : column) (amount : float) (user_id : string) (db : DB) : DB * nat :=
  match users db !! user_id with
  | Some u =>
      if leb amount (balance_of c u)
      then (set_users (insert user_id (set_balance c (sub (balance_of c u) amount) u)) db,
            1%nat)
      else (db, 0%nat)
  | None => (db, 0%nat)
  end.

(** [UPDATE users SET {c} = {c} + ? WHERE user_id = ?] with its rowcount. *)
Definition update_credit (c : column) (amount : float) (user_id : string) (db : DB) : DB * nat :=
  match users db !! user_id with
  | Some u =>
      (set_users (insert user_id (set_balance c (add (balance_of c u) amount) u)) db, 1%nat)
  | None => (db, 0%nat)
  end.

(** [UPDATE users SET {c} = ? WHERE user_id = ?]. *)
Definition update_balance (c : column) (v : float) (user_id : string) (db : DB) : DB :=
  match users db !! user_id with
  | Some u => set_users (insert user_id (set_balance c v u)) db
  | None => db
  end.

(** [INSERT INTO transactions (...)] on a connection with
    [PRAGMA foreign_keys = ON]. *)
Definition insert_transaction (row : transaction_row) (db : DB) : exec DB :=
  if negb (bool_decide (is_Some (users db !! tx_user_id row)))
  then raise (IntegrityError "FOREIGN KEY constraint failed")
  else ret (set_transactions (fun t => (t ++ [row])%list) db).

(** [0.01 <= amount_float <= 999999.99] (line 501). *)
Definition validate_amount (amount : float) : bool :=
  leb (decimal 1 100) amount && leb amount (decimal 99999999 100).

(** ** POST /api/pay (lines 543-613) *)

Record pay_json := {
  from_user : option string;
  to_user : option string;
  amount : option float;    (* [None]: absent (the default 0) or not a number *)
  currency : option string; (* [None]: absent, so 'gold_dinars' *)
}.

Record pay_request := {
  bearer : string;
  json : option pay_json;
}.

Inductive json_body :=
| json_error (msg : string)
| json_success (amount : float) (currency : string).

Record http_response := {
  status_code : nat;
  body : json_body;
}.

Definition error (code : nat) (msg : string) : http_response :=
  {| status_code := code; body := json_error msg |}.

Definition success (amount : float) (currency : string) : http_response :=
  {| status_code := 200; body := json_success amount currency |}.

Definition transfer_money_transaction (c : column) (currency : string) (amount : float)
    (from_user to_user : string) (db : DB) : exec (DB * tx_end http_response) :=
  let '(db1, rowcount) := update_debit c amount from_user db in
  if (rowcount =? 0)%nat
  then ret (db1, Rollback (error 400 "Insufficient funds or user not found"))
  else
    let '(db2, rowcount) := update_credit c amount to_user db1 in
    if (rowcount =? 0)%nat
    then ret (db2, Rollback (error 400 "Recipient user not found"))
    else
      let* db3 := insert_transaction
        {| tx_user_id := from_user; transaction_type := "transfer_send";
           tx_amount := amount; tx_currency := currency;
           tx_description := Minecraft_transfer; partner_id := Some to_user |} db2 in
      let* db4 := insert_transaction
        {| tx_user_id := to_user; transaction_type := "transfer_receive";
           tx_amount := amount; tx_currency := currency;
           tx_description := Minecraft_transfer; partner_id := Some from_user |} db3 in
      ret (db4, Commit (success amount currency)).

Definition transfer_money (API_TOKEN : string) (req : pay_request) (db : DB) : DB * http_response :=
  if negb (verify_api_token API_TOKEN (bearer req)) then (db, error 401 "Unauthorized")
  else
    match json req with
    | None => (db, error 400 "No JSON data provided")
    | Some data =>
        let amount := default zero (amount data) in
        let currency := default "gold_dinars" (currency data) in
        if negb (validate_user_id (from_user data)) || negb (validate_user_id (to_user data))
        then (db, error 400 "Invalid user ID format")
        else if negb (validate_amount amount) then (db, error 400 "Invalid amount")
        else
          match currency_column currency, from_user data, to_user data with
          | None, _, _ => (db, error 400 "Invalid currency type")
          | Some c, Some from_user, Some to_user =>
              if String.eqb from_user to_user
              then (db, error 400 "Cannot transfer to yourself")
              else
                run_transaction
                  (transfer_money_transaction c currency amount from_user to_user)
                  (fun e => error 500 (str e)) db
          | Some _, _, _ => (db, error 400 "Invalid user ID format")
          end
    end.

(** ** [get_user_account] (lines 745-816) *)

Record user_data := {
  ud_user_id : string;
  ud_username : string;
  ud_gold_dinars : float;
  ud_silver_dirhams : float;
}.

Definition user_data_of (user_id : string) (u : user_row) : user_data :=
  {| ud_user_id := user_id; ud_username := username u;
     ud_gold_dinars := gold u; ud_silver_dirhams := silver u |}.

Definition get_user_account (user_id username : string) (db : DB) : user_data * DB :=
  if negb (validate_user_id (Some user_id))
  then ({| ud_user_id := user_id; ud_username := "Invalid User";
           ud_gold_dinars := zero; ud_silver_dirhams := zero |}, db)
  else
    let username := sanitize_username username in
    match users db !! user_id with
    | Some u => (user_data_of user_id u, db)
    | None =>
        let u := {| username := username; gold := of_Z 100; silver := of_Z 500 |} in
        (user_data_of user_id u, set_users (insert user_id u) db)
    end.

Definition currency_balance_of (currency : string) (d : user_data) : float :=
  if String.eqb currency "gold_dinars" then ud_gold_dinars d else ud_silver_dirhams d.

Definition update_wallet (currency : string) (new_balance : float) (user_id : string)
    (db : DB) : DB :=
  if String.eqb currency "gold_dinars"
  then update_balance gold_dinars new_balance user_id db
  else update_balance silver_dirhams new_balance user_id db.

Definition update_credit_named (currency : string) (amount : float) (user_id : string)
    (db : DB) : exec DB :=
  match resolve_column currency with
  | Some c => ret (fst (update_credit c amount user_id db))
  | None => raise (OperationalError ("no such column: " ++ currency))
  end.

(** ** [repay_loan] (lines 3915-4031) *)

Inductive reply :=
| Loan_not_found_or_you_are_not_the_borrower
| This_loan_is_not_active
| Repayment_amount_exceeds_remaining_balance (remaining : float)
| Repayment_amount_must_be_positive
| Insufficient_funds_You_have (have : float) (currency : string)
| Loan_Repayment_Processed (remaining : float) (status : string)
| Error_processing_loan_repayment.

Definition set_loan_repaid (new_repaid_amount : float) (status : string) (l : loan_row)
    : loan_row :=
  {| loan_id := loan_id l; lender_id := lender_id l; borrower_id := borrower_id l;
     loan_amount := loan_amount l; loan_currency := loan_currency l;
     due_date := due_date l; repaid_amount := new_repaid_amount;
     loan_status := status |}.

(** Lines 3962-3997: from [BEGIN IMMEDIATE] to [COMMIT]. *)
Definition repay_loan_transaction (caller : string) (id : nat) (repayment_amount : float)
    (loan : loan_row) (d : user_data) (db : DB) : exec (DB * tx_end reply) :=
  let currency := loan_currency loan in
  let new_balance := sub (currency_balance_of currency d) repayment_amount in
  let db := update_wallet currency new_balance caller db in
  let* db := update_credit_named currency repayment_amount (lender_id loan) db in
  let new_repaid_amount := add (repaid_amount loan) repayment_amount in
  let status := if leb (loan_amount loan) new_repaid_amount then "completed" else "active" in
  let db := set_loans (map (fun l => if (loan_id l =? id)%nat
                                     then set_loan_repaid new_repaid_amount status l
                                     else l)) db in
  let* db := insert_transaction
    {| tx_user_id := caller; transaction_type := "loan_repayment";
       tx_amount := repayment_amount; tx_currency := currency;
       tx_description := Loan_repayment id; partner_id := Some (lender_id loan) |} db in
  let* db := insert_transaction
    {| tx_user_id := lender_id loan; transaction_type := "loan_repayment_received";
       tx_amount := repayment_amount; tx_currency := currency;
       tx_description := Loan_repayment_received id; partner_id := Some caller |} db in
  ret (db, Commit (Loan_Repayment_Processed (sub (loan_amount loan) new_repaid_amount)
                     status)).

Definition repay_loan (caller caller_name : string) (id : nat) (repayment_amount : float)
    (db : DB) : DB * reply :=
  match find (fun l => (loan_id l =? id)%nat && String.eqb (borrower_id l) caller) (loans db) with
  | None => (db, Loan_not_found_or_you_are_not_the_borrower)
  | Some loan =>
      if negb (String.eqb (loan_status loan) "active") then (db, This_loan_is_not_active)
      else
        let remaining_amount := sub (loan_amount loan) (repaid_amount loan) in
        if ltb remaining_amount repayment_amount
        then (db, Repayment_amount_exceeds_remaining_balance remaining_amount)
        else if leb repayment_amount zero then (db, Repayment_amount_must_be_positive)
        else
          let '(d, db) := get_user_account caller caller_name db in
          let currency_balance := currency_balance_of (loan_currency loan) d in
          if ltb currency_balance repayment_amount
          then (db, Insufficient_funds_You_have currency_balance (loan_currency loan))
          else
            run_transaction (repay_loan_transaction caller id repayment_amount loan d)
              (fun _ => Error_processing_loan_repayment) db
  end.



(** The system-wide total of one currency, each balance taken at its
    exact value. *)
Definition total_balance (c : column) (db : DB) : Q :=
  Ledger.sum_Q (map (fun p => value (balance_of c (snd p))) (map_to_list (users db))).

(** ** Vocabulary *)

Definition send_row (a b : string) (amt : float) (cur : string) : transaction_row :=
  {| tx_user_id := a; transaction_type := "transfer_send"; tx_amount := amt;
     tx_currency := cur; tx_description := Minecraft_transfer; partner_id := Some b |}.

Definition receive_row (a b : string) (amt : float) (cur : string) : transaction_row :=
  {| tx_user_id := b; transaction_type := "transfer_receive"; tx_amount := amt;
     tx_currency := cur; tx_description := Minecraft_transfer; partner_id := Some a |}.

Definition loan_ids_unique (db : DB) : Prop := NoDup (map loan_id (loans db)).






(** The row an accepted repayment of [amt] on [loan] writes (lines
    3981-3985). *)
Definition repaid_row (loan : loan_row) (amt : float) : loan_row -> loan_row :=
  set_loan_repaid (add (repaid_amount loan) amt)
    (if leb (loan_amount loan) (add (repaid_amount loan) amt) then "completed" else "active").

(** ** Concrete data *)

(** Alice holds 100.0 gold dinars, Bob nothing; a tenth of a dinar is sent. *)
Definition db_tenth : DB :=
  {| users := <[Sample.alice := {| username := "alice"; gold := of_Z 100;
                                   silver := of_Z 500 |}]>
                (<[Sample.bob := {| username := "bob"; gold := zero;
                                    silver := of_Z 20 |}]> ∅);
     transactions := []; loans := [] |}.

Definition pay_tenth : pay_request :=
  {| bearer := "token";
     json := Some {| from_user := Some Sample.alice; to_user := Some Sample.bob;
                     amount := Some (decimal 1 10); currency := Some "gold_dinars" |} |}.




End Double.

(** * Properties *)

Import Ledger.

(** ** Comparisons *)

Lemma Qleb_true x y : Qleb x y = true <-> (x <= y)%Q.
Proof. apply Qle_bool_iff. Qed.

Lemma Qleb_false x y : Qleb x y = false <-> (y < x)%Q.
Proof.
  unfold Qleb. rewrite <- not_true_iff_false, Qle_bool_iff. split.
  - apply Qnot_le_lt.
  - apply Qlt_not_le.
Qed.

Lemma Qltb_true x y : Qltb x y = true <-> (x < y)%Q.
Proof. unfold Qltb. rewrite negb_true_iff. apply Qleb_false. Qed.

Lemma Qltb_false x y : Qltb x y = false <-> (y <= x)%Q.
Proof. unfold Qltb. rewrite negb_false_iff. apply Qleb_true. Qed.

(** ** Totals over the wallets *)

Lemma sum_Q_perm (l l' : list Q) : l ≡ₚ l' -> (sum_Q l == sum_Q l')%Q.
Proof.
  induction 1 as [|x l l' _ IH|x y l|l l' l'' _ IH1 _ IH2]; simpl.
  - reflexivity.
  - rewrite IH. reflexivity.
  - ring.
  - rewrite IH1. exact IH2.
Qed.



(** ** Wallet transfers over HTTP *)

Section Transfer.

Variable API_TOKEN : string.

(** What the statements of a committed transfer did. *)
Lemma transfer_money_transaction_commit c cur amt a b db db' resp :
  a <> b ->
  transfer_money_transaction c cur amt a b db = inr (db', Commit resp) ->
  exists ua ub,
    users db !! a = Some ua /\ users db !! b = Some ub
    /\ (amt <= balance_of c ua)%Q
    /\ users db' = <[b := set_balance c (balance_of c ub + amt) ub]>
                     (<[a := set_balance c (balance_of c ua - amt) ua]> (users db))
    /\ transactions db' = (transactions db ++ [send_row a b amt cur; receive_row a b amt cur])%list
    /\ resp = success amt cur.
Proof.
  intros Hab. unfold transfer_money_transaction, update_debit, update_credit.
  destruct (users db !! a) as [ua|] eqn:Ha; [|discriminate].
  destruct (Qleb amt (balance_of c ua)) eqn:Hle; [|discriminate].
  simpl. rewrite lookup_insert_ne by congruence.
  destruct (users db !! b) as [ub|] eqn:Hb; [|discriminate].
  simpl. unfold insert_transaction, user_exists. simpl.
  rewrite lookup_insert_ne by congruence. rewrite lookup_insert_eq.
  rewrite bool_decide_eq_true_2 by eauto. simpl.
  rewrite lookup_insert_eq. rewrite bool_decide_eq_true_2 by eauto. simpl.
  intros [= <- <-]. exists ua, ub. repeat split; try done.
  - by apply Qleb_true.
  - simpl. by rewrite <- app_assoc.
Qed.

(** The handler answers 200 only after a committed transaction. *)
Lemma transfer_money_success req data a b db db' resp :
  json req = Some data -> from_user data = Some a -> to_user data = Some b ->
  transfer_money API_TOKEN req db = (db', resp) ->
  status_code resp = 200%nat ->
  exists c,
    currency_column (default "gold_dinars" (currency data)) = Some c
    /\ a <> b
    /\ transfer_money_transaction c (default "gold_dinars" (currency data))
         (default 0%Q (amount data)) a b db = inr (db', Commit resp).
Proof.
  intros Hj Ha Hb. unfold transfer_money. rewrite Hj, Ha, Hb.
  destruct (negb (verify_api_token _ _)); [intros [= <- <-]; discriminate|].
  destruct (_ || _); [intros [= <- <-]; discriminate|].
  destruct (negb (validate_amount _)); [intros [= <- <-]; discriminate|].
  destruct (currency_column _) as [c|]; [|intros [= <- <-]; discriminate].
  destruct (String.eqb a b) eqn:Hab; [intros [= <- <-]; discriminate|].
  apply String.eqb_neq in Hab.
  unfold run_transaction.
  destruct (transfer_money_transaction _ _ _ _ _ _) as [e|[db1 [r|r]]] eqn:Htx.
  - intros [= <- <-]; discriminate.
  - intros [= <- <-] _. exists c. auto.
  - intros [= <- <-] H200. exfalso.
    unfold transfer_money_transaction in Htx.
    destruct (update_debit _ _ _ _) as [d1 n1].
    destruct (n1 =? 0)%nat; [injection Htx as _ <-; discriminate|].
    destruct (update_credit _ _ _ _) as [d2 n2].
    destruct (n2 =? 0)%nat; [injection Htx as _ <-; discriminate|].
    unfold bind in Htx. repeat (destruct (insert_transaction _ _ _); try discriminate).
Qed.

(** A request that passes the gates runs the transaction. *)
Lemma transfer_money_validated req a b amt cur c db :
  validated_request API_TOKEN req = Some (a, b, amt, cur, c) ->
  a <> b
  /\ transfer_money API_TOKEN req db =
     run_transaction (transfer_money_transaction c cur amt a b)
       (fun e => error 500 (str e)) db.
Proof.
  unfold validated_request, transfer_money.
  destruct (negb (verify_api_token _ _)); [discriminate|].
  destruct (json req) as [data|]; [|discriminate].
  destruct (from_user data) as [a'|]; [|discriminate].
  destruct (to_user data) as [b'|]; [|discriminate].
  destruct (currency_column _) as [c'|]; [|discriminate].
  destruct (validate_user_id (Some a')); [|discriminate].
  destruct (validate_user_id (Some b')); [|discriminate].
  destruct (validate_amount _); [|discriminate].
  destruct (String.eqb a' b') eqn:Hab; [discriminate|].
  simpl. intros [= <- <- <- <- <-]. split; [|reflexivity].
  by apply String.eqb_neq.
Qed.

(** A request that does not answer 200 leaves the database as it was. *)
Lemma transfer_money_failure_noop req db :
  status_code (snd (transfer_money API_TOKEN req db)) <> 200%nat ->
  fst (transfer_money API_TOKEN req db) = db.
Proof.
  unfold transfer_money.
  destruct (negb (verify_api_token _ _)); [done|].
  destruct (json req) as [data|]; [|done].
  destruct (_ || _); [done|].
  destruct (negb (validate_amount _)); [done|].
  destruct (currency_column _) as [c|]; [|done].
  destruct (from_user data) as [a|]; [|done].
  destruct (to_user data) as [b|]; [|done].
  destruct (String.eqb a b); [done|].
  unfold run_transaction.
  destruct (transfer_money_transaction _ _ _ _ _ _) as [e|[db1 [r|r]]] eqn:Htx; try done.
  simpl. intros Hne. exfalso. apply Hne.
  unfold transfer_money_transaction in Htx.
  destruct (update_debit _ _ _ _) as [d1 n1].
  destruct (n1 =? 0)%nat; [discriminate|].
  destruct (update_credit _ _ _ _) as [d2 n2].
  destruct (n2 =? 0)%nat; [discriminate|].
  unfold bind in Htx. repeat (destruct (insert_transaction _ _ _); try discriminate).
  by injection Htx as _ <-.
Qed.

(** C2.  A request to POST /api/pay that asks for more than the sender
    holds in the requested currency changes nothing: the database
    afterwards is the database before the call, every balance and every
    transaction row as it was, and the answer is an error.  When the
    request passes the input gates of the handler, the answer is the
    insufficient-funds error. *)
Theorem transfer_money_insufficient_funds req data a amt cur c ua db :
  json req = Some data ->
  from_user data = Some a ->
  default 0%Q (amount data) = amt ->
  default "gold_dinars" (currency data) = cur ->
  currency_column cur = Some c ->
  users db !! a = Some ua ->
  (balance_of c ua < amt)%Q ->
  fst (transfer_money API_TOKEN req db) = db
  /\ status_code (snd (transfer_money API_TOKEN req db)) <> 200%nat
  /\ (forall b, validated_request API_TOKEN req = Some (a, b, amt, cur, c) ->
                transfer_money API_TOKEN req db
                = (db, error 400 "Insufficient funds or user not found")).
Proof.
  intros Hj Ha Hamt Hcur Hc Hua Hlt. apply Qleb_false in Hlt.
  assert (Htx : forall b, run_transaction (transfer_money_transaction c cur amt a b)
                            (fun e => error 500 (str e)) db
                          = (db, error 400 "Insufficient funds or user not found")).
  { intros b. unfold run_transaction, transfer_money_transaction, update_debit.
    by rewrite Hua, Hlt. }
  split_and!.
  - unfold transfer_money. rewrite Hj, Ha, Hamt, Hcur, Hc.
    destruct (negb (verify_api_token _ _)); [done|].
    destruct (_ || _); [done|].
    destruct (negb (validate_amount _)); [done|].
    destruct (to_user data) as [b|]; [|done].
    destruct (String.eqb a b); [done|]. by rewrite Htx.
  - unfold transfer_money. rewrite Hj, Ha, Hamt, Hcur, Hc.
    destruct (negb (verify_api_token _ _)); [done|].
    destruct (_ || _); [done|].
    destruct (negb (validate_amount _)); [done|].
    destruct (to_user data) as [b|]; [|done].
    destruct (String.eqb a b); [done|]. by rewrite Htx.
  - intros b Hv. destruct (transfer_money_validated _ _ _ _ _ _ db Hv) as [_ ->].
    apply Htx.
Qed.

(** The recipient has no row in [users]: the debit, already applied to
    the working copy, is rolled back. *)
Lemma transfer_money_recipient_missing req a b amt cur c ua db :
  validated_request API_TOKEN req = Some (a, b, amt, cur, c) ->
  users db !! a = Some ua ->
  (amt <= balance_of c ua)%Q ->
  users db !! b = None ->
  (exists db1, update_debit c amt a db = (db1, 1%nat)
               /\ users db1 !! a = Some (set_balance c (balance_of c ua - amt) ua))
  /\ transfer_money API_TOKEN req db = (db, error 400 "Recipient user not found").
Proof.
  intros Hv Hua Hle Hb. destruct (transfer_money_validated _ _ _ _ _ _ db Hv) as [Hab ->].
  apply Qleb_true in Hle.
  unfold run_transaction, transfer_money_transaction, update_debit, update_credit.
  rewrite Hua, Hle. split.
  - eexists. split; [reflexivity|]. simpl. apply lookup_insert_eq.
  - simpl. rewrite lookup_insert_ne by congruence. rewrite Hb. reflexivity.
Qed.

End Transfer.


Lemma transfer_money_insufficient_funds_witness :
  fst (transfer_money "token" (Sample.pay Sample.bob Sample.alice 30) Sample.db0) = Sample.db0
  /\ status_code (snd (transfer_money "token" (Sample.pay Sample.bob Sample.alice 30)
                         Sample.db0)) <> 200%nat
  /\ transfer_money "token" (Sample.pay Sample.bob Sample.alice 30) Sample.db0
     = (Sample.db0, error 400 "Insufficient funds or user not found").
Proof.
  destruct (transfer_money_insufficient_funds "token"
              (Sample.pay Sample.bob Sample.alice 30)
              {| from_user := Some Sample.bob; to_user := Some Sample.alice;
                 amount := Some 30%Q; currency := Some "gold_dinars" |}
              Sample.bob 30%Q "gold_dinars" gold_dinars
              {| username := "bob"; gold := 0; silver := 20 |} Sample.db0
              eq_refl eq_refl eq_refl eq_refl eq_refl eq_refl eq_refl)
    as (Hdb & Hcode & Herr).
  split; [exact Hdb|]. split; [exact Hcode|].
  exact (Herr Sample.alice eq_refl).
Defined.



(** ** Wallet transfers on binary64 *)

Section DoubleTransfer.

Import Double.

Variable API_TOKEN : string.

Lemma double_total_balance_insert c uid u u' db :
  users db !! uid = Some u ->
  (total_balance c (set_users (insert uid u') db)
   == total_balance c db - value (balance_of c u) + value (balance_of c u'))%Q.
Proof.
  intros Hu. unfold total_balance. simpl.
  rewrite <- (insert_delete_eq (users db)).
  assert (Hnew : map_to_list (<[uid:=u']> (delete uid (users db)))
                 ≡ₚ (uid, u') :: map_to_list (delete uid (users db))).
  { apply map_to_list_insert, lookup_delete_eq. }
  assert (Hold : (uid, u) :: map_to_list (delete uid (users db))
                 ≡ₚ map_to_list (users db)).
  { apply map_to_list_delete, Hu. }
  rewrite (sum_Q_perm _ _ (Permutation_map _ Hnew)).
  rewrite <- (sum_Q_perm _ _ (Permutation_map _ Hold)).
  simpl. ring.
Qed.

Lemma double_balance_of_set_balance c v u : balance_of c (set_balance c v u) = v.
Proof. destruct c; reflexivity. Qed.

(** What the statements of a committed transfer did. *)
Lemma double_transfer_commit c cur amt a b db db' resp :
  a <> b ->
  transfer_money_transaction c cur amt a b db = inr (db', Commit resp) ->
  exists ua ub,
    users db !! a = Some ua /\ users db !! b = Some ub
    /\ leb amt (balance_of c ua) = true
    /\ users db' = <[b := set_balance c (add (balance_of c ub) amt) ub]>
                     (<[a := set_balance c (sub (balance_of c ua) amt) ua]> (users db))
    /\ transactions db' = (transactions db ++ [send_row a b amt cur; receive_row a b amt cur])%list
    /\ resp = success amt cur.
Proof.
  intros Hab. unfold transfer_money_transaction, update_debit, update_credit.
  destruct (users db !! a) as [ua|] eqn:Ha; [|discriminate].
  destruct (leb amt (balance_of c ua)) eqn:Hle; [|discriminate].
  simpl. rewrite lookup_insert_ne by congruence.
  destruct (users db !! b) as [ub|] eqn:Hb; [|discriminate].
  simpl. unfold insert_transaction. simpl.
  rewrite lookup_insert_ne by congruence. rewrite lookup_insert_eq.
  rewrite bool_decide_eq_true_2 by eauto. simpl.
  rewrite lookup_insert_eq. rewrite bool_decide_eq_true_2 by eauto. simpl.
  intros [= <- <-]. exists ua, ub. repeat split; try done.
  simpl. by rewrite <- app_assoc.
Qed.

(** The handler answers 200 only after a committed transaction. *)
Lemma double_transfer_success req data a b db db' resp :
  json req = Some data -> from_user data = Some a -> to_user data = Some b ->
  transfer_money API_TOKEN req db = (db', resp) ->
  status_code resp = 200%nat ->
  exists c,
    currency_column (default "gold_dinars" (currency data)) = Some c
    /\ a <> b
    /\ transfer_money_transaction c (default "gold_dinars" (currency data))
         (default zero (amount data)) a b db = inr (db', Commit resp).
Proof.
  intros Hj Ha Hb. unfold transfer_money. rewrite Hj, Ha, Hb.
  destruct (negb (verify_api_token _ _)); [intros [= <- <-]; discriminate|].
  destruct (_ || _); [intros [= <- <-]; discriminate|].
  destruct (negb (validate_amount _)); [intros [= <- <-]; discriminate|].
  destruct (currency_column _) as [c|]; [|intros [= <- <-]; discriminate].
  destruct (String.eqb a b) eqn:Hab; [intros [= <- <-]; discriminate|].
  apply String.eqb_neq in Hab.
  unfold run_transaction.
  destruct (transfer_money_transaction _ _ _ _ _ _) as [e|[db1 [r|r]]] eqn:Htx.
  - intros [= <- <-]; discriminate.
  - intros [= <- <-] _. exists c. auto.
  - intros [= <- <-] H200. exfalso.
    unfold transfer_money_transaction in Htx.
    destruct (update_debit _ _ _ _) as [d1 n1].
    destruct (n1 =? 0)%nat; [injection Htx as _ <-; discriminate|].
    destruct (update_credit _ _ _ _) as [d2 n2].
    destruct (n2 =? 0)%nat; [injection Htx as _ <-; discriminate|].
    unfold bind in Htx. repeat (destruct (insert_transaction _ _); try discriminate).
Qed.

(** C1, as the code has it.  Every successful transfer over POST
    /api/pay of an amount [amt] in the currency column [c] from [a] to
    [b] found [amt <= balance] on the row of [a], stores on it the
    binary64 difference of the balance and [amt] and on the row of [b]
    the binary64 sum of the balance and [amt], each the exact result
    rounded to the nearest double, and appends exactly two rows to
    [transactions]: a transfer_send row of [a] with partner [b] and a
    transfer_receive row of [b] with partner [a], both of amount [amt].
    When neither the difference nor the sum was rounded, the total of
    that currency over all wallets is unchanged. *)
Theorem transfer_money_rounds req data a b amt cur c db db' resp :
  json req = Some data ->
  from_user data = Some a -> to_user data = Some b ->
  default zero (amount data) = amt ->
  default "gold_dinars" (currency data) = cur ->
  currency_column cur = Some c ->
  transfer_money API_TOKEN req db = (db', resp) ->
  status_code resp = 200%nat ->
  exists ua ub ua' ub',
    users db !! a = Some ua /\ users db !! b = Some ub
    /\ users db' !! a = Some ua' /\ users db' !! b = Some ub'
    /\ leb amt (balance_of c ua) = true
    /\ balance_of c ua' = sub (balance_of c ua) amt
    /\ balance_of c ub' = add (balance_of c ub) amt
    /\ ((value (sub (balance_of c ua) amt) == value (balance_of c ua) - value amt)%Q ->
        (value (add (balance_of c ub) amt) == value (balance_of c ub) + value amt)%Q ->
        (total_balance c db' == total_balance c db)%Q)
    /\ transactions db' =
       (transactions db ++ [send_row a b amt cur; receive_row a b amt cur])%list.
Proof.
  intros Hj Ha Hb Hamt Hcur Hc Hrun H200.
  destruct (double_transfer_success _ _ _ _ _ _ _ Hj Ha Hb Hrun H200)
    as (c' & Hc' & Hab & Htx).
  rewrite Hcur in Hc'. rewrite Hc in Hc'. injection Hc' as <-.
  rewrite Hamt, Hcur in Htx.
  destruct (double_transfer_commit _ _ _ _ _ _ _ _ Hab Htx)
    as (ua & ub & Hua & Hub & Hle & Husers & Htxs & _).
  exists ua, ub, (set_balance c (sub (balance_of c ua) amt) ua),
         (set_balance c (add (balance_of c ub) amt) ub).
  split_and!; try done.
  - rewrite Husers. rewrite lookup_insert_ne by congruence. apply lookup_insert_eq.
  - rewrite Husers. apply lookup_insert_eq.
  - by rewrite double_balance_of_set_balance.
  - by rewrite double_balance_of_set_balance.
  - intros Hsub Hadd.
    set (db1 := set_users (insert a (set_balance c (sub (balance_of c ua) amt) ua)) db).
    assert (Hb1 : users db1 !! b = Some ub).
    { simpl. by rewrite lookup_insert_ne. }
    assert (Htot : (total_balance c db' ==
                    total_balance c (set_users
                      (insert b (set_balance c (add (balance_of c ub) amt) ub)) db1))%Q).
    { unfold total_balance. simpl. rewrite Husers. reflexivity. }
    rewrite Htot, (double_total_balance_insert _ _ _ _ _ Hb1).
    unfold db1. rewrite (double_total_balance_insert _ _ _ _ _ Hua).
    rewrite !double_balance_of_set_balance. rewrite Hsub, Hadd. ring.
Qed.

End DoubleTransfer.

Lemma transfer_money_rounds_witness :
  exists ua ub ua' ub',
    Double.users Double.db_tenth !! Sample.alice = Some ua
    /\ Double.users Double.db_tenth !! Sample.bob = Some ub
    /\ Double.users (fst (Double.transfer_money "token" Double.pay_tenth Double.db_tenth))
         !! Sample.alice = Some ua'
    /\ Double.users (fst (Double.transfer_money "token" Double.pay_tenth Double.db_tenth))
         !! Sample.bob = Some ub'
    /\ Double.leb (Double.decimal 1 10) (Double.balance_of gold_dinars ua) = true
    /\ Double.balance_of gold_dinars ua'
       = Double.sub (Double.balance_of gold_dinars ua) (Double.decimal 1 10)
    /\ Double.balance_of gold_dinars ub'
       = Double.add (Double.balance_of gold_dinars ub) (Double.decimal 1 10)
    /\ ((Double.value (Double.sub (Double.balance_of gold_dinars ua) (Double.decimal 1 10))
         == Double.value (Double.balance_of gold_dinars ua)
            - Double.value (Double.decimal 1 10))%Q ->
        (Double.value (Double.add (Double.balance_of gold_dinars ub) (Double.decimal 1 10))
         == Double.value (Double.balance_of gold_dinars ub)
            + Double.value (Double.decimal 1 10))%Q ->
        (Double.total_balance gold_dinars
           (fst (Double.transfer_money "token" Double.pay_tenth Double.db_tenth))
         == Double.total_balance gold_dinars Double.db_tenth)%Q)
    /\ Double.transactions (fst (Double.transfer_money "token" Double.pay_tenth Double.db_tenth))
       = (Double.transactions Double.db_tenth
          ++ [Double.send_row Sample.alice Sample.bob (Double.decimal 1 10) "gold_dinars";
              Double.receive_row Sample.alice Sample.bob (Double.decimal 1 10)
                "gold_dinars"])%list.
Proof.
  apply (transfer_money_rounds "token" Double.pay_tenth
           {| Double.from_user := Some Sample.alice; Double.to_user := Some Sample.bob;
              Double.amount := Some (Double.decimal 1 10);
              Double.currency := Some "gold_dinars" |}
           Sample.alice Sample.bob (Double.decimal 1 10) "gold_dinars" gold_dinars
           Double.db_tenth
           (fst (Double.transfer_money "token" Double.pay_tenth Double.db_tenth))
           (snd (Double.transfer_money "token" Double.pay_tenth Double.db_tenth)));
    vm_compute; reflexivity.
Defined.

(** C1 as stated fails on the doubles of the code.  Alice holds 100.0
    gold dinars and sends 0.1 to Bob: the answer is 200, her balance
    becomes the double nearest to 99.9, which is not 100.0 less the
    amount, and the total of gold dinars over all wallets changes. *)
Lemma transfer_money_inexact :
  Double.status_code (snd (Double.transfer_money "token" Double.pay_tenth Double.db_tenth))
  = 200%nat
  /\ Double.users Double.db_tenth !! Sample.alice
     = Some {| Double.username := "alice"; Double.gold := Double.of_Z 100;
               Double.silver := Double.of_Z 500 |}
  /\ Double.users (fst (Double.transfer_money "token" Double.pay_tenth Double.db_tenth))
       !! Sample.alice
     = Some {| Double.username := "alice";
               Double.gold := Double.sub (Double.of_Z 100) (Double.decimal 1 10);
               Double.silver := Double.of_Z 500 |}
  /\ ~ (Double.value (Double.sub (Double.of_Z 100) (Double.decimal 1 10))
        == Double.value (Double.of_Z 100) - Double.value (Double.decimal 1 10))%Q
  /\ ~ (Double.total_balance gold_dinars
          (fst (Double.transfer_money "token" Double.pay_tenth Double.db_tenth))
        == Double.total_balance gold_dinars Double.db_tenth)%Q.
Proof.
  split_and!.
  - vm_compute. reflexivity.
  - vm_compute. reflexivity.
  - vm_compute. reflexivity.
  - intros H. vm_compute in H. discriminate.
  - intros H. vm_compute in H. discriminate.
Qed.


(** ** No negative balances *)

Lemma inv_ext db db' :
  users db' = users db -> loan_applications db' = loan_applications db ->
  inv db -> inv db'.
Proof.
  unfold inv, balances_nonneg, applications_positive. by intros -> ->.
Qed.

Lemma bind_inr {A B} (m : exec A) (k : A -> exec B) b :
  bind m k = inr b -> exists a, m = inr a /\ k a = inr b.
Proof. destruct m as [e|a]; [discriminate|]. simpl. eauto. Qed.

Lemma run_transaction_inv {R} (body : DB -> exec (DB * tx_end R)) exc db :
  (forall db' r, body db = inr (db', r) -> inv db') ->
  inv db -> inv (fst (run_transaction body exc db)).
Proof.
  intros Hbody Hdb. unfold run_transaction.
  destruct (body db) as [e|[db' [r|r]]] eqn:Hb; simpl; eauto.
Qed.

Lemma inv_insert uid u db :
  (0 <= gold u)%Q -> (0 <= silver u)%Q ->
  inv db -> inv (set_users (insert uid u) db).
Proof.
  intros Hg Hs [Hn Ha]. split; [|exact Ha].
  unfold balances_nonneg. simpl. by apply map_Forall_insert_2.
Qed.

Lemma inv_set_balance c v uid u db :
  users db !! uid = Some u -> (0 <= v)%Q ->
  inv db -> inv (set_users (insert uid (set_balance c v u)) db).
Proof.
  intros Hu Hv Hinv. destruct (map_Forall_lookup_1 _ _ _ _ (proj1 Hinv) Hu) as [Hg Hs].
  destruct c; by apply inv_insert.
Qed.

Lemma inv_update_debit c amt uid db :
  inv db -> inv (fst (update_debit c amt uid db)).
Proof.
  intros Hinv. unfold update_debit.
  destruct (users db !! uid) as [u|] eqn:Hu; [|done].
  destruct (Qleb amt (balance_of c u)) eqn:Hle; [|done].
  simpl. apply inv_set_balance; [done| |done].
  apply Qleb_true in Hle. lra.
Qed.

Lemma inv_update_credit c amt uid db :
  (0 <= amt)%Q -> inv db -> inv (fst (update_credit c amt uid db)).
Proof.
  intros Hamt Hinv. unfold update_credit.
  destruct (users db !! uid) as [u|] eqn:Hu; [|done].
  simpl. apply inv_set_balance; [done| |done].
  destruct (map_Forall_lookup_1 _ _ _ _ (proj1 Hinv) Hu) as [Hg Hs].
  destruct c; simpl; lra.
Qed.

Lemma inv_update_balance c v uid db :
  (0 <= v)%Q -> inv db -> inv (update_balance c v uid db).
Proof.
  intros Hv Hinv. unfold update_balance.
  destruct (users db !! uid) as [u|] eqn:Hu; [|done].
  by apply inv_set_balance.
Qed.

Lemma inv_update_wallet cur v uid db :
  (0 <= v)%Q -> inv db -> inv (update_wallet cur v uid db).
Proof.
  intros Hv Hinv. unfold update_wallet.
  destruct (String.eqb cur "gold_dinars"); by apply inv_update_balance.
Qed.

Lemma inv_update_credit_named cur amt uid db db' :
  (0 <= amt)%Q -> update_credit_named cur amt uid db = inr db' ->
  inv db -> inv db'.
Proof.
  intros Hamt. unfold update_credit_named.
  destruct (resolve_column cur) as [c|]; [|discriminate].
  intros [= <-]. by apply inv_update_credit.
Qed.

Lemma inv_insert_transaction fk row db db' :
  insert_transaction fk row db = inr db' -> inv db -> inv db'.
Proof.
  unfold insert_transaction. destruct (_ && _); [discriminate|].
  intros [= <-]. by apply inv_ext.
Qed.

Lemma inv_insert_loan row db db' :
  insert_loan row db = inr db' -> inv db -> inv db'.
Proof.
  unfold insert_loan. destruct (_ || _); [discriminate|].
  intros [= <-]. by apply inv_ext.
Qed.

Lemma inv_update_account_balance v id db db' :
  update_account_balance v id db = inr db' -> inv db -> inv db'.
Proof.
  unfold update_account_balance. destruct (_ && _); [discriminate|].
  intros [= <-]. by apply inv_ext.
Qed.

Lemma inv_insert_bank_ledger fk row db db' :
  insert_bank_ledger fk row db = inr db' -> inv db -> inv db'.
Proof.
  unfold insert_bank_ledger. destruct (_ || _); [discriminate|].
  destruct (_ && _); [discriminate|].
  intros [= <-]. by apply inv_ext.
Qed.

(** [get_user_account] hands out non-negative balances and keeps the
    invariant when it creates the row of a new user. *)
Lemma inv_get_user_account uid name db :
  inv db ->
  inv (snd (get_user_account uid name db))
  /\ (0 <= ud_gold_dinars (fst (get_user_account uid name db)))%Q
  /\ (0 <= ud_silver_dirhams (fst (get_user_account uid name db)))%Q.
Proof.
  intros Hinv. unfold get_user_account.
  destruct (negb (validate_user_id _)); [simpl; split; [done|split; lra]|].
  destruct (users db !! uid) as [u|] eqn:Hu; simpl.
  - destruct (map_Forall_lookup_1 _ _ _ _ (proj1 Hinv) Hu) as [Hg Hs]. done.
  - split; [|split; lra]. apply inv_insert; simpl; (done || lra).
Qed.

Lemma currency_balance_of_nonneg cur d :
  (0 <= ud_gold_dinars d)%Q -> (0 <= ud_silver_dirhams d)%Q ->
  (0 <= currency_balance_of cur d)%Q.
Proof. unfold currency_balance_of. by destruct (String.eqb cur "gold_dinars"). Qed.

Ltac bind_step H :=
  let a := fresh "db" in
  let Ha := fresh "Hstmt" in
  apply bind_inr in H as (a & Ha & H); cbv beta zeta in H.

Lemma inv_transfer_money t req db : inv db -> inv (fst (transfer_money t req db)).
Proof.
  intros Hinv. unfold transfer_money.
  destruct (negb (verify_api_token _ _)); [done|].
  destruct (json req) as [data|]; [|done].
  destruct (_ || _); [done|].
  destruct (negb (validate_amount _)) eqn:Hamt; [done|].
  destruct (currency_column _) as [c|]; [|done].
  destruct (from_user data) as [a|]; [|done].
  destruct (to_user data) as [b|]; [|done].
  destruct (String.eqb a b); [done|].
  apply negb_false_iff, andb_true_iff in Hamt as [Hlo _]. apply Qleb_true in Hlo.
  apply run_transaction_inv; [|done].
  intros db' r. unfold transfer_money_transaction.
  pose proof (inv_update_debit c (default 0%Q (amount data)) a db Hinv) as H1.
  destruct (update_debit _ _ _ _) as [d1 n1]. simpl in H1.
  destruct (n1 =? 0)%nat; [by intros [= <- _]|].
  assert (H2 := inv_update_credit c (default 0%Q (amount data)) b d1).
  destruct (update_credit _ _ _ _) as [d2 n2]. simpl in H2.
  assert (Hd2 : inv d2) by (apply H2; [lra|done]).
  destruct (n2 =? 0)%nat; [by intros [= <- _]|].
  intros H. bind_step H. bind_step H. injection H as <- _.
  eauto using inv_insert_transaction.
Qed.

Lemma inv_apply_for_loan t c n a cur d p db :
  inv db -> inv (fst (apply_for_loan t c n a cur d p db)).
Proof.
  intros Hinv. unfold apply_for_loan.
  destruct (negb (existsb _ _)); [done|].
  destruct (Qleb a 0 || _) eqn:Hpos; [done|].
  destruct (365 <? d)%Z; [done|].
  destruct (String.length p <? 10)%nat; [done|].
  destruct (3 <=? _)%nat; [done|].
  apply orb_false_iff in Hpos as [Hpos _]. apply Qleb_false in Hpos.
  apply run_transaction_inv; [|done].
  intros db' r. destruct (negb (user_exists c db)); [discriminate|].
  intros [= <- _]. destruct Hinv as [Hn Ha]. split; [exact Hn|].
  unfold applications_positive. simpl. apply Forall_app. split; [exact Ha|].
  by repeat constructor.
Qed.

Lemma applications_positive_funded lender id db :
  applications_positive db ->
  applications_positive
    (set_loan_applications
       (map (fun a => if (app_id a =? id)%nat then set_application_funded lender a else a))
       db).
Proof.
  unfold applications_positive. simpl. intros H.
  apply Forall_map. eapply Forall_impl; [exact H|].
  intros a Ha. simpl. destruct (app_id a =? id)%nat; [|exact Ha].
  simpl. discriminate.
Qed.

Lemma find_pending_positive id db a :
  applications_positive db ->
  find (fun a => (app_id a =? id)%nat && String.eqb (app_status a) "pending")
       (loan_applications db) = Some a ->
  (0 < app_loan_amount a)%Q.
Proof.
  intros Hpos Hfind. apply find_some in Hfind as [Hin Hcond].
  apply andb_true_iff in Hcond as [_ Hst]. apply String.eqb_eq in Hst.
  unfold applications_positive in Hpos. rewrite Forall_forall in Hpos.
  apply Hpos; [|done]. by apply list_elem_of_In.
Qed.

Lemma inv_fund_loan c n i db : inv db -> inv (fst (fund_loan c n i db)).
Proof.
  intros Hinv. unfold fund_loan.
  destruct (find _ _) as [app|] eqn:Hfind; [|done].
  destruct (String.eqb _ c); [done|].
  pose proof (find_pending_positive _ _ _ (proj2 Hinv) Hfind) as Hpos.
  destruct (inv_get_user_account c n db Hinv) as (Hinv1 & Hg & Hs).
  destruct (get_user_account c n db) as [d db1]. simpl in Hinv1, Hg, Hs.
  destruct (Qltb _ _) eqn:Hlt; [done|]. apply Qltb_false in Hlt.
  apply run_transaction_inv; [|done].
  intros db' r H. unfold fund_loan_transaction in H. cbv zeta in H.
  bind_step H. bind_step H. bind_step H. bind_step H. bind_step H.
  injection H as <- _.
  apply inv_update_credit_named in Hstmt; [|lra|apply inv_update_wallet; [lra|done]].
  apply inv_insert_loan in Hstmt0; [|done].
  destruct (negb (user_exists c db2)); [discriminate|]. injection Hstmt1 as <-.
  eapply inv_insert_transaction; [exact Hstmt3|].
  eapply inv_insert_transaction; [exact Hstmt2|].
  destruct Hstmt0 as [Hn Ha]. split; [exact Hn|].
  by apply applications_positive_funded.
Qed.

Lemma inv_repay_loan c n i a db : inv db -> inv (fst (repay_loan c n i a db)).
Proof.
  intros Hinv. unfold repay_loan.
  destruct (find _ _) as [loan|]; [|done].
  destruct (negb _); [done|].
  destruct (Qltb _ a); [done|].
  destruct (Qleb a 0) eqn:Hpos; [done|]. apply Qleb_false in Hpos.
  destruct (inv_get_user_account c n db Hinv) as (Hinv1 & Hg & Hs).
  destruct (get_user_account c n db) as [d db1]. simpl in Hinv1, Hg, Hs.
  destruct (Qltb _ a) eqn:Hlt; [done|]. apply Qltb_false in Hlt.
  apply run_transaction_inv; [|done].
  intros db' r H. unfold repay_loan_transaction in H. cbv zeta in H.
  bind_step H. bind_step H. bind_step H. injection H as <- _.
  apply inv_update_credit_named in Hstmt; [|lra|apply inv_update_wallet; [lra|done]].
  eapply inv_insert_transaction; [exact Hstmt1|].
  eapply inv_insert_transaction; [exact Hstmt0|].
  by eapply inv_ext; [| |exact Hstmt].
Qed.

Lemma inv_bank_deposit i u a db : inv db -> inv (fst (bank_deposit i u a db)).
Proof.
  intros Hinv. unfold bank_deposit.
  destruct (Qleb a 0) eqn:Hpos; [done|]. apply Qleb_false in Hpos.
  destruct (select_active_account i db) as [[acc inst]|]; [|done].
  destruct (negb _); [done|].
  destruct (inv_get_user_account u "" db Hinv) as (Hinv1 & Hg & Hs).
  destruct (get_user_account u "" db) as [d db1]. simpl in Hinv1, Hg, Hs.
  destruct (Qltb _ a) eqn:Hlt; [done|]. apply Qltb_false in Hlt.
  apply run_transaction_inv; [|done].
  intros db' r H. bind_step H. bind_step H. bind_step H. injection H as <- _.
  eapply inv_insert_transaction; [exact Hstmt1|].
  eapply inv_insert_bank_ledger; [exact Hstmt0|].
  eapply inv_update_account_balance; [exact Hstmt|].
  apply inv_update_wallet; [lra|done].
Qed.

Lemma inv_bank_withdraw i u a db : inv db -> inv (fst (bank_withdraw i u a db)).
Proof.
  intros Hinv. unfold bank_withdraw.
  destruct (Qleb a 0) eqn:Hpos; [done|]. apply Qleb_false in Hpos.
  destruct (select_active_account i db) as [[acc inst]|]; [|done].
  destruct (negb _); [done|].
  destruct (Qltb _ a); [done|].
  destruct (inv_get_user_account u "" db Hinv) as (Hinv1 & Hg & Hs).
  destruct (get_user_account u "" db) as [d db1]. simpl in Hinv1, Hg, Hs.
  pose proof (currency_balance_of_nonneg (account_currency acc) d Hg Hs) as Hbal.
  apply run_transaction_inv; [|done].
  intros db' r H. bind_step H. bind_step H. bind_step H. injection H as <- _.
  eapply inv_insert_transaction; [exact Hstmt1|].
  eapply inv_insert_bank_ledger; [exact Hstmt0|].
  apply inv_update_wallet; [lra|].
  eapply inv_update_account_balance; [exact Hstmt|done].
Qed.

Lemma inv_bank_transfer f t u a d db : inv db -> inv (fst (bank_transfer f t u a d db)).
Proof.
  intros Hinv. unfold bank_transfer.
  destruct (Qleb a 0); [done|].
  destruct (f =? t)%nat; [done|].
  destruct (select_active_account f db) as [[fa fi]|]; [|done].
  destruct (select_active_account t db) as [[ta ti]|]; [|done].
  destruct (negb (String.eqb _ _)); [done|].
  destruct (negb (may_operate _ _ _)); [done|].
  destruct (Qltb _ a); [done|].
  apply run_transaction_inv; [|done].
  intros db' r H. bind_step H. bind_step H. bind_step H. bind_step H. bind_step H.
  injection H as <- _.
  eapply inv_insert_transaction; [exact Hstmt3|].
  eapply inv_insert_bank_ledger; [exact Hstmt2|].
  eapply inv_insert_bank_ledger; [exact Hstmt1|].
  eapply inv_update_account_balance; [exact Hstmt0|].
  eapply inv_update_account_balance; [exact Hstmt|done].
Qed.

Lemma inv_alter_balances g s uid db :
  (0 <= g)%Q -> (0 <= s)%Q -> inv db ->
  inv (set_users (alter (fun u => {| username := username u; gold := g; silver := s |}) uid) db).
Proof.
  intros Hg Hs [Hn Ha]. split; [|exact Ha].
  unfold balances_nonneg. simpl. intros k u. rewrite lookup_alter.
  destruct (decide (uid = k)) as [->|]; [|apply Hn].
  destruct (users db !! k); [|discriminate]. by intros [= <-].
Qed.

Lemma inv_currency_exchange c n a f t db :
  inv db -> inv (fst (currency_exchange c n a f t db)).
Proof.
  intros Hinv. unfold currency_exchange.
  destruct (_ || _); [done|].
  destruct (String.eqb (lower f) (lower t)); [done|].
  destruct (Qleb a 0) eqn:Hpos; [done|]. apply Qleb_false in Hpos.
  destruct (inv_get_user_account c n db Hinv) as (Hinv1 & Hg & Hs).
  destruct (get_user_account c n db) as [d db1]. simpl in Hinv1, Hg, Hs.
  unfold get_exchange_rate.
  destruct (String.eqb (lower f) "gold").
  - destruct (Qltb _ a) eqn:Hlt; [done|]. apply Qltb_false in Hlt.
    apply run_transaction_inv; [|done].
    intros db' r H. bind_step H. injection H as <- _.
    eapply inv_insert_transaction; [exact Hstmt|].
    apply inv_alter_balances; [lra|nra|done].
  - destruct (Qltb _ a) eqn:Hlt; [done|]. apply Qltb_false in Hlt.
    apply run_transaction_inv; [|done].
    intros db' r H. bind_step H. injection H as <- _.
    eapply inv_insert_transaction; [exact Hstmt|].
    apply inv_alter_balances; [|lra|done].
    assert (0 <= a / 12)%Q; [|lra].
    apply Qle_shift_div_l; [reflexivity|]. lra.
Qed.

(** ** What never commits: account opening and the reset of a defaulter *)

Lemma insert_bank_ledger_zero fk row db :
  (bl_amount row == 0)%Q ->
  insert_bank_ledger fk row db = raise (IntegrityError "CHECK constraint failed").
Proof.
  intros Hz. unfold insert_bank_ledger.
  assert (Hlt : Qltb 0 (bl_amount row) = false) by (apply Qltb_false; lra).
  rewrite Hlt. simpl. by rewrite orb_true_r.
Qed.

Lemma create_bank_account_transaction_raises dr o i ty cur r cb name db :
  exists e, create_bank_account_transaction dr o i ty cur r cb name db = inl e.
Proof.
  unfold create_bank_account_transaction, bind.
  destruct (generate_unique_account_number dr db) as [num|]; [|eauto].
  cbv beta iota zeta delta [ret].
  destruct (insert_bank_account _ _) as [e|db1]; [eauto|].
  destruct (insert_permission _ _) as [e|db2]; [eauto|].
  rewrite insert_bank_ledger_zero by reflexivity. eauto.
Qed.

Lemma create_bank_account_noop dr o i ty cur r cb db :
  fst (create_bank_account dr o i ty cur r cb db) = db.
Proof.
  unfold create_bank_account.
  repeat (match goal with |- context [if ?b then _ else _] => destruct b end; [done|]).
  destruct (find _ _) as [inst|]; [|done].
  unfold run_transaction.
  destruct (create_bank_account_transaction_raises dr o i ty cur r cb (business_name inst) db)
    as [e ->].
  reflexivity.
Qed.

Lemma reset_user_data_missing_column :
  missing_column users_columns reset_user_data_columns = Some "last_work_date".
Proof. reflexivity. Qed.

(** The [UPDATE users] of [reset_user_data] names columns that the table
    does not have, so the reset never commits. *)
Lemma reset_user_data_never_commits user_id reason db :
  reset_user_data user_id reason db = (db, false).
Proof.
  unfold reset_user_data, run_transaction, reset_user_data_transaction, bind.
  destruct (insert_transaction _ _ _) as [e|db1]; [done|].
  unfold update_users_reset. by rewrite reset_user_data_missing_column.
Qed.

Lemma check_overdue_loans_cutoff today db :
  Forall (fun o => (od_due_date o < today - 14)%Z) (check_overdue_loans today db).
Proof.
  unfold check_overdue_loans. apply Forall_map, Forall_forall.
  intros l Hl. apply list_elem_of_In, filter_In in Hl as [_ Hl].
  apply andb_true_iff in Hl as [Hl _]. apply andb_true_iff in Hl as [_ Hl].
  simpl. lia.
Qed.

Lemma process_overdue_loan_keeps today o db p s :
  (od_due_date o < today - 14)%Z ->
  exists p', process_overdue_loan today o (db, p, s) = (db, p', s).
Proof.
  intros Hdue. unfold process_overdue_loan.
  destruct (existsb _ p); [eauto|].
  destruct (14 <=? today - od_due_date o)%Z eqn:H14; [|lia].
  rewrite reset_user_data_never_commits. eauto.
Qed.

Lemma process_overdue_loans_keeps today l db p s :
  Forall (fun o => (od_due_date o < today - 14)%Z) l ->
  exists p', fold_left (fun st o => process_overdue_loan today o st) l (db, p, s)
             = (db, p', s).
Proof.
  intros Hl. revert p. induction Hl as [|o l Ho _ IH]; intros p; cbn [fold_left]; [eauto|].
  destruct (process_overdue_loan_keeps today o db p s Ho) as [p' ->]. apply IH.
Qed.

(** The sweep as written changes nothing and notifies nobody. *)
Lemma process_overdue_loans_noop today db :
  process_overdue_loans today db = (db, []).
Proof.
  unfold process_overdue_loans.
  destruct (process_overdue_loans_keeps today _ db [] [] (check_overdue_loans_cutoff today db))
    as [p' ->].
  reflexivity.
Qed.

Lemma inv_step db op : inv db -> inv (step db op).
Proof.
  intros Hinv. destruct op; simpl.
  - by apply inv_transfer_money.
  - by apply inv_apply_for_loan.
  - by apply inv_fund_loan.
  - by apply inv_repay_loan.
  - by apply inv_bank_deposit.
  - by apply inv_bank_withdraw.
  - by apply inv_bank_transfer.
  - by apply inv_currency_exchange.
  - by rewrite create_bank_account_noop.
  - by rewrite process_overdue_loans_noop.
Qed.

Lemma inv_run ops db : inv db -> inv (run ops db).
Proof.
  revert db. induction ops as [|op ops IH]; intros db Hinv; simpl; [done|].
  apply IH. by apply inv_step.
Qed.

(** C3.  From a database in which no wallet holds a negative balance
    (and whose pending loan applications ask for positive amounts, as
    every row written by [apply_for_loan] does), no sequence of money
    operations run one after the other (wallet transfer, loan funding,
    loan repayment, bank deposit, bank withdraw, bank transfer, currency
    exchange, and also loan application, account opening and the sweep)
    reaches a database in which a wallet holds a negative balance in
    either currency. *)
Theorem no_negative_balances ops db :
  balances_nonneg db ->
  applications_positive db ->
  forall uid u c, users (run ops db) !! uid = Some u -> (0 <= balance_of c u)%Q.
Proof.
  intros Hn Ha uid u c Hu.
  destruct (inv_run ops db (conj Hn Ha)) as [Hn' _].
  destruct (map_Forall_lookup_1 _ _ _ _ Hn' Hu) as [Hg Hs].
  by destruct c.
Qed.


Lemma sample_wallets_nonneg : balances_nonneg Sample.db0.
Proof.
  unfold balances_nonneg, Sample.db0, Sample.wallets. simpl.
  repeat (apply map_Forall_insert_2; [simpl; split; lra|]).
  apply map_Forall_empty.
Qed.

Lemma no_negative_balances_witness :
  (0 <= balance_of gold_dinars {| username := "bob"; gold := 60; silver := 20 |})%Q
  /\ (0 <= balance_of silver_dirhams {| username := "alice"; gold := 30; silver := 620 |})%Q.
Proof.
  split.
  - apply (no_negative_balances Sample.day Sample.db0 sample_wallets_nonneg
             (Forall_nil_2 _) Sample.bob _ gold_dinars).
    vm_compute. reflexivity.
  - apply (no_negative_balances Sample.day Sample.db0 sample_wallets_nonneg
             (Forall_nil_2 _) Sample.alice _ silver_dirhams).
    vm_compute. reflexivity.
Defined.


(** ** Loans *)

Lemma loans_insert_transaction fk row db db' :
  insert_transaction fk row db = inr db' ->
  loans db' = loans db /\ loan_applications db' = loan_applications db.
Proof.
  unfold insert_transaction. destruct (_ && _); [discriminate|]. by intros [= <-].
Qed.

(** ** Binary64: what rounding keeps *)

Section Rounding.
Local Open Scope Z_scope.









Lemma Zdigits2_nonneg m : 0 <= Zdigits2 m.
Proof. destruct m; cbn; lia. Qed.
















End Rounding.

Section DoubleOrder.

Import Double.






End DoubleOrder.

(** ** Repayments on binary64 *)

Section DoubleRepay.

Import Double.











End DoubleRepay.




(** ** Funding an application twice *)

Lemma fund_loan_not_pending caller name id db :
  (forall a, a ∈ loan_applications db -> app_id a = id -> app_status a <> "pending") ->
  fund_loan caller name id db = (db, Loan_application_not_found_or_already_funded).
Proof.
  intros Hnp. unfold fund_loan.
  destruct (find _ _) as [a|] eqn:Hfind; [|done].
  apply find_some in Hfind as [Hin Hcond].
  apply andb_true_iff in Hcond as [Hid Hst].
  apply Nat.eqb_eq in Hid. apply String.eqb_eq in Hst.
  exfalso. eapply Hnp; eauto. by apply list_elem_of_In.
Qed.

Lemma loans_insert_loan row db db' :
  insert_loan row db = inr db' -> loan_applications db' = loan_applications db.
Proof. unfold insert_loan. destruct (_ || _); [discriminate|]. by intros [= <-]. Qed.

(** A successful funding leaves every row of that id 'funded'. *)
Lemma fund_loan_marks_funded caller name id db db' lid :
  fund_loan caller name id db = (db', Loan_Successfully_Funded lid) ->
  forall a, a ∈ loan_applications db' -> app_id a = id -> app_status a = "funded".
Proof.
  unfold fund_loan.
  destruct (find _ _) as [app|]; [|by intros ?].
  destruct (String.eqb _ caller); [by intros ?|].
  destruct (get_user_account caller name db) as [d db1].
  destruct (Qltb _ _); [by intros ?|].
  unfold run_transaction.
  destruct (fund_loan_transaction _ _ _ _ _ _) as [e|[db2 [r|r]]] eqn:Htx;
    [by intros ?| |].
  2:{ intros [= <- ->]. exfalso. unfold fund_loan_transaction in Htx. cbv zeta in Htx.
      repeat (apply bind_inr in Htx as (? & _ & Htx); cbv beta zeta in Htx).
      discriminate. }
  intros [= <- _]. unfold fund_loan_transaction in Htx. cbv zeta in Htx.
  apply bind_inr in Htx as (d2 & _ & Htx). cbv beta zeta in Htx.
  apply bind_inr in Htx as (d3 & _ & Htx). cbv beta zeta in Htx.
  apply bind_inr in Htx as (d4 & H4 & Htx). cbv beta zeta in Htx.
  apply bind_inr in Htx as (d5 & H5 & Htx). cbv beta zeta in Htx.
  apply bind_inr in Htx as (d6 & H6 & Htx). injection Htx as <- _.
  apply loans_insert_transaction in H6 as [_ ->].
  apply loans_insert_transaction in H5 as [_ ->].
  destruct (negb (user_exists caller d3)); [discriminate|]. injection H4 as <-.
  simpl. intros a Ha Hid. apply list_elem_of_fmap in Ha as (a0 & -> & _).
  destruct (app_id a0 =? id)%nat eqn:Ha0; [done|].
  apply Nat.eqb_neq in Ha0. done.
Qed.

(** C6.  A [fund_loan] call on an application id none of whose rows is
    'pending' (one that is already 'funded' in particular) is answered
    with the not-found-or-already-funded reply and leaves the database
    as it was: no balance moves, no loan row and no transaction row is
    written.  After a funding has succeeded, every further call for the
    same application, by any caller, is refused in this way, so the
    funds of one application are moved at most once. *)
Theorem fund_loan_idempotent_failure caller name id db :
  ((forall a, a ∈ loan_applications db -> app_id a = id -> app_status a <> "pending") ->
   fund_loan caller name id db = (db, Loan_application_not_found_or_already_funded))
  /\ (forall db' lid caller2 name2,
        fund_loan caller name id db = (db', Loan_Successfully_Funded lid) ->
        fund_loan caller2 name2 id db'
        = (db', Loan_application_not_found_or_already_funded)).
Proof.
  split.
  - apply fund_loan_not_pending.
  - intros db' lid caller2 name2 Hok. apply fund_loan_not_pending.
    intros a Ha Hid. rewrite (fund_loan_marks_funded _ _ _ _ _ _ Hok a Ha Hid). discriminate.
Qed.

Lemma fund_loan_idempotent_failure_witness :
  fund_loan Sample.alice "alice" 1 (Sample.db_application "funded")
  = (Sample.db_application "funded", Loan_application_not_found_or_already_funded)
  /\ fund_loan Sample.carol "carol" 1
       (fst (fund_loan Sample.alice "alice" 1 (Sample.db_application "pending")))
     = (fst (fund_loan Sample.alice "alice" 1 (Sample.db_application "pending")),
        Loan_application_not_found_or_already_funded).
Proof.
  split.
  - apply (proj1 (fund_loan_idempotent_failure Sample.alice "alice" 1
                    (Sample.db_application "funded"))).
    intros a Ha _. apply list_elem_of_singleton in Ha as ->. discriminate.
  - apply (proj2 (fund_loan_idempotent_failure Sample.alice "alice" 1
                    (Sample.db_application "pending"))
             (fst (fund_loan Sample.alice "alice" 1 (Sample.db_application "pending")))
             1%nat Sample.carol "carol").
    vm_compute. reflexivity.
Defined.


(** ** A credit that fails undoes the debit *)

Lemma users_get_user_account_other uid name k db :
  uid <> k -> users (snd (get_user_account uid name db)) !! k = users db !! k.
Proof.
  intros Hne. unfold get_user_account.
  destruct (negb _); [done|]. destruct (users db !! uid); [done|].
  simpl. by rewrite lookup_insert_ne.
Qed.

Lemma users_update_wallet_other cur v uid k db :
  uid <> k -> users (update_wallet cur v uid db) !! k = users db !! k.
Proof.
  intros Hne. unfold update_wallet, update_balance.
  destruct (String.eqb cur "gold_dinars"); (destruct (users db !! uid); [|done]);
    simpl; by rewrite lookup_insert_ne.
Qed.

Lemma update_credit_named_missing cur amt k db db' :
  users db !! k = None -> update_credit_named cur amt k db = inr db' -> db' = db.
Proof.
  intros Hk. unfold update_credit_named, update_credit.
  destruct (resolve_column cur); [|discriminate]. rewrite Hk. by intros [= <-].
Qed.

Lemma insert_transaction_missing row db :
  users db !! tx_user_id row = None ->
  insert_transaction true row db = raise (IntegrityError "FOREIGN KEY constraint failed").
Proof.
  intros Hk. unfold insert_transaction. by rewrite Hk.
Qed.

Lemma users_insert_transaction fk row db db' :
  insert_transaction fk row db = inr db' -> users db' = users db.
Proof.
  unfold insert_transaction. destruct (_ && _); [discriminate|]. by intros [= <-].
Qed.

(** [fund_loan]: the borrower has no row in [users]. *)
Lemma fund_loan_borrower_missing caller name id db app :
  find (fun a => (app_id a =? id)%nat && String.eqb (app_status a) "pending")
       (loan_applications db) = Some app ->
  app_borrower_id app <> caller ->
  users db !! app_borrower_id app = None ->
  (app_loan_amount app
   <= currency_balance_of (app_currency app) (fst (get_user_account caller name db)))%Q ->
  fund_loan caller name id db = (snd (get_user_account caller name db), Error_funding_loan).
Proof.
  intros Hfind Hne Hb Hle. unfold fund_loan. rewrite Hfind.
  apply String.eqb_neq in Hne as Hneb. rewrite Hneb.
  pose proof (users_get_user_account_other caller name (app_borrower_id app) db) as Hother.
  destruct (get_user_account caller name db) as [d db1]. simpl in *.
  apply Qltb_false in Hle. rewrite Hle.
  unfold run_transaction.
  destruct (fund_loan_transaction _ _ _ _ _ _) as [e|[db2 r]] eqn:Htx; [done|].
  exfalso. unfold fund_loan_transaction in Htx. cbv zeta in Htx.
  apply bind_inr in Htx as (d2 & H2 & Htx). cbv beta zeta in Htx.
  apply bind_inr in Htx as (d3 & H3 & _).
  assert (Hb2 : users (update_wallet (app_currency app)
                         (currency_balance_of (app_currency app) d - app_loan_amount app)
                         caller db1) !! app_borrower_id app = None).
  { rewrite users_update_wallet_other by congruence. rewrite Hother by congruence. done. }
  apply (update_credit_named_missing _ _ _ _ _ Hb2) in H2. subst d2.
  unfold insert_loan, user_exists in H3. cbn [borrower_id] in H3. rewrite Hb2 in H3.
  rewrite (bool_decide_eq_false_2 (is_Some None)) in H3 by (by intros [? ?]).
  rewrite orb_true_r in H3. discriminate.
Qed.

(** [repay_loan]: the lender has no row in [users]. *)
Lemma repay_loan_lender_missing caller name id amt db loan :
  find (fun l => (loan_id l =? id)%nat && String.eqb (borrower_id l) caller) (loans db)
  = Some loan ->
  loan_status loan = "active" ->
  (0 < amt)%Q -> (amt <= loan_amount loan - repaid_amount loan)%Q ->
  lender_id loan <> caller ->
  users db !! lender_id loan = None ->
  (amt <= currency_balance_of (loan_currency loan) (fst (get_user_account caller name db)))%Q ->
  repay_loan caller name id amt db
  = (snd (get_user_account caller name db), Error_processing_loan_repayment).
Proof.
  intros Hfind Hact Hpos Hrem Hne Hl Hle. unfold repay_loan. rewrite Hfind, Hact. simpl.
  apply Qltb_false in Hrem. rewrite Hrem.
  assert (Hp : Qleb amt 0 = false) by (by apply Qleb_false). rewrite Hp.
  pose proof (users_get_user_account_other caller name (lender_id loan) db) as Hother.
  destruct (get_user_account caller name db) as [d db1]. simpl in *.
  apply Qltb_false in Hle. rewrite Hle.
  unfold run_transaction.
  destruct (repay_loan_transaction _ _ _ _ _ _) as [e|[db2 r]] eqn:Htx; [done|].
  exfalso. unfold repay_loan_transaction in Htx. cbv zeta in Htx.
  apply bind_inr in Htx as (d2 & H2 & Htx). cbv beta zeta in Htx.
  apply bind_inr in Htx as (d3 & H3 & Htx). cbv beta zeta in Htx.
  apply bind_inr in Htx as (d4 & H4 & _).
  assert (Hl2 : users (update_wallet (loan_currency loan)
                         (currency_balance_of (loan_currency loan) d - amt)
                         caller db1) !! lender_id loan = None).
  { rewrite users_update_wallet_other by congruence. rewrite Hother by congruence. done. }
  apply (update_credit_named_missing _ _ _ _ _ Hl2) in H2. subst d2.
  apply users_insert_transaction in H3.
  rewrite insert_transaction_missing in H4; [discriminate|].
  simpl. rewrite H3. exact Hl2.
Qed.

(** C4.  A two-sided move whose debit succeeded and whose credit fails
    is rolled back as a whole.  In POST /api/pay, when the recipient has
    no row in [users], the debit had been applied to the working copy,
    yet the answer is the recipient-not-found error and the database,
    the balance of the sender and the transaction table included, is the
    one before the call.  In [fund_loan] and [repay_loan], when the
    credited party has no row, a foreign key refuses a later statement,
    the handler answers with its error reply, and the database is the
    one the transaction began with. *)
Theorem failed_credit_rolls_back :
  (forall API_TOKEN req a b amt cur c ua db,
     validated_request API_TOKEN req = Some (a, b, amt, cur, c) ->
     users db !! a = Some ua ->
     (amt <= balance_of c ua)%Q ->
     users db !! b = None ->
     (exists db1, update_debit c amt a db = (db1, 1%nat)
                  /\ users db1 !! a = Some (set_balance c (balance_of c ua - amt) ua))
     /\ transfer_money API_TOKEN req db = (db, error 400 "Recipient user not found"))
  /\ (forall caller name id db app,
        find (fun a => (app_id a =? id)%nat && String.eqb (app_status a) "pending")
             (loan_applications db) = Some app ->
        app_borrower_id app <> caller ->
        users db !! app_borrower_id app = None ->
        (app_loan_amount app
         <= currency_balance_of (app_currency app) (fst (get_user_account caller name db)))%Q ->
        fund_loan caller name id db
        = (snd (get_user_account caller name db), Error_funding_loan))
  /\ (forall caller name id amt db loan,
        find (fun l => (loan_id l =? id)%nat && String.eqb (borrower_id l) caller) (loans db)
        = Some loan ->
        loan_status loan = "active" ->
        (0 < amt)%Q -> (amt <= loan_amount loan - repaid_amount loan)%Q ->
        lender_id loan <> caller ->
        users db !! lender_id loan = None ->
        (amt <= currency_balance_of (loan_currency loan)
                  (fst (get_user_account caller name db)))%Q ->
        repay_loan caller name id amt db
        = (snd (get_user_account caller name db), Error_processing_loan_repayment)).
Proof.
  split_and!.
  - apply transfer_money_recipient_missing.
  - apply fund_loan_borrower_missing.
  - apply repay_loan_lender_missing.
Qed.

Lemma failed_credit_rolls_back_witness :
  ((exists db1, update_debit gold_dinars 30 Sample.alice Sample.db0 = (db1, 1%nat)
                /\ users db1 !! Sample.alice
                   = Some (set_balance gold_dinars (100 - 30)
                             {| username := "alice"; gold := 100; silver := 500 |}))
   /\ transfer_money "token" (Sample.pay Sample.alice Sample.carol 30) Sample.db0
      = (Sample.db0, error 400 "Recipient user not found"))
  /\ fund_loan Sample.alice "alice" 1 Sample.db_orphan_application
     = (Sample.db_orphan_application, Error_funding_loan)
  /\ repay_loan Sample.alice "alice" 1 50 Sample.db_orphan_loan
     = (Sample.db_orphan_loan, Error_processing_loan_repayment).
Proof.
  destruct failed_credit_rolls_back as (Hpay & Hfund & Hrepay).
  split; [|split].
  - apply (Hpay "token" (Sample.pay Sample.alice Sample.carol 30) Sample.alice Sample.carol
             30%Q "gold_dinars" gold_dinars
             {| username := "alice"; gold := 100; silver := 500 |} Sample.db0).
    + reflexivity.
    + reflexivity.
    + vm_compute. discriminate.
    + reflexivity.
  - apply (Hfund Sample.alice "alice" 1%nat Sample.db_orphan_application
             Sample.orphan_application).
    + reflexivity.
    + discriminate.
    + reflexivity.
    + vm_compute. discriminate.
  - apply (Hrepay Sample.alice "alice" 1%nat 50%Q Sample.db_orphan_loan Sample.orphan_loan).
    + reflexivity.
    + reflexivity.
    + reflexivity.
    + vm_compute. discriminate.
    + discriminate.
    + reflexivity.
    + vm_compute. discriminate.
Defined.

(** ** Bank accounts *)

(** Rewriting a balance keeps type and ratio of every account. *)
Lemma bank_profile_update_account_balance v id db db' :
  update_account_balance v id db = inr db' -> bank_profile db' = bank_profile db.
Proof.
  unfold update_account_balance. destruct (_ && _); [discriminate|].
  intros [= <-]. unfold bank_profile. simpl. rewrite map_map.
  apply map_ext. intros a. by destruct (account_id a =? id)%nat.
Qed.

Lemma bank_profile_ext db db' :
  bank_accounts db' = bank_accounts db -> bank_profile db' = bank_profile db.
Proof. unfold bank_profile. by intros ->. Qed.

Lemma bank_profile_update_wallet cur v uid db :
  bank_profile (update_wallet cur v uid db) = bank_profile db.
Proof.
  unfold update_wallet, update_balance.
  destruct (String.eqb cur "gold_dinars"); destruct (users db !! uid); done.
Qed.

Lemma bank_profile_update_credit_named cur amt uid db db' :
  update_credit_named cur amt uid db = inr db' -> bank_profile db' = bank_profile db.
Proof.
  unfold update_credit_named, update_credit.
  destruct (resolve_column cur); [|discriminate].
  destruct (users db !! uid); by intros [= <-].
Qed.

Lemma bank_profile_insert_transaction fk row db db' :
  insert_transaction fk row db = inr db' -> bank_profile db' = bank_profile db.
Proof.
  unfold insert_transaction. destruct (_ && _); [discriminate|]. by intros [= <-].
Qed.

Lemma bank_profile_insert_loan row db db' :
  insert_loan row db = inr db' -> bank_profile db' = bank_profile db.
Proof. unfold insert_loan. destruct (_ || _); [discriminate|]. by intros [= <-]. Qed.

Lemma bank_profile_insert_bank_ledger fk row db db' :
  insert_bank_ledger fk row db = inr db' -> bank_profile db' = bank_profile db.
Proof.
  unfold insert_bank_ledger. destruct (_ || _); [discriminate|].
  destruct (_ && _); [discriminate|]. by intros [= <-].
Qed.

Lemma bank_profile_get_user_account uid name db :
  bank_profile (snd (get_user_account uid name db)) = bank_profile db.
Proof.
  unfold get_user_account. destruct (negb _); [done|]. by destruct (users db !! uid).
Qed.

Lemma run_transaction_bank_profile {R} (body : DB -> exec (DB * tx_end R)) exc db :
  (forall db' r, body db = inr (db', r) -> bank_profile db' = bank_profile db) ->
  bank_profile (fst (run_transaction body exc db)) = bank_profile db.
Proof.
  intros Hbody. unfold run_transaction.
  destruct (body db) as [e|[db' [r|r]]] eqn:Hb; simpl; eauto.
Qed.

Lemma bank_profile_set_users f db : bank_profile (set_users f db) = bank_profile db.
Proof. reflexivity. Qed.

Lemma bank_profile_set_loans f db : bank_profile (set_loans f db) = bank_profile db.
Proof. reflexivity. Qed.

Lemma bank_profile_set_loan_applications f db :
  bank_profile (set_loan_applications f db) = bank_profile db.
Proof. reflexivity. Qed.

(** Peels the statements off a committed transaction body and chains
    what each of them keeps. *)
Ltac profile_chain H :=
  repeat (let a := fresh "db" in
          let Ha := fresh "Hstmt" in
          apply bind_inr in H as (a & Ha & H); cbv beta zeta in H;
          first [ apply bank_profile_update_credit_named in Ha
                | apply bank_profile_insert_transaction in Ha
                | apply bank_profile_insert_loan in Ha
                | apply bank_profile_insert_bank_ledger in Ha
                | apply bank_profile_update_account_balance in Ha
                | (destruct (negb (user_exists _ _)); [discriminate|]; injection Ha as <-) ]);
  injection H as <- _;
  repeat first
    [ rewrite bank_profile_set_users
    | rewrite bank_profile_set_loans
    | rewrite bank_profile_set_loan_applications
    | rewrite bank_profile_update_wallet
    | match goal with
      | Hp : bank_profile _ = bank_profile _ |- _ => rewrite Hp; clear Hp
      end ];
  try reflexivity.

Ltac gates :=
  repeat (match goal with |- context [if ?b then _ else _] => destruct b end; [done|]).

Lemma bank_profile_step db op : bank_profile (step db op) = bank_profile db.
Proof.
  destruct op as [tok req|today c n amt cur days why|c n i|c n i amt|i u amt|i u amt
                 |f t u amt descr|c n amt f t|dr o i ty cur r cb|today]; simpl.
  - unfold transfer_money. gates.
    destruct (json req) as [data|]; [|done]. gates.
    destruct (currency_column _) as [col|]; [|done].
    destruct (from_user data) as [a|]; [|done].
    destruct (to_user data) as [b|]; [|done].
    destruct (String.eqb a b); [done|].
    apply run_transaction_bank_profile. intros db' r.
    unfold transfer_money_transaction, update_debit, update_credit.
    destruct (users db !! a) as [ua|]; [|by intros [= <- _]].
    destruct (Qleb _ _); [|by intros [= <- _]]. simpl.
    destruct (_ !! b) as [ub|]; [|by intros [= <- _]]. simpl.
    intros H. profile_chain H.
  - unfold apply_for_loan. gates.
    apply run_transaction_bank_profile. intros db' r.
    destruct (negb _); [discriminate|]. by intros [= <- _].
  - unfold fund_loan.
    destruct (find _ _) as [app|]; [|done].
    destruct (String.eqb _ c); [done|].
    pose proof (bank_profile_get_user_account c n db) as Hg.
    destruct (get_user_account c n db) as [d db1]. simpl in Hg.
    destruct (Qltb _ _); [done|]. rewrite <- Hg. clear Hg.
    apply run_transaction_bank_profile. intros db' r H.
    unfold fund_loan_transaction in H. cbv zeta in H. profile_chain H.
  - unfold repay_loan.
    destruct (find _ _) as [loan|]; [|done]. gates.
    pose proof (bank_profile_get_user_account c n db) as Hg.
    destruct (get_user_account c n db) as [d db1]. simpl in Hg.
    destruct (Qltb _ _); [done|]. rewrite <- Hg. clear Hg.
    apply run_transaction_bank_profile. intros db' r H.
    unfold repay_loan_transaction in H. cbv zeta in H. profile_chain H.
  - unfold bank_deposit.
    destruct (Qleb amt 0); [done|].
    destruct (select_active_account i db) as [[acc inst]|]; [|done].
    destruct (negb _); [done|].
    pose proof (bank_profile_get_user_account u "" db) as Hg.
    destruct (get_user_account u "" db) as [d db1]. simpl in Hg.
    destruct (Qltb _ _); [done|]. rewrite <- Hg. clear Hg.
    apply run_transaction_bank_profile. intros db' r H. profile_chain H.
  - unfold bank_withdraw.
    destruct (Qleb amt 0); [done|].
    destruct (select_active_account i db) as [[acc inst]|]; [|done].
    destruct (negb _); [done|].
    destruct (Qltb _ _); [done|].
    pose proof (bank_profile_get_user_account u "" db) as Hg.
    destruct (get_user_account u "" db) as [d db1]. simpl in Hg.
    rewrite <- Hg. clear Hg.
    apply run_transaction_bank_profile. intros db' r H. profile_chain H.
  - unfold bank_transfer.
    destruct (Qleb amt 0); [done|].
    destruct (_ =? _)%nat; [done|].
    destruct (select_active_account f db) as [[fa fi]|]; [|done].
    destruct (select_active_account t db) as [[ta ti]|]; [|done]. gates.
    apply run_transaction_bank_profile. intros db' r H. profile_chain H.
  - unfold currency_exchange.
    destruct (_ || _); [done|].
    destruct (String.eqb (lower _) (lower _)); [done|].
    destruct (Qleb amt 0); [done|].
    pose proof (bank_profile_get_user_account c n db) as Hg.
    destruct (get_user_account c n db) as [d db1]. simpl in Hg.
    rewrite <- Hg. clear Hg.
    destruct (String.eqb (lower _) "gold"); (destruct (Qltb _ _); [done|]);
      apply run_transaction_bank_profile; intros db' r H; profile_chain H.
  - by rewrite create_bank_account_noop.
  - by rewrite process_overdue_loans_noop.
Qed.

Lemma bank_profile_run ops db : bank_profile (run ops db) = bank_profile db.
Proof.
  revert db. induction ops as [|op ops IH]; intros db; simpl; [done|].
  by rewrite IH, bank_profile_step.
Qed.

Lemma ratio_iff_mudarabah_profile db db' :
  bank_profile db' = bank_profile db -> ratio_iff_mudarabah db -> ratio_iff_mudarabah db'.
Proof.
  unfold ratio_iff_mudarabah, bank_profile. intros Hp H.
  assert (Hf : Forall (fun p : string * option Q => is_Some (snd p) <-> fst p = "mudarabah")
                 (map (fun a => (account_type a, profit_share_ratio a)) (bank_accounts db))).
  { apply Forall_map. exact H. }
  rewrite <- Hp in Hf. apply Forall_map in Hf. exact Hf.
Qed.


Lemma create_bank_account_result dr o i ty cur r cb db :
  is_validation_error (snd (create_bank_account dr o i ty cur r cb db))
  \/ snd (create_bank_account dr o i ty cur r cb db)
     = bank_error "Database error occurred during account creation.".
Proof.
  unfold create_bank_account, is_validation_error.
  destruct (negb (existsb _ _)); [left; simpl; tauto|].
  destruct (negb (existsb _ _)); [left; simpl; tauto|].
  destruct (_ && _); [left; simpl; tauto|].
  destruct (_ && _); [left; simpl; tauto|].
  destruct (5 <=? _)%nat; [left; simpl; tauto|].
  destruct (find _ _) as [inst|]; [|left; simpl; tauto].
  right. unfold run_transaction.
  by destruct (create_bank_account_transaction_raises dr o i ty cur r cb (business_name inst) db)
    as [e ->].
Qed.

Lemma create_bank_account_fails dr o i ty cur r cb db :
  is_success (snd (create_bank_account dr o i ty cur r cb db)) = false.
Proof.
  destruct (create_bank_account_result dr o i ty cur r cb db)
    as [[H|[H|[H|[H|[H|H]]]]]|H]; by rewrite H.
Qed.

Lemma create_bank_account_gates dr o i ty cur r cb db :
  ~ is_validation_error (snd (create_bank_account dr o i ty cur r cb db)) ->
  is_Some r <-> ty = "mudarabah".
Proof.
  unfold create_bank_account, is_validation_error. intros H.
  destruct (negb (existsb _ _)); [exfalso; apply H; simpl; tauto|].
  destruct (negb (existsb _ _)); [exfalso; apply H; simpl; tauto|].
  destruct (String.eqb ty "mudarabah") eqn:Hty.
  - apply String.eqb_eq in Hty. destruct r as [q|]; simpl in H.
    + split; [done|eauto].
    + exfalso; apply H; simpl; tauto.
  - apply String.eqb_neq in Hty. simpl in H. destruct r as [q|].
    + rewrite bool_decide_eq_true_2 in H by eauto. exfalso; apply H; simpl; tauto.
    + split; [by intros [? ?]|done].
Qed.

Lemma create_bank_account_bad_mudarabah dr o i cur c r cb db :
  currency_column cur = Some c ->
  r = None \/ (exists q, r = Some q /\ ((q < 0)%Q \/ (1 < q)%Q)) ->
  snd (create_bank_account dr o i "mudarabah" cur r cb db)
  = bank_error "Mudarabah accounts require profit_share_ratio between 0 and 1.".
Proof.
  intros Hc Hr. unfold create_bank_account. simpl.
  assert (Hcur : (String.eqb cur "gold_dinars" || (String.eqb cur "silver_dirhams" || false))
                 = true).
  { unfold currency_column in Hc.
    destruct (String.eqb cur "gold_dinars"); [done|].
    destruct (String.eqb cur "silver_dirhams"); done. }
  rewrite Hcur. simpl.
  destruct Hr as [->|(q & -> & [Hq|Hq])]; [done| |].
  - apply Qltb_true in Hq. by rewrite Hq.
  - apply Qltb_true in Hq. rewrite Hq. by rewrite orb_true_r.
Qed.

Lemma create_bank_account_bad_wadiah dr o i cur c r cb db :
  currency_column cur = Some c -> is_Some r ->
  snd (create_bank_account dr o i "wadiah" cur r cb db)
  = bank_error "Wadiah accounts cannot have profit sharing.".
Proof.
  intros Hc Hr. unfold create_bank_account. simpl.
  assert (Hcur : (String.eqb cur "gold_dinars" || (String.eqb cur "silver_dirhams" || false))
                 = true).
  { unfold currency_column in Hc.
    destruct (String.eqb cur "gold_dinars"); [done|].
    destruct (String.eqb cur "silver_dirhams"); done. }
  rewrite Hcur. simpl. by rewrite bool_decide_eq_true_2.
Qed.

(** C9.  The property that the ratio of a bank account is present
    exactly when its type is 'mudarabah' holds of the freshly created
    database and is kept by every sequence of operations;
    [create_bank_account] refuses a 'mudarabah' request whose ratio is
    absent or outside [0,1] and a 'wadiah' request that carries a ratio,
    with the error of that check when the currency is valid, and creates
    nothing in either case; and a call that gets past the checks has a
    ratio exactly when its type is 'mudarabah'. *)
Theorem profit_share_ratio_iff_mudarabah :
  ratio_iff_mudarabah empty_db
  /\ (forall ops db, ratio_iff_mudarabah db -> ratio_iff_mudarabah (run ops db))
  /\ (forall dr o i ty cur r cb db,
        bad_ratio ty r ->
        fst (create_bank_account dr o i ty cur r cb db) = db
        /\ is_success (snd (create_bank_account dr o i ty cur r cb db)) = false)
  /\ (forall dr o i cur c r cb db,
        currency_column cur = Some c ->
        (bad_ratio "mudarabah" r ->
         snd (create_bank_account dr o i "mudarabah" cur r cb db)
         = bank_error "Mudarabah accounts require profit_share_ratio between 0 and 1.")
        /\ (bad_ratio "wadiah" r ->
            snd (create_bank_account dr o i "wadiah" cur r cb db)
            = bank_error "Wadiah accounts cannot have profit sharing."))
  /\ (forall dr o i ty cur r cb db,
        ~ is_validation_error (snd (create_bank_account dr o i ty cur r cb db)) ->
        is_Some r <-> ty = "mudarabah").
Proof.
  split_and!.
  - constructor.
  - intros ops db. apply ratio_iff_mudarabah_profile, bank_profile_run.
  - intros. split; [apply create_bank_account_noop|apply create_bank_account_fails].
  - intros dr o i cur c r cb db Hc. split.
    + intros [[_ Hr]|[Hty _]]; [|discriminate].
      by eapply create_bank_account_bad_mudarabah.
    + intros [[Hty _]|[_ Hr]]; [discriminate|].
      by eapply create_bank_account_bad_wadiah.
  - apply create_bank_account_gates.
Qed.

Lemma profit_share_ratio_iff_mudarabah_witness :
  ratio_iff_mudarabah (run Sample.day empty_db)
  /\ (fst (create_bank_account Sample.draws Sample.bob 1 "mudarabah" "gold_dinars"
             (Some (3 # 2)) None Sample.db_bank) = Sample.db_bank
      /\ is_success (snd (create_bank_account Sample.draws Sample.bob 1 "mudarabah"
                            "gold_dinars" (Some (3 # 2)) None Sample.db_bank)) = false)
  /\ snd (create_bank_account Sample.draws Sample.bob 1 "wadiah" "gold_dinars"
            (Some (1 # 2)) None Sample.db_bank)
     = bank_error "Wadiah accounts cannot have profit sharing.".
Proof.
  destruct profit_share_ratio_iff_mudarabah as (H0 & Hrun & Hbad & Herr & _).
  split; [|split].
  - apply (Hrun Sample.day empty_db H0).
  - apply (Hbad Sample.draws Sample.bob 1%nat "mudarabah" "gold_dinars" (Some (3 # 2)) None
             Sample.db_bank).
    left. split; [reflexivity|]. right. exists (3 # 2). split; [reflexivity|].
    right. reflexivity.
  - apply (proj2 (Herr Sample.draws Sample.bob 1%nat "gold_dinars" gold_dinars
                    (Some (1 # 2)) None Sample.db_bank eq_refl)).
    right. split; [reflexivity|]. by eexists.
Defined.

(** C10.  Under the schema created by [init_database] no call of
    [create_bank_account] succeeds or persists anything: the last
    statement inserts the 'Account opened' row with amount 0 into
    [bank_ledger], whose CHECK (amount > 0) refuses it, so the
    transaction is never committed and the database is the one before
    the call; a call is answered either by one of the validation errors
    or, once it is past them, by the generic database error. *)
Theorem create_bank_account_never_commits :
  (forall dr o i ty cur r cb db,
     fst (create_bank_account dr o i ty cur r cb db) = db
     /\ is_success (snd (create_bank_account dr o i ty cur r cb db)) = false
     /\ (is_validation_error (snd (create_bank_account dr o i ty cur r cb db))
         \/ snd (create_bank_account dr o i ty cur r cb db)
            = bank_error "Database error occurred during account creation."))
  /\ (forall fk id cur who db,
        insert_bank_ledger fk
          {| bl_account_id := id; entry_type := "deposit"; bl_amount := 0;
             bl_currency := cur; bl_description := "Account opened";
             counterparty_account_id := None; created_by_user_id := who |} db
        = raise (IntegrityError "CHECK constraint failed"))
  /\ create_bank_account Sample.draws Sample.bob 1 "wadiah" "gold_dinars" None None
       Sample.db_bank
     = (Sample.db_bank, bank_error "Database error occurred during account creation.").
Proof.
  split_and!.
  - intros. split_and!.
    + apply create_bank_account_noop.
    + apply create_bank_account_fails.
    + apply create_bank_account_result.
  - intros. by apply insert_bank_ledger_zero.
  - reflexivity.
Qed.


(** ** The overdue-loan sweep *)

(** C7 (the code falls short of the claim).  Bob holds 50 gold dinars
    and 20 silver dirhams and owes 50 gold dinars on an 'active' loan
    whose due date is 20 days in the past.  The sweep selects the loan,
    but the reset never commits, because its [UPDATE users] names columns
    that [users] does not have: afterwards the database is the one
    before the sweep (both balances as they were, the loan still
    'active', no account_reset row), nobody is notified, and a second
    sweep selects the same loan again.  The reset fails in this way for
    every user and reason. *)
Theorem sweep_does_not_reset_defaulter :
  check_overdue_loans 120 (Sample.db_borrowed 100)
  = [{| od_borrower_id := Sample.bob; od_due_date := 100; od_loan_amount := 50;
        od_repaid_amount := 0; od_id := 1 |}]
  /\ process_overdue_loans 120 (Sample.db_borrowed 100) = (Sample.db_borrowed 100, [])
  /\ users (fst (process_overdue_loans 120 (Sample.db_borrowed 100))) !! Sample.bob
     = Some {| username := "bob"; gold := 50; silver := 20 |}
  /\ loans (fst (process_overdue_loans 120 (Sample.db_borrowed 100)))
     = [Sample.loan_due 100]
  /\ transactions (fst (process_overdue_loans 120 (Sample.db_borrowed 100))) = []
  /\ check_overdue_loans 120 (fst (process_overdue_loans 120 (Sample.db_borrowed 100)))
     = check_overdue_loans 120 (Sample.db_borrowed 100)
  /\ (forall user_id reason db, reset_user_data user_id reason db = (db, false))
  /\ update_users_reset Sample.bob (Sample.db_borrowed 100)
     = raise (OperationalError "no such column: last_work_date").
Proof.
  split_and!; try (vm_compute; reflexivity).
  apply reset_user_data_never_commits.
Qed.

(** C8 (the code falls short of the claim).  Bob's 'active' loan is 10
    days past due and unpaid, yet [check_overdue_loans] does not select
    it, since its cutoff lies 14 days back, and the sweep sends no
    warning; a loan that is exactly 14 days past due is not selected
    either.  No sweep ever sends a notification or changes the
    database, so the warning branch for 7 to 13 days is never taken. *)
Theorem sweep_never_warns :
  check_overdue_loans 120 (Sample.db_borrowed 110) = []
  /\ process_overdue_loans 120 (Sample.db_borrowed 110) = (Sample.db_borrowed 110, [])
  /\ check_overdue_loans 120 (Sample.db_borrowed 106) = []
  /\ (forall today db, process_overdue_loans today db = (db, [])).
Proof.
  split_and!; try (vm_compute; reflexivity).
  apply process_overdue_loans_noop.
Qed.


(** * Further properties of the code *)

(** ** User names *)








(** ** Unique codes by bounded retry *)

Lemma is_account_number_unique_spec number db :
  is_account_number_unique number db = true
  <-> forall a, a ∈ bank_accounts db -> account_number a <> number.
Proof.
  unfold is_account_number_unique. rewrite Nat.eqb_eq, length_zero_iff_nil. split.
  - intros Hnil a Ha Heq.
    assert (Hin : In a (List.filter (fun a => String.eqb (account_number a) number)
                          (bank_accounts db))).
    { apply filter_In. split; [by apply list_elem_of_In|]. by apply String.eqb_eq. }
    by rewrite Hnil in Hin.
  - intros Hall. destruct (List.filter _ _) as [|a l] eqn:Hf; [done|]. exfalso.
    assert (Hin : In a (List.filter (fun a => String.eqb (account_number a) number)
                          (bank_accounts db))) by (rewrite Hf; by left).
    apply filter_In in Hin as [Hin Heq]. apply String.eqb_eq in Heq.
    by apply (Hall a); [apply list_elem_of_In|].
Qed.

Lemma generate_unique_account_number_from_spec draws db : forall m n,
  match generate_unique_account_number_from draws n m db with
  | Some number =>
      exists k, (n <= k < n + m)%nat /\ number = draws k
                /\ is_account_number_unique number db = true
                /\ forall j, (n <= j < k)%nat -> is_account_number_unique (draws j) db = false
  | None => forall j, (n <= j < n + m)%nat -> is_account_number_unique (draws j) db = false
  end.
Proof.
  induction m as [|m IH]; intros n; simpl; [intros j Hj; lia|].
  destruct (is_account_number_unique (draws n) db) eqn:Hu.
  - exists n. split_and!; first [done | lia].
  - specialize (IH (S n)). destruct (generate_unique_account_number_from _ _ _ _).
    + destruct IH as (k & Hk & Hd & Hun & Hbefore). exists k.
      split_and!; try done; try lia.
      intros j Hj. destruct (decide (j = n)) as [->|]; [done|]. apply Hbefore. lia.
    + intros j Hj. destruct (decide (j = n)) as [->|]; [done|]. apply IH. lia.
Qed.

(** X4.  [generate_unique_account_number] returns the first of the at
    most 50 numbers drawn that no bank account carries; it fails exactly
    when each of the first 50 draws is taken. *)
Theorem generate_unique_account_number_first_free draws db :
  match generate_unique_account_number draws db with
  | Some number =>
      (forall a, a ∈ bank_accounts db -> account_number a <> number)
      /\ exists k, (k < 50)%nat /\ number = draws k
                   /\ forall j, (j < k)%nat ->
                                exists a, a ∈ bank_accounts db /\ account_number a = draws j
  | None =>
      forall j, (j < 50)%nat -> exists a, a ∈ bank_accounts db /\ account_number a = draws j
  end.
Proof.
  assert (Htaken : forall number, is_account_number_unique number db = false ->
                     exists a, a ∈ bank_accounts db /\ account_number a = number).
  { intros number Hf. unfold is_account_number_unique in Hf. apply Nat.eqb_neq in Hf.
    destruct (List.filter _ _) as [|a l] eqn:Hl; [done|].
    assert (Hin : In a (List.filter (fun a => String.eqb (account_number a) number)
                          (bank_accounts db))) by (rewrite Hl; by left).
    apply filter_In in Hin as [Hin Heq]. apply String.eqb_eq in Heq.
    exists a. split; [by apply list_elem_of_In|done]. }
  unfold generate_unique_account_number.
  pose proof (generate_unique_account_number_from_spec draws db 50 0) as H.
  destruct (generate_unique_account_number_from _ _ _ _) as [number|].
  - destruct H as (k & Hk & Hd & Hun & Hbefore). split.
    + by apply is_account_number_unique_spec.
    + exists k. split_and!; try done; try lia. intros j Hj. apply Htaken, Hbefore. lia.
  - intros j Hj. apply Htaken, H. lia.
Qed.

Lemma generate_unique_license_code_from_spec draws db : forall m n,
  match generate_unique_license_code_from draws n m db with
  | Some code =>
      exists k, (n <= k < n + m)%nat /\ code = draws k
                /\ is_license_code_unique code db = true
                /\ forall j, (n <= j < k)%nat -> is_license_code_unique (draws j) db = false
  | None => forall j, (n <= j < n + m)%nat -> is_license_code_unique (draws j) db = false
  end.
Proof.
  induction m as [|m IH]; intros n; simpl; [intros j Hj; lia|].
  destruct (is_license_code_unique (draws n) db) eqn:Hu.
  - exists n. split_and!; first [done | lia].
  - specialize (IH (S n)). destruct (generate_unique_license_code_from _ _ _ _).
    + destruct IH as (k & Hk & Hd & Hun & Hbefore). exists k.
      split_and!; try done; try lia.
      intros j Hj. destruct (decide (j = n)) as [->|]; [done|]. apply Hbefore. lia.
    + intros j Hj. destruct (decide (j = n)) as [->|]; [done|]. apply IH. lia.
Qed.

(** X5.  [generate_unique_license_code] returns the first of the at most
    50 codes drawn that no business carries as its license code; it
    fails exactly when each of the first 50 draws is taken. *)
Theorem generate_unique_license_code_first_free draws db :
  match generate_unique_license_code draws db with
  | Some code =>
      (forall b, b ∈ businesses db -> license_code b <> Some code)
      /\ exists k, (k < 50)%nat /\ code = draws k
                   /\ forall j, (j < k)%nat ->
                                exists b, b ∈ businesses db /\ license_code b = Some (draws j)
  | None =>
      forall j, (j < 50)%nat -> exists b, b ∈ businesses db /\ license_code b = Some (draws j)
  end.
Proof.
  assert (Hfilter : forall code b,
            In b (List.filter (fun b => match license_code b with
                                        | Some c => String.eqb c code
                                        | None => false
                                        end) (businesses db))
            <-> b ∈ businesses db /\ license_code b = Some code).
  { intros code b. rewrite filter_In, list_elem_of_In.
    destruct (license_code b) as [c|]; [|by split; intros []].
    split; intros [Hin Heq]; split; try done.
    - apply String.eqb_eq in Heq. by subst.
    - apply String.eqb_eq. congruence. }
  assert (Htaken : forall code, is_license_code_unique code db = false ->
                     exists b, b ∈ businesses db /\ license_code b = Some code).
  { intros code Hf. unfold is_license_code_unique in Hf. apply Nat.eqb_neq in Hf.
    destruct (List.filter _ _) as [|b l] eqn:Hl; [done|].
    exists b. apply Hfilter. rewrite Hl. by left. }
  assert (Hfree : forall code, is_license_code_unique code db = true ->
                    forall b, b ∈ businesses db -> license_code b <> Some code).
  { intros code Ht b Hb Heq. unfold is_license_code_unique in Ht.
    apply Nat.eqb_eq, length_zero_iff_nil in Ht.
    assert (Hin : In b []) by (rewrite <- Ht; by apply Hfilter). done. }
  unfold generate_unique_license_code.
  pose proof (generate_unique_license_code_from_spec draws db 50 0) as H.
  destruct (generate_unique_license_code_from _ _ _ _) as [code|].
  - destruct H as (k & Hk & Hd & Hun & Hbefore). split; [by apply Hfree|].
    exists k. split_and!; try done; try lia. intros j Hj. apply Htaken, Hbefore. lia.
  - intros j Hj. apply Htaken, H. lia.
Qed.


(** ** Accounts *)

Lemma get_user_account_keeps uid name db k u :
  users db !! k = Some u -> users (snd (get_user_account uid name db)) !! k = Some u.
Proof.
  intros Hk. unfold get_user_account.
  destruct (negb _); [done|].
  destruct (users db !! uid) eqn:Hu; [done|]. simpl.
  rewrite lookup_insert_ne; [done|]. intros ->. congruence.
Qed.

Lemma get_user_account_tables uid name db :
  set_users (fun _ => users db) (snd (get_user_account uid name db)) = db.
Proof.
  unfold get_user_account. destruct (negb _); [by destruct db|].
  destruct (users db !! uid); by destruct db.
Qed.



(** ** The trade proposal *)

(** X7.  [trade] never moves money: whatever it answers, a proposal
    included, every row of [users] that existed is unchanged and every
    other table is as before; the only rows it can add are the new
    accounts of the caller and the partner. *)
Theorem trade_moves_nothing caller caller_name partner partner_name amount currency db :
  (forall k u, users db !! k = Some u ->
     users (fst (trade caller caller_name partner partner_name amount currency db)) !! k
     = Some u)
  /\ set_users (fun _ => users db)
       (fst (trade caller caller_name partner partner_name amount currency db)) = db
  /\ (forall k,
        k <> caller -> k <> partner ->
        users (fst (trade caller caller_name partner partner_name amount currency db)) !! k
        = users db !! k).
Proof.
  assert (Hboth :
    (forall k u, users db !! k = Some u ->
       users (snd (get_user_account partner partner_name
                     (snd (get_user_account caller caller_name db)))) !! k = Some u)
    /\ set_users (fun _ => users db)
         (snd (get_user_account partner partner_name
                 (snd (get_user_account caller caller_name db)))) = db
    /\ (forall k, k <> caller -> k <> partner ->
          users (snd (get_user_account partner partner_name
                        (snd (get_user_account caller caller_name db)))) !! k
          = users db !! k)).
  { split_and!.
    - intros k u Hk. by do 2 apply get_user_account_keeps.
    - rewrite <- (get_user_account_tables caller caller_name db) at 2.
      rewrite <- (get_user_account_tables partner partner_name
                    (snd (get_user_account caller caller_name db))) at 2.
      reflexivity.
    - intros k Hc Hp. rewrite users_get_user_account_other by done.
      by rewrite users_get_user_account_other. }
  unfold trade.
  destruct (negb (existsb _ _)).
  { split_and!; [done|by destruct db|done]. }
  destruct (Qleb amount 0).
  { split_and!; [done|by destruct db|done]. }
  destruct (String.eqb partner caller).
  { split_and!; [done|by destruct db|done]. }
  destruct (get_user_account caller caller_name db) as [d1 db1]. cbn [snd] in Hboth.
  destruct (get_user_account partner partner_name db1) as [d2 db2]. cbn [snd] in Hboth.
  destruct (_ && _); [exact Hboth|]. destruct (_ && _); exact Hboth.
Qed.

Lemma trade_moves_nothing_witness :
  users (fst (trade Sample.alice "alice" Sample.carol "carol" 30 "gold" Sample.db0))
    !! Sample.alice
  = Some {| username := "alice"; gold := 100; silver := 500 |}
  /\ snd (trade Sample.alice "alice" Sample.carol "carol" 30 "gold" Sample.db0)
     = Trade_Proposal "alice" "carol" 30 "gold".
Proof.
  split.
  - apply (proj1 (trade_moves_nothing Sample.alice "alice" Sample.carol "carol" 30 "gold"
                    Sample.db0)).
    reflexivity.
  - reflexivity.
Defined.


(** ** What a wallet transfer leaves alone *)

(** The database a committed transfer publishes. *)
Lemma transfer_money_transaction_commit_db c cur amt a b db db' resp :
  a <> b ->
  transfer_money_transaction c cur amt a b db = inr (db', Commit resp) ->
  exists ua ub,
    users db !! a = Some ua /\ users db !! b = Some ub
    /\ db' = set_transactions
               (fun t => (t ++ [send_row a b amt cur; receive_row a b amt cur])%list)
               (set_users
                  (fun m => <[b := set_balance c (balance_of c ub + amt) ub]>
                              (<[a := set_balance c (balance_of c ua - amt) ua]> m)) db).
Proof.
  intros Hab. unfold transfer_money_transaction, update_debit, update_credit.
  destruct (users db !! a) as [ua|] eqn:Ha; [|discriminate].
  destruct (Qleb amt (balance_of c ua)) eqn:Hle; [|discriminate].
  simpl. rewrite lookup_insert_ne by congruence.
  destruct (users db !! b) as [ub|] eqn:Hb; [|discriminate].
  simpl. unfold insert_transaction, user_exists. simpl.
  rewrite lookup_insert_ne by congruence. rewrite lookup_insert_eq.
  rewrite bool_decide_eq_true_2 by eauto. simpl.
  rewrite lookup_insert_eq. rewrite bool_decide_eq_true_2 by eauto. simpl.
  intros [= <- _]. exists ua, ub. split_and!; try done.
  unfold set_transactions, set_users. simpl. by rewrite <- app_assoc.
Qed.

(** The handler answers 200 only to a request that passed its gates. *)
Lemma transfer_money_200 API_TOKEN req db db' resp :
  transfer_money API_TOKEN req db = (db', resp) ->
  status_code resp = 200%nat ->
  exists a b amt cur c,
    validated_request API_TOKEN req = Some (a, b, amt, cur, c)
    /\ a <> b
    /\ transfer_money_transaction c cur amt a b db = inr (db', Commit resp).
Proof.
  unfold transfer_money, validated_request.
  destruct (negb (verify_api_token _ _)); [intros [= <- <-]; discriminate|].
  destruct (json req) as [data|]; [|intros [= <- <-]; discriminate].
  destruct (from_user data) as [a|]; [|intros [= <- <-]; discriminate].
  destruct (to_user data) as [b|].
  2:{ simpl. rewrite orb_true_r. intros [= <- <-]; discriminate. }
  destruct (validate_user_id (Some a)); [|intros [= <- <-]; discriminate].
  destruct (validate_user_id (Some b)); [|intros [= <- <-]; discriminate].
  simpl.
  destruct (validate_amount _); [|intros [= <- <-]; discriminate]. simpl.
  destruct (currency_column _) as [c|]; [|intros [= <- <-]; discriminate].
  destruct (String.eqb a b) eqn:Hab; [intros [= <- <-]; discriminate|].
  apply String.eqb_neq in Hab. simpl.
  unfold run_transaction.
  destruct (transfer_money_transaction _ _ _ _ _ _) as [e|[db1 [r|r]]] eqn:Htx.
  - intros [= <- <-]; discriminate.
  - intros [= <- <-] _. eauto 10.
  - intros [= <- <-] H200. exfalso.
    unfold transfer_money_transaction in Htx.
    destruct (update_debit _ _ _ _) as [d1 n1].
    destruct (n1 =? 0)%nat; [injection Htx as _ <-; discriminate|].
    destruct (update_credit _ _ _ _) as [d2 n2].
    destruct (n2 =? 0)%nat; [injection Htx as _ <-; discriminate|].
    unfold bind in Htx. repeat (destruct (insert_transaction _ _ _); try discriminate).
Qed.

Lemma set_balance_other c c' v u :
  c' <> c -> balance_of c' (set_balance c v u) = balance_of c' u.
Proof. by destruct c, c'. Qed.

Lemma username_set_balance c v u : username (set_balance c v u) = username u.
Proof. by destruct c. Qed.

(** X8.  POST /api/pay answers 200 only to a request that passed every
    input gate, and such a transfer touches the two rows of its parties
    and nothing else: every other wallet is unchanged, the parties keep
    their name and their balance in the other currency, and every table
    other than [users] and [transactions] is as before. *)
Theorem transfer_money_touches_two_rows API_TOKEN req db db' resp :
  transfer_money API_TOKEN req db = (db', resp) ->
  status_code resp = 200%nat ->
  exists a b amt cur c,
    validated_request API_TOKEN req = Some (a, b, amt, cur, c)
    /\ resp = success amt cur
    /\ (forall k, k <> a -> k <> b -> users db' !! k = users db !! k)
    /\ (forall k u u', users db !! k = Some u -> users db' !! k = Some u' ->
                       username u' = username u
                       /\ forall c', c' <> c -> balance_of c' u' = balance_of c' u)
    /\ set_transactions (fun _ => transactions db) (set_users (fun _ => users db) db') = db.
Proof.
  intros Hrun H200.
  destruct (transfer_money_200 _ _ _ _ _ Hrun H200) as (a & b & amt & cur & c & Hv & Hab & Htx).
  destruct (transfer_money_transaction_commit _ _ _ _ _ _ _ _ Hab Htx)
    as (_ & _ & _ & _ & _ & _ & _ & Hresp).
  destruct (transfer_money_transaction_commit_db _ _ _ _ _ _ _ _ Hab Htx)
    as (ua & ub & Hua & Hub & ->).
  exists a, b, amt, cur, c. split_and!; try done.
  - intros k Ha Hb. simpl. rewrite lookup_insert_ne by congruence.
    by rewrite lookup_insert_ne by congruence.
  - intros k u u' Hu. simpl.
    destruct (decide (k = b)) as [->|Hkb].
    + rewrite lookup_insert_eq. intros [= <-]. rewrite Hub in Hu. injection Hu as <-.
      split; [apply username_set_balance|]. intros c' Hc'. by apply set_balance_other.
    + rewrite lookup_insert_ne by congruence.
      destruct (decide (k = a)) as [->|Hka].
      * rewrite lookup_insert_eq. intros [= <-]. rewrite Hua in Hu. injection Hu as <-.
        split; [apply username_set_balance|]. intros c' Hc'. by apply set_balance_other.
      * rewrite lookup_insert_ne by congruence. rewrite Hu. by intros [= <-].
  - by destruct db.
Qed.

Lemma transfer_money_touches_two_rows_witness :
  exists a b amt cur c,
    validated_request "token" (Sample.pay Sample.alice Sample.bob 30)
    = Some (a, b, amt, cur, c)
    /\ snd (transfer_money "token" (Sample.pay Sample.alice Sample.bob 30) Sample.db0)
       = success amt cur
    /\ (forall k, k <> a -> k <> b ->
          users (fst (transfer_money "token" (Sample.pay Sample.alice Sample.bob 30)
                        Sample.db0)) !! k
          = users Sample.db0 !! k)
    /\ (forall k u u',
          users Sample.db0 !! k = Some u ->
          users (fst (transfer_money "token" (Sample.pay Sample.alice Sample.bob 30)
                        Sample.db0)) !! k = Some u' ->
          username u' = username u
          /\ forall c', c' <> c -> balance_of c' u' = balance_of c' u)
    /\ set_transactions (fun _ => transactions Sample.db0)
         (set_users (fun _ => users Sample.db0)
            (fst (transfer_money "token" (Sample.pay Sample.alice Sample.bob 30)
                    Sample.db0)))
       = Sample.db0.
Proof.
  apply (transfer_money_touches_two_rows "token" (Sample.pay Sample.alice Sample.bob 30)
           Sample.db0
           (fst (transfer_money "token" (Sample.pay Sample.alice Sample.bob 30) Sample.db0))
           (snd (transfer_money "token" (Sample.pay Sample.alice Sample.bob 30) Sample.db0)));
    vm_compute; reflexivity.
Defined.

(** ** Reading a balance over HTTP *)




(** ** Currency exchange *)









(** ** What every handler leaves in place *)

Lemma extends_refl db : extends db db.
Proof. unfold extends. split_and!; try done. eauto. Qed.

Lemma extends_trans db1 db2 db3 : extends db1 db2 -> extends db2 db3 -> extends db1 db3.
Proof.
  intros (Ht & Hb & Hl & Ha & Hk & Hu & Hbu & Hi & Hm & Hp)
         (Ht' & Hb' & Hl' & Ha' & Hk' & Hu' & Hbu' & Hi' & Hm' & Hp').
  unfold extends. split_and!; try (by etrans); try congruence.
  intros k u Hku. destruct (Hu k u Hku) as (u1 & Hku1 & Hn1).
  destruct (Hu' k u1 Hku1) as (u2 & Hku2 & Hn2). exists u2. split; [done|congruence].
Qed.

(** A statement that writes [users] only, and keeps every name. *)
Lemma extends_set_users f db0 db :
  (forall k u, users db !! k = Some u ->
               exists u', f (users db) !! k = Some u' /\ username u' = username u) ->
  extends db0 db -> extends db0 (set_users f db).
Proof.
  intros Hf H. eapply extends_trans; [exact H|].
  unfold extends. split_and!; try done.
Qed.

Lemma extends_insert_balance c v uid u db0 db :
  users db !! uid = Some u ->
  extends db0 db -> extends db0 (set_users (insert uid (set_balance c v u)) db).
Proof.
  intros Hu. apply extends_set_users. intros k u0 Hk.
  destruct (decide (uid = k)) as [->|Hne].
  - rewrite lookup_insert_eq. eexists. split; [done|].
    rewrite Hu in Hk. injection Hk as <-. by destruct c.
  - rewrite lookup_insert_ne by done. eauto.
Qed.

Lemma extends_update_debit c amt uid db0 db :
  extends db0 db -> extends db0 (fst (update_debit c amt uid db)).
Proof.
  intros H. unfold update_debit. destruct (users db !! uid) as [u|] eqn:Hu; [|done].
  destruct (Qleb _ _); [|done]. by apply extends_insert_balance.
Qed.

Lemma extends_update_credit c amt uid db0 db :
  extends db0 db -> extends db0 (fst (update_credit c amt uid db)).
Proof.
  intros H. unfold update_credit. destruct (users db !! uid) as [u|] eqn:Hu; [|done].
  by apply extends_insert_balance.
Qed.

Lemma extends_update_wallet cur v uid db0 db :
  extends db0 db -> extends db0 (update_wallet cur v uid db).
Proof.
  intros H. unfold update_wallet, update_balance.
  destruct (String.eqb cur "gold_dinars"); (destruct (users db !! uid) as [u|] eqn:Hu; [|done]);
    by apply extends_insert_balance.
Qed.

Lemma extends_update_credit_named cur amt uid db0 db db' :
  update_credit_named cur amt uid db = inr db' -> extends db0 db -> extends db0 db'.
Proof.
  unfold update_credit_named. destruct (resolve_column cur); [|discriminate].
  intros [= <-]. apply extends_update_credit.
Qed.

Lemma extends_get_user_account uid name db0 db :
  extends db0 db -> extends db0 (snd (get_user_account uid name db)).
Proof.
  intros H. unfold get_user_account. destruct (negb _); [done|].
  destruct (users db !! uid) as [u|] eqn:Hu; [done|]. cbn [snd].
  apply extends_set_users; [|done]. intros k u Hk.
  rewrite lookup_insert_ne by congruence. eauto.
Qed.

Lemma extends_alter g s uid db0 db :
  extends db0 db ->
  extends db0 (set_users (alter (fun u => {| username := username u; gold := g;
                                             silver := s |}) uid) db).
Proof.
  apply extends_set_users. intros k u Hk. rewrite lookup_alter.
  destruct (decide (uid = k)) as [->|]; rewrite Hk; eauto.
Qed.

Lemma extends_insert_transaction fk row db0 db db' :
  insert_transaction fk row db = inr db' -> extends db0 db -> extends db0 db'.
Proof.
  unfold insert_transaction. destruct (_ && _); [discriminate|]. intros [= <-] H.
  eapply extends_trans; [exact H|]. unfold extends. split_and!; try done; [|eauto].
  by apply prefix_app_r.
Qed.

Lemma extends_insert_bank_ledger fk row db0 db db' :
  insert_bank_ledger fk row db = inr db' -> extends db0 db -> extends db0 db'.
Proof.
  unfold insert_bank_ledger. destruct (_ || _); [discriminate|].
  destruct (_ && _); [discriminate|]. intros [= <-] H.
  eapply extends_trans; [exact H|]. unfold extends. split_and!; try done; [|eauto].
  by apply prefix_app_r.
Qed.

Lemma extends_insert_loan row db0 db db' :
  insert_loan row db = inr db' -> extends db0 db -> extends db0 db'.
Proof.
  unfold insert_loan. destruct (_ || _); [discriminate|]. intros [= <-] H.
  eapply extends_trans; [exact H|]. unfold extends. split_and!; try done; [|eauto].
  cbn [loans set_loans]. rewrite map_app. by apply prefix_app_r.
Qed.

Lemma extends_insert_application row db0 db :
  extends db0 db -> extends db0 (set_loan_applications (fun t => (t ++ [row])%list) db).
Proof.
  intros H. eapply extends_trans; [exact H|]. unfold extends. split_and!; try done; [|eauto].
  cbn [loan_applications set_loan_applications]. rewrite map_app. by apply prefix_app_r.
Qed.

Lemma extends_update_account_balance v id db0 db db' :
  update_account_balance v id db = inr db' -> extends db0 db -> extends db0 db'.
Proof.
  unfold update_account_balance. destruct (_ && _); [discriminate|]. intros [= <-] H.
  eapply extends_trans; [exact H|]. unfold extends. split_and!; try done; [|eauto].
  cbn [bank_accounts set_bank_accounts]. rewrite map_map. apply map_ext.
  intros a. by destruct (account_id a =? id)%nat.
Qed.

Lemma extends_set_loan_repaid v st id db0 db :
  extends db0 db ->
  extends db0 (set_loans (map (fun l => if (loan_id l =? id)%nat
                                        then set_loan_repaid v st l else l)) db).
Proof.
  intros H. eapply extends_trans; [exact H|]. unfold extends. split_and!; try done; [|eauto].
  cbn [loans set_loans]. rewrite map_map.
  erewrite map_ext; [reflexivity|]. intros l. simpl. by destruct (loan_id l =? id)%nat.
Qed.

Lemma extends_set_application_funded lender id db0 db :
  extends db0 db ->
  extends db0 (set_loan_applications
                 (map (fun a => if (app_id a =? id)%nat
                                then set_application_funded lender a else a)) db).
Proof.
  intros H. eapply extends_trans; [exact H|]. unfold extends. split_and!; try done; [|eauto].
  cbn [loan_applications set_loan_applications]. rewrite map_map.
  erewrite map_ext; [reflexivity|]. intros a. simpl. by destruct (app_id a =? id)%nat.
Qed.

Lemma run_transaction_extends {R} (body : DB -> exec (DB * tx_end R)) exc db0 db :
  (forall db' r, body db = inr (db', r) -> extends db0 db') ->
  extends db0 db -> extends db0 (fst (run_transaction body exc db)).
Proof.
  intros Hbody Hdb. unfold run_transaction.
  destruct (body db) as [e|[db' [r|r]]] eqn:Hb; simpl; eauto.
Qed.

(** Peels the statements off a committed transaction body, last one
    first. *)
Ltac extends_chain :=
  repeat first
    [ eassumption
    | match goal with
      | H : insert_transaction _ _ _ = inr ?b |- extends _ ?b =>
          eapply extends_insert_transaction; [exact H|]
      | H : insert_bank_ledger _ _ _ = inr ?b |- extends _ ?b =>
          eapply extends_insert_bank_ledger; [exact H|]
      | H : insert_loan _ _ = inr ?b |- extends _ ?b =>
          eapply extends_insert_loan; [exact H|]
      | H : update_account_balance _ _ _ = inr ?b |- extends _ ?b =>
          eapply extends_update_account_balance; [exact H|]
      | H : update_credit_named _ _ _ _ = inr ?b |- extends _ ?b =>
          eapply extends_update_credit_named; [exact H|]
      end
    | apply extends_update_wallet
    | apply extends_set_loan_repaid
    | apply extends_set_application_funded
    | apply extends_insert_application
    | apply extends_alter ].

Lemma extends_step db op : extends db (step db op).
Proof.
  pose proof (extends_refl db) as Hdb.
  destruct op as [tok req|today c n amt cur days why|c n i|c n i amt|i u amt|i u amt
                 |f t u amt descr|c n amt f t|dr o i ty cur r cb|today]; simpl.
  - unfold transfer_money. gates.
    destruct (json req) as [data|]; [|done]. gates.
    destruct (currency_column _) as [col|]; [|done].
    destruct (from_user data) as [a|]; [|done].
    destruct (to_user data) as [b|]; [|done].
    destruct (String.eqb a b); [done|].
    apply run_transaction_extends; [|done]. intros db' r.
    unfold transfer_money_transaction.
    pose proof (extends_update_debit col (default 0%Q (amount data)) a db db Hdb) as H1.
    destruct (update_debit _ _ _ _) as [d1 n1]. cbn [fst] in H1.
    destruct (n1 =? 0)%nat; [by intros [= <- _]|].
    pose proof (extends_update_credit col (default 0%Q (amount data)) b db d1 H1) as H2.
    destruct (update_credit _ _ _ _) as [d2 n2]. cbn [fst] in H2.
    destruct (n2 =? 0)%nat; [by intros [= <- _]|].
    intros H. bind_step H. bind_step H. injection H as <- _. extends_chain.
  - unfold apply_for_loan. gates.
    apply run_transaction_extends; [|done]. intros db' r.
    destruct (negb _); [discriminate|]. intros [= <- _]. extends_chain.
  - unfold fund_loan.
    destruct (find _ _) as [app|]; [|done].
    destruct (String.eqb _ c); [done|].
    pose proof (extends_get_user_account c n db db Hdb) as Hg.
    destruct (get_user_account c n db) as [d db1]. cbn [snd] in Hg.
    destruct (Qltb _ _); [done|].
    apply run_transaction_extends; [|done]. intros db' r H.
    unfold fund_loan_transaction in H. cbv zeta in H.
    bind_step H. bind_step H. bind_step H. bind_step H. bind_step H.
    injection H as <- _.
    destruct (negb (user_exists c db2)); [discriminate|]. injection Hstmt1 as <-.
    extends_chain.
  - unfold repay_loan.
    destruct (find _ _) as [loan|]; [|done]. gates.
    pose proof (extends_get_user_account c n db db Hdb) as Hg.
    destruct (get_user_account c n db) as [d db1]. cbn [snd] in Hg.
    destruct (Qltb _ _); [done|].
    apply run_transaction_extends; [|done]. intros db' r H.
    unfold repay_loan_transaction in H. cbv zeta in H.
    bind_step H. bind_step H. bind_step H. injection H as <- _. extends_chain.
  - unfold bank_deposit.
    destruct (Qleb amt 0); [done|].
    destruct (select_active_account i db) as [[acc inst]|]; [|done].
    destruct (negb _); [done|].
    pose proof (extends_get_user_account u "" db db Hdb) as Hg.
    destruct (get_user_account u "" db) as [d db1]. cbn [snd] in Hg.
    destruct (Qltb _ _); [done|].
    apply run_transaction_extends; [|done]. intros db' r H.
    bind_step H. bind_step H. bind_step H. injection H as <- _. extends_chain.
  - unfold bank_withdraw.
    destruct (Qleb amt 0); [done|].
    destruct (select_active_account i db) as [[acc inst]|]; [|done].
    destruct (negb _); [done|].
    destruct (Qltb _ _); [done|].
    pose proof (extends_get_user_account u "" db db Hdb) as Hg.
    destruct (get_user_account u "" db) as [d db1]. cbn [snd] in Hg.
    apply run_transaction_extends; [|done]. intros db' r H.
    bind_step H. bind_step H. bind_step H. injection H as <- _. extends_chain.
  - unfold bank_transfer.
    destruct (Qleb amt 0); [done|].
    destruct (_ =? _)%nat; [done|].
    destruct (select_active_account f db) as [[fa fi]|]; [|done].
    destruct (select_active_account t db) as [[ta ti]|]; [|done]. gates.
    apply run_transaction_extends; [|done]. intros db' r H.
    bind_step H. bind_step H. bind_step H. bind_step H. bind_step H.
    injection H as <- _. extends_chain.
  - unfold currency_exchange.
    destruct (_ || _); [done|].
    destruct (String.eqb (lower _) (lower _)); [done|].
    destruct (Qleb amt 0); [done|].
    pose proof (extends_get_user_account c n db db Hdb) as Hg.
    destruct (get_user_account c n db) as [d db1]. cbn [snd] in Hg.
    destruct (String.eqb (lower _) "gold"); (destruct (Qltb _ _); [done|]);
      (apply run_transaction_extends; [|done]); intros db' r H; bind_step H;
      injection H as <- _; extends_chain.
  - by rewrite create_bank_account_noop.
  - by rewrite process_overdue_loans_noop.
Qed.

Lemma extends_run ops db : extends db (run ops db).
Proof.
  revert db. induction ops as [|op ops IH]; intros db; simpl; [apply extends_refl|].
  eapply extends_trans; [apply extends_step|apply IH].
Qed.

(** X12.  The two logs are append-only.  Whichever of the handlers of
    [operation] run (wallet transfer, loan application, funding and
    repayment, bank deposit, withdrawal and transfer, currency exchange,
    account opening, the overdue sweep), in whatever order and with
    whatever arguments, the rows of
    [transactions] and of [bank_ledger] that were there before are
    still there afterwards, unchanged and in the same positions: the
    handlers add rows at the end and never update or delete one. *)
Theorem logs_are_append_only ops db :
  exists new_transactions new_entries,
    transactions (run ops db) = (transactions db ++ new_transactions)%list
    /\ bank_ledger (run ops db) = (bank_ledger db ++ new_entries)%list.
Proof.
  destruct (extends_run ops db) as ([t Ht] & [b Hb] & _). eauto.
Qed.

(** X13.  No handler deletes or renames a user: every row of [users] is
    still there after any sequence of the handlers of [operation],
    under the same key and
    with the same user name.  Only the two balances can differ. *)
Theorem users_are_never_removed ops db k u :
  users db !! k = Some u ->
  exists u', users (run ops db) !! k = Some u' /\ username u' = username u.
Proof.
  intros Hu. destruct (extends_run ops db) as (_ & _ & _ & _ & _ & H & _). eauto.
Qed.

Lemma users_are_never_removed_witness :
  exists u', users (run Sample.day Sample.db0) !! Sample.bob = Some u'
             /\ username u' = "bob".
Proof.
  apply (users_are_never_removed Sample.day Sample.db0 Sample.bob
           {| username := "bob"; gold := 0; silver := 20 |}).
  reflexivity.
Defined.

(** X14.  The terms of a loan are fixed when it is written.  After any
    sequence of the handlers of [operation] the loans that were in the
    table are still
    there, in the same positions, with the same id, lender, borrower,
    principal, currency and due date; the same holds for the id,
    borrower, amount, currency, term, due date and purpose of every
    loan application.  Only [repaid_amount] and the status columns are
    ever rewritten. *)
Theorem loan_terms_are_fixed ops db :
  (exists new_loans,
      map loan_terms (loans (run ops db)) = (map loan_terms (loans db) ++ new_loans)%list)
  /\ (exists new_applications,
         map application_terms (loan_applications (run ops db))
         = (map application_terms (loan_applications db) ++ new_applications)%list).
Proof.
  destruct (extends_run ops db) as (_ & _ & [l Hl] & [a Ha] & _). eauto.
Qed.

(** X15.  The handlers of [operation] stay out of the other tables:
    [businesses],
    [investments], [marketplace] and [bank_account_permissions] are the
    same after any sequence of them, and in [bank_accounts] nothing but
    the balance of a row changes, so no account is opened, closed,
    renumbered or handed to another owner. *)
Theorem handlers_leave_other_tables ops db :
  businesses (run ops db) = businesses db
  /\ investments (run ops db) = investments db
  /\ marketplace (run ops db) = marketplace db
  /\ bank_account_permissions (run ops db) = bank_account_permissions db
  /\ map account_terms (bank_accounts (run ops db)) = map account_terms (bank_accounts db).
Proof.
  destruct (extends_run ops db) as (_ & _ & _ & _ & Hk & _ & Hb & Hi & Hm & Hp). done.
Qed.


(** ** The tables a statement writes *)

Lemma update_balance_frame c v uid db :
  exists m, update_balance c v uid db = set_users (fun _ => m) db.
Proof.
  unfold update_balance. destruct (users db !! uid).
  - by eexists.
  - exists (users db). by destruct db.
Qed.

Lemma update_wallet_frame cur v uid db :
  exists m, update_wallet cur v uid db = set_users (fun _ => m) db.
Proof. unfold update_wallet. destruct (String.eqb _ _); apply update_balance_frame. Qed.

Lemma update_credit_frame c amt uid db :
  exists m, fst (update_credit c amt uid db) = set_users (fun _ => m) db.
Proof.
  unfold update_credit. destruct (users db !! uid).
  - by eexists.
  - exists (users db). by destruct db.
Qed.

Lemma update_debit_frame c amt uid db :
  exists m, fst (update_debit c amt uid db) = set_users (fun _ => m) db.
Proof.
  unfold update_debit. destruct (users db !! uid); [destruct (Qleb _ _)|].
  - by eexists.
  - exists (users db). by destruct db.
  - exists (users db). by destruct db.
Qed.

Lemma update_credit_named_frame cur amt uid db db' :
  update_credit_named cur amt uid db = inr db' ->
  exists m, db' = set_users (fun _ => m) db.
Proof.
  unfold update_credit_named. destruct (resolve_column cur) as [c|]; [|discriminate].
  intros [= <-]. apply update_credit_frame.
Qed.

Lemma get_user_account_frame uid name db :
  exists m, snd (get_user_account uid name db) = set_users (fun _ => m) db.
Proof.
  unfold get_user_account. destruct (negb _); [|destruct (users db !! uid)]; cbn [snd].
  - exists (users db). by destruct db.
  - exists (users db). by destruct db.
  - by eexists.
Qed.

Lemma insert_transaction_frame fk row db db' :
  insert_transaction fk row db = inr db' ->
  db' = set_transactions (fun t => (t ++ [row])%list) db.
Proof. unfold insert_transaction. destruct (_ && _); [discriminate|]. by intros [= <-]. Qed.

Lemma insert_loan_frame row db db' :
  insert_loan row db = inr db' -> db' = set_loans (fun t => (t ++ [row])%list) db.
Proof. unfold insert_loan. destruct (_ || _); [discriminate|]. by intros [= <-]. Qed.

Lemma insert_bank_ledger_frame fk row db db' :
  insert_bank_ledger fk row db = inr db' ->
  db' = set_bank_ledger (fun t => (t ++ [row])%list) db.
Proof.
  unfold insert_bank_ledger. destruct (_ || _); [discriminate|].
  destruct (_ && _); [discriminate|]. by intros [= <-].
Qed.

Lemma update_account_balance_frame v id db db' :
  update_account_balance v id db = inr db' ->
  db' = set_bank_accounts
          (map (fun a => if (account_id a =? id)%nat then set_account_balance v a else a)) db
  /\ (existsb (fun a => (account_id a =? id)%nat) (bank_accounts db) = true -> (0 <= v)%Q).
Proof.
  unfold update_account_balance.
  destruct (existsb _ _); cbn [andb]; [destruct (Qleb 0 v) eqn:Hv; cbn [negb]|].
  - intros [= <-]. split; [done|]. intros _. by apply Qleb_true.
  - discriminate.
  - intros [= <-]. split; [done|]. discriminate.
Qed.

Lemma run_transaction_cases {R} (body : DB -> exec (DB * tx_end R)) exc db :
  fst (run_transaction body exc db) = db
  \/ exists r, body db = inr (fst (run_transaction body exc db), Commit r).
Proof.
  unfold run_transaction. destruct (body db) as [e|[db' [r|r]]]; cbn [fst]; eauto.
Qed.

(** Peels the statements off a committed body and replaces each
    intermediate database by the table it was obtained from. *)
Ltac frame_wallet H :=
  repeat match type of H with
         | context [update_wallet ?c ?v ?u ?d] =>
             let m := fresh "m" in
             let Hm := fresh "Hm" in
             destruct (update_wallet_frame c v u d) as [m Hm]; rewrite Hm in H; clear Hm
         end.

Ltac frame_chain H :=
  frame_wallet H;
  repeat (let a := fresh "db" in
          let Ha := fresh "Hstmt" in
          apply bind_inr in H as (a & Ha & H); cbv beta zeta in H;
          first [ apply insert_transaction_frame in Ha as ->
                | apply insert_loan_frame in Ha as ->
                | apply insert_bank_ledger_frame in Ha as ->
                | apply update_account_balance_frame in Ha as [-> ?]
                | apply update_credit_named_frame in Ha as [? ->]
                | (destruct (negb (user_exists _ _)); [discriminate|]; injection Ha as <-) ];
          frame_wallet H).

(** ** The loan tables, handler by handler *)

(** What one handler does to [loans] and [loan_applications]: nothing,
    or one application appended, or one application funded and its loan
    appended, or one repayment booked. *)
Lemma loan_tables_step db op :
  (loans (step db op) = loans db /\ loan_applications (step db op) = loan_applications db)
  \/ (exists row,
         loans (step db op) = loans db
         /\ loan_applications (step db op) = (loan_applications db ++ [row])%list
         /\ app_id row = next_id (map app_id (loan_applications db))
         /\ app_status row = "pending" /\ (0 < app_loan_amount row)%Q
         /\ (pending_count (app_borrower_id row) db < 3)%nat)
  \/ (exists lender id app row,
         app ∈ loan_applications db /\ app_status app = "pending"
         /\ loan_applications (step db op)
            = map (fun a => if (app_id a =? id)%nat then set_application_funded lender a else a)
                  (loan_applications db)
         /\ loans (step db op) = (loans db ++ [row])%list
         /\ loan_id row = next_id (map loan_id (loans db))
         /\ repaid_amount row = 0%Q /\ loan_status row = "active"
         /\ loan_amount row = app_loan_amount app)
  \/ (exists id amt loan,
         loan_applications (step db op) = loan_applications db
         /\ loan ∈ loans db /\ loan_id loan = id
         /\ (0 < amt)%Q /\ (amt <= loan_amount loan - repaid_amount loan)%Q
         /\ loans (step db op)
            = map (fun l => if (loan_id l =? id)%nat then repaid_row loan amt l else l)
                  (loans db)).
Proof.
  destruct op as [tok req|today c n amt cur days why|c n i|c n i amt|i u amt|i u amt
                 |f t u amt descr|c n amt f t|dr o i ty cur r cb|today]; simpl.
  - left. unfold transfer_money. gates.
    destruct (json req) as [data|]; [|done]. gates.
    destruct (currency_column _) as [col|]; [|done].
    destruct (from_user data) as [a|]; [|done].
    destruct (to_user data) as [b|]; [|done].
    destruct (String.eqb a b); [done|].
    match goal with
    | |- context [run_transaction ?b ?e ?d] =>
        destruct (run_transaction_cases b e d) as [->|[r H]]; [by (try left)|];
        revert H; generalize (fst (run_transaction b e d)); intros db'
    end.
    unfold transfer_money_transaction.
    destruct (update_debit_frame col (default 0%Q (amount data)) a db) as [m1 H1].
    destruct (update_debit _ _ _ _) as [d1 n1]. cbn [fst] in H1. subst d1.
    destruct (n1 =? 0)%nat; [by intros [= <- _]|].
    destruct (update_credit_frame col (default 0%Q (amount data)) b
                (set_users (fun _ => m1) db)) as [m2 H2].
    destruct (update_credit _ _ _ _) as [d2 n2]. cbn [fst] in H2. subst d2.
    destruct (n2 =? 0)%nat; [by intros [= <- _]|].
    intros H. frame_chain H. by injection H as <- _.
  - unfold apply_for_loan.
    destruct (negb (existsb _ _)); [by left|].
    destruct (Qleb amt 0 || _) eqn:Hpos; [by left|].
    destruct (365 <? days)%Z; [by left|].
    destruct (String.length why <? 10)%nat; [by left|].
    destruct (3 <=? _)%nat eqn:Hcount; [by left|].
    apply orb_false_iff in Hpos as [Hpos _]. apply Qleb_false in Hpos.
    apply Nat.leb_gt in Hcount.
    unfold run_transaction.
    destruct (negb (user_exists c db)); [by left|]. cbn [ret fst].
    right. left. eexists. split_and!; try reflexivity; done.
  - unfold fund_loan.
    destruct (find _ _) as [app|] eqn:Hfind; [|by left].
    destruct (String.eqb _ c); [by left|].
    apply find_some in Hfind as [Hin Hcond]. apply list_elem_of_In in Hin.
    apply andb_true_iff in Hcond as [_ Hst]. apply String.eqb_eq in Hst.
    destruct (get_user_account_frame c n db) as [m Hm].
    destruct (get_user_account c n db) as [d db1]. cbn [snd] in Hm. subst db1.
    destruct (Qltb _ _); [by left|].
    match goal with
    | |- context [run_transaction ?b ?e ?d] =>
        destruct (run_transaction_cases b e d) as [->|[r H]]; [by (try left)|];
        revert H; generalize (fst (run_transaction b e d)); intros db' H
    end.
    unfold fund_loan_transaction in H. cbv zeta in H. frame_chain H.
    injection H as <- _. right. right. left.
    eexists c, i, app, _. split_and!; try reflexivity; done.
  - unfold repay_loan.
    destruct (find _ _) as [loan|] eqn:Hfind; [|by left].
    destruct (negb _) eqn:Hst; [by left|].
    destruct (Qltb _ amt) eqn:Hrem; [by left|].
    destruct (Qleb amt 0) eqn:Hpos; [by left|].
    apply Qltb_false in Hrem. apply Qleb_false in Hpos.
    apply find_some in Hfind as [Hin Hcond]. apply list_elem_of_In in Hin.
    apply andb_true_iff in Hcond as [Hid _]. apply Nat.eqb_eq in Hid.
    destruct (get_user_account_frame c n db) as [m Hm].
    destruct (get_user_account c n db) as [d db1]. cbn [snd] in Hm. subst db1.
    destruct (Qltb _ amt); [by left|].
    match goal with
    | |- context [run_transaction ?b ?e ?d] =>
        destruct (run_transaction_cases b e d) as [->|[r H]]; [by (try left)|];
        revert H; generalize (fst (run_transaction b e d)); intros db' H
    end.
    unfold repay_loan_transaction in H. cbv zeta in H. frame_chain H.
    injection H as <- _. right. right. right.
    exists i, amt, loan. split_and!; try reflexivity; done.
  - left. unfold bank_deposit.
    destruct (Qleb amt 0); [done|].
    destruct (select_active_account i db) as [[acc inst]|]; [|done].
    destruct (negb _); [done|].
    destruct (get_user_account_frame u "" db) as [m Hm].
    destruct (get_user_account u "" db) as [d db1]. cbn [snd] in Hm. subst db1.
    destruct (Qltb _ _); [done|].
    match goal with
    | |- context [run_transaction ?b ?e ?d] =>
        destruct (run_transaction_cases b e d) as [->|[r H]]; [done|];
        revert H; generalize (fst (run_transaction b e d)); intros db' H
    end.
    frame_chain H. by injection H as <- _.
  - left. unfold bank_withdraw.
    destruct (Qleb amt 0); [done|].
    destruct (select_active_account i db) as [[acc inst]|]; [|done].
    destruct (negb _); [done|].
    destruct (Qltb _ _); [done|].
    destruct (get_user_account_frame u "" db) as [m Hm].
    destruct (get_user_account u "" db) as [d db1]. cbn [snd] in Hm. subst db1.
    match goal with
    | |- context [run_transaction ?b ?e ?d] =>
        destruct (run_transaction_cases b e d) as [->|[r H]]; [done|];
        revert H; generalize (fst (run_transaction b e d)); intros db' H
    end.
    frame_chain H. by injection H as <- _.
  - left. unfold bank_transfer.
    destruct (Qleb amt 0); [done|].
    destruct (_ =? _)%nat; [done|].
    destruct (select_active_account f db) as [[fa fi]|]; [|done].
    destruct (select_active_account t db) as [[ta ti]|]; [|done]. gates.
    match goal with
    | |- context [run_transaction ?b ?e ?d] =>
        destruct (run_transaction_cases b e d) as [->|[r H]]; [done|];
        revert H; generalize (fst (run_transaction b e d)); intros db' H
    end.
    frame_chain H. by injection H as <- _.
  - left. unfold currency_exchange.
    destruct (_ || _); [done|].
    destruct (String.eqb (lower _) (lower _)); [done|].
    destruct (Qleb amt 0); [done|].
    destruct (get_user_account_frame c n db) as [m Hm].
    destruct (get_user_account c n db) as [d db1]. cbn [snd] in Hm. subst db1.
    destruct (String.eqb (lower _) "gold"); (destruct (Qltb _ _); [done|]);
      match goal with
      | |- context [run_transaction ?b ?e ?d] =>
          destruct (run_transaction_cases b e d) as [->|[r H]]; [done|];
          revert H; generalize (fst (run_transaction b e d)); intros db' H
      end;
      frame_chain H; by injection H as <- _.
  - left. by rewrite create_bank_account_noop.
  - left. by rewrite process_overdue_loans_noop.
Qed.

(** ** Invariants of the loan tables *)

Lemma next_id_bound ids x : x ∈ ids -> (x < next_id ids)%nat.
Proof.
  unfold next_id. induction ids as [|y ids IH]; intros Hx.
  - by apply elem_of_nil in Hx.
  - apply elem_of_cons in Hx as [->|Hx]; cbn [foldr]; [lia|].
    specialize (IH Hx). lia.
Qed.

Lemma next_id_fresh ids : next_id ids ∉ ids.
Proof. intros H. apply next_id_bound in H. lia. Qed.

Lemma NoDup_snoc_fresh (ids : list nat) : NoDup ids -> NoDup (ids ++ [next_id ids]).
Proof.
  intros H. apply NoDup_app. split_and!; [done| |apply NoDup_singleton].
  intros x Hx Hx'. apply list_elem_of_singleton in Hx' as ->. by apply next_id_fresh in Hx.
Qed.

Lemma map_app_id_funded lender id (l : list application_row) :
  map app_id (map (fun a => if (app_id a =? id)%nat then set_application_funded lender a
                            else a) l)
  = map app_id l.
Proof. rewrite map_map. apply map_ext. intros a. by destruct (app_id a =? id)%nat. Qed.

Lemma map_loan_id_repaid loan amt id (l : list loan_row) :
  map loan_id (map (fun l => if (loan_id l =? id)%nat then repaid_row loan amt l else l) l)
  = map loan_id l.
Proof. rewrite map_map. apply map_ext. intros a. by destruct (loan_id a =? id)%nat. Qed.

Lemma loan_ids_unique_step db op : loan_ids_unique db -> loan_ids_unique (step db op).
Proof.
  unfold loan_ids_unique. intros Hl.
  destruct (loan_tables_step db op)
    as [[-> _]|[(row & -> & _)
       |[(lender & id & app & row & _ & _ & _ & -> & Hid & _)
        |(id & amt & loan & _ & _ & _ & _ & _ & ->)]]]; try done.
  - rewrite map_app. cbn [map]. rewrite Hid. by apply NoDup_snoc_fresh.
  - by rewrite map_loan_id_repaid.
Qed.

Lemma application_ids_unique_step db op :
  application_ids_unique db -> application_ids_unique (step db op).
Proof.
  unfold application_ids_unique. intros Ha.
  destruct (loan_tables_step db op)
    as [[_ ->]|[(row & _ & -> & Hid & _)
       |[(lender & id & app & row & _ & _ & -> & _)
        |(id & amt & loan & -> & _)]]]; try done.
  - rewrite map_app. cbn [map]. rewrite Hid. by apply NoDup_snoc_fresh.
  - by rewrite map_app_id_funded.
Qed.

(** X16.  Ids stay unique.  [loans] and [loan_applications] take their
    ids from the AUTOINCREMENT counter and no handler rewrites an id,
    so a database in which the ids of each table are pairwise different
    stays so under every sequence of the handlers of [operation]. *)
Theorem ids_stay_unique ops db :
  loan_ids_unique db -> application_ids_unique db ->
  loan_ids_unique (run ops db) /\ application_ids_unique (run ops db).
Proof.
  revert db. induction ops as [|op ops IH]; intros db Hl Ha; simpl; [done|].
  apply IH; [by apply loan_ids_unique_step|by apply application_ids_unique_step].
Qed.

Lemma ids_stay_unique_witness :
  (loan_ids_unique (run busy_day db_busy)
   /\ application_ids_unique (run busy_day db_busy))
  /\ map loan_id (loans db_busy) = [1; 2]%nat
  /\ map loan_id (loans (run busy_day db_busy)) = [1; 2; 3; 4]%nat
  /\ map app_id (loan_applications db_busy) = [1; 2]%nat
  /\ map app_id (loan_applications (run busy_day db_busy)) = [1; 2; 3; 4]%nat.
Proof.
  split; [|by vm_compute].
  apply (ids_stay_unique busy_day db_busy).
  - unfold loan_ids_unique. cbn. apply NoDup_cons. split.
    + rewrite list_elem_of_singleton. discriminate.
    + apply NoDup_singleton.
  - unfold application_ids_unique. cbn. apply NoDup_cons. split.
    + rewrite list_elem_of_singleton. discriminate.
    + apply NoDup_singleton.
Defined.

Lemma filter_length_map_le {A} (p : A -> bool) (f : A -> A) (l : list A) :
  (forall a, p (f a) = true -> p a = true) ->
  (length (List.filter p (map f l)) <= length (List.filter p l))%nat.
Proof.
  intros Hp. induction l as [|a l IH]; simpl; [done|].
  destruct (p (f a)) eqn:Hfa.
  - rewrite (Hp a Hfa). simpl. lia.
  - destruct (p a); simpl; lia.
Qed.

Lemma pending_count_step db op borrower :
  (pending_count borrower db <= 3)%nat -> (pending_count borrower (step db op) <= 3)%nat.
Proof.
  unfold pending_count. intros H.
  destruct (loan_tables_step db op)
    as [[_ ->]|[(row & _ & -> & _ & _ & _ & Hcount)
       |[(lender & id & app & row & _ & _ & -> & _)
        |(id & amt & loan & -> & _)]]]; try done.
  - rewrite List.filter_app, length_app. cbn [List.filter].
    destruct (String.eqb (app_borrower_id row) borrower) eqn:Hb; cbn [andb].
    + apply String.eqb_eq in Hb. subst borrower. unfold pending_count in Hcount.
      destruct (String.eqb _ _); cbn [length]; lia.
    + cbn [length]. lia.
  - etrans; [|exact H]. apply filter_length_map_le.
    intros a. destruct (app_id a =? id)%nat; [|done]. cbn.
    rewrite andb_false_r. discriminate.
Qed.

(** X17.  Nobody ever has more than three pending loan applications.
    [apply_for_loan] refuses a fourth and no other handler of
    [operation] turns an application into a pending one, so the bound
    holds after every sequence of handlers once it holds before,
    from the empty database in particular. *)
Theorem at_most_three_pending_applications ops db :
  (forall borrower, (pending_count borrower db <= 3)%nat) ->
  forall borrower, (pending_count borrower (run ops db) <= 3)%nat.
Proof.
  revert db. induction ops as [|op ops IH]; intros db H borrower; simpl; [done|].
  apply IH. intros b. by apply pending_count_step.
Qed.

Lemma at_most_three_pending_applications_witness :
  (pending_count Sample.bob (run four_applications Sample.db0) <= 3)%nat
  /\ pending_count Sample.bob (run (firstn 3 four_applications) Sample.db0) = 3%nat
  /\ pending_count Sample.bob (run four_applications Sample.db0) = 3%nat
  /\ run four_applications Sample.db0 = run (firstn 3 four_applications) Sample.db0.
Proof.
  split; [|by vm_compute].
  apply (at_most_three_pending_applications four_applications Sample.db0).
  intros borrower. unfold pending_count. simpl. lia.
Defined.

(** ** Bank accounts: balances, permissions, movements *)

Lemma with_balance_nonneg v id (l : list bank_account_row) :
  (existsb (fun a => (account_id a =? id)%nat) l = true -> (0 <= v)%Q) ->
  Forall (fun a => (0 <= balance a)%Q) l ->
  Forall (fun a => (0 <= balance a)%Q)
         (map (fun a => if (account_id a =? id)%nat then set_account_balance v a else a) l).
Proof.
  intros Hv Hl. apply Forall_map, Forall_forall. intros a Ha.
  rewrite Forall_forall in Hl. simpl.
  destruct (account_id a =? id)%nat eqn:Hid; [|by apply Hl].
  simpl. apply Hv. apply existsb_exists. exists a. split; [|done]. by apply list_elem_of_In.
Qed.

Ltac commit_cases :=
  match goal with
  | |- context [run_transaction ?b ?e ?d] =>
      let r := fresh "r" in
      destruct (run_transaction_cases b e d) as [->|[r H]]; [done|];
      revert H; generalize (fst (run_transaction b e d)); intros db' H
  end.

(** What one handler does to [bank_accounts]: nothing, or one balance
    rewritten, or two. *)
Lemma bank_accounts_step db op :
  bank_accounts (step db op) = bank_accounts db
  \/ (exists id v,
         (existsb (fun a => (account_id a =? id)%nat) (bank_accounts db) = true -> (0 <= v)%Q)
         /\ bank_accounts (step db op) = map (with_balance id v) (bank_accounts db))
  \/ (exists id1 v1 id2 v2,
         (existsb (fun a => (account_id a =? id1)%nat) (bank_accounts db) = true -> (0 <= v1)%Q)
         /\ (existsb (fun a => (account_id a =? id2)%nat)
                     (map (with_balance id1 v1) (bank_accounts db)) = true -> (0 <= v2)%Q)
         /\ bank_accounts (step db op)
            = map (with_balance id2 v2) (map (with_balance id1 v1) (bank_accounts db))).
Proof.
  destruct op as [tok req|today c n amt cur days why|c n i|c n i amt|i u amt|i u amt
                 |f t u amt descr|c n amt f t|dr o i ty cur r cb|today]; simpl.
  - left. unfold transfer_money. gates.
    destruct (json req) as [data|]; [|done]. gates.
    destruct (currency_column _) as [col|]; [|done].
    destruct (from_user data) as [a|]; [|done].
    destruct (to_user data) as [b|]; [|done].
    destruct (String.eqb a b); [done|].
    commit_cases. revert H.
    unfold transfer_money_transaction.
    destruct (update_debit_frame col (default 0%Q (amount data)) a db) as [m1 H1].
    destruct (update_debit _ _ _ _) as [d1 n1]. cbn [fst] in H1. subst d1.
    destruct (n1 =? 0)%nat; [by intros [= <- _]|].
    destruct (update_credit_frame col (default 0%Q (amount data)) b
                (set_users (fun _ => m1) db)) as [m2 H2].
    destruct (update_credit _ _ _ _) as [d2 n2]. cbn [fst] in H2. subst d2.
    destruct (n2 =? 0)%nat; [by intros [= <- _]|].
    intros H. frame_chain H. by injection H as <- _.
  - left. unfold apply_for_loan. gates.
    unfold run_transaction. by destruct (negb (user_exists c db)).
  - left. unfold fund_loan.
    destruct (find _ _) as [app|]; [|done].
    destruct (String.eqb _ c); [done|].
    destruct (get_user_account_frame c n db) as [m Hm].
    destruct (get_user_account c n db) as [d db1]. cbn [snd] in Hm. subst db1.
    destruct (Qltb _ _); [done|].
    commit_cases. unfold fund_loan_transaction in H. cbv zeta in H. frame_chain H.
    by injection H as <- _.
  - left. unfold repay_loan.
    destruct (find _ _) as [loan|]; [|done]. gates.
    destruct (get_user_account_frame c n db) as [m Hm].
    destruct (get_user_account c n db) as [d db1]. cbn [snd] in Hm. subst db1.
    destruct (Qltb _ amt); [done|].
    commit_cases. unfold repay_loan_transaction in H. cbv zeta in H. frame_chain H.
    by injection H as <- _.
  - unfold bank_deposit.
    destruct (Qleb amt 0); [by left|].
    destruct (select_active_account i db) as [[acc inst]|]; [|by left].
    destruct (negb _); [by left|].
    destruct (get_user_account_frame u "" db) as [m Hm].
    destruct (get_user_account u "" db) as [d db1]. cbn [snd] in Hm. subst db1.
    destruct (Qltb _ _); [by left|].
    match goal with
    | |- context [run_transaction ?b ?e ?d] =>
        destruct (run_transaction_cases b e d) as [->|[r H]]; [by left|];
        revert H; generalize (fst (run_transaction b e d)); intros db' H
    end.
    frame_chain H. injection H as <- _. right. left. by eexists _, _.
  - unfold bank_withdraw.
    destruct (Qleb amt 0); [by left|].
    destruct (select_active_account i db) as [[acc inst]|]; [|by left].
    destruct (negb _); [by left|].
    destruct (Qltb _ _); [by left|].
    destruct (get_user_account_frame u "" db) as [m Hm].
    destruct (get_user_account u "" db) as [d db1]. cbn [snd] in Hm. subst db1.
    match goal with
    | |- context [run_transaction ?b ?e ?d] =>
        destruct (run_transaction_cases b e d) as [->|[r H]]; [by left|];
        revert H; generalize (fst (run_transaction b e d)); intros db' H
    end.
    frame_chain H. injection H as <- _. right. left. by eexists _, _.
  - unfold bank_transfer.
    destruct (Qleb amt 0); [by left|].
    destruct (_ =? _)%nat; [by left|].
    destruct (select_active_account f db) as [[fa fi]|]; [|by left].
    destruct (select_active_account t db) as [[ta ti]|]; [|by left].
    destruct (negb (String.eqb _ _)); [by left|].
    destruct (negb (may_operate _ _ _)); [by left|].
    destruct (Qltb _ _); [by left|].
    match goal with
    | |- context [run_transaction ?b ?e ?d] =>
        destruct (run_transaction_cases b e d) as [->|[r H]]; [by left|];
        revert H; generalize (fst (run_transaction b e d)); intros db' H
    end.
    frame_chain H. injection H as <- _. right. right. by eexists _, _, _, _.
  - left. unfold currency_exchange.
    destruct (_ || _); [done|].
    destruct (String.eqb (lower _) (lower _)); [done|].
    destruct (Qleb amt 0); [done|].
    destruct (get_user_account_frame c n db) as [m Hm].
    destruct (get_user_account c n db) as [d db1]. cbn [snd] in Hm. subst db1.
    destruct (String.eqb (lower _) "gold"); (destruct (Qltb _ _); [done|]);
      commit_cases; frame_chain H; by injection H as <- _.
  - left. by rewrite create_bank_account_noop.
  - left. by rewrite process_overdue_loans_noop.
Qed.

Lemma bank_balances_nonneg_step db op :
  bank_balances_nonneg db -> bank_balances_nonneg (step db op).
Proof.
  unfold bank_balances_nonneg. intros Hdb.
  destruct (bank_accounts_step db op)
    as [->|[(id & v & Hv & ->)|(id1 & v1 & id2 & v2 & Hv1 & Hv2 & ->)]]; [done| |].
  - by apply with_balance_nonneg.
  - apply with_balance_nonneg; [done|]. by apply with_balance_nonneg.
Qed.

(** X19.  No bank account is ever overdrawn.  From a database in which
    every account has a balance of zero or more, every sequence of the
    handlers of [operation] leads to one in which that is still so:
    withdrawals and transfers beyond the balance are refused, and a
    write that would leave a negative balance fails the CHECK constraint
    of the table and is rolled back with everything else. *)
Theorem bank_balances_stay_nonneg ops db :
  bank_balances_nonneg db -> bank_balances_nonneg (run ops db).
Proof.
  revert db. induction ops as [|op ops IH]; intros db H; simpl; [done|].
  apply IH. by apply bank_balances_nonneg_step.
Qed.

Lemma bank_balances_stay_nonneg_witness :
  bank_balances_nonneg (run banking_day db_accounts).
Proof.
  apply (bank_balances_stay_nonneg banking_day db_accounts).
  unfold bank_balances_nonneg. simpl.
  apply Forall_cons_2; [vm_compute; discriminate|].
  apply Forall_cons_2; [vm_compute; discriminate|]. apply Forall_nil_2.
Defined.

Lemma select_active_account_some id db a inst :
  select_active_account id db = Some (a, inst) ->
  a ∈ bank_accounts db /\ account_id a = id /\ account_status a = "active".
Proof.
  unfold select_active_account.
  destruct (find _ (bank_accounts db)) as [a0|] eqn:Hf; [|discriminate].
  destruct (find _ (businesses db)); [|discriminate]. intros [= <- _].
  apply find_some in Hf as [Hin Hc].
  apply andb_true_iff in Hc as [Hc _]. apply andb_true_iff in Hc as [Hid Hst].
  split; [by apply list_elem_of_In|]. split; [by apply Nat.eqb_eq|by apply String.eqb_eq].
Qed.

Lemma may_operate_authorised a u db :
  a ∈ bank_accounts db -> account_status a = "active" ->
  may_operate a u db = true -> authorised u (account_id a) db.
Proof.
  intros Hin Hst Hop. exists a. split_and!; try done.
  unfold may_operate in Hop. apply orb_true_iff in Hop as [Ho|Hp].
  - left. by apply String.eqb_eq.
  - right. apply existsb_exists in Hp as (p & Hp & Hc).
    apply andb_true_iff in Hc as [Hc Hr]. apply andb_true_iff in Hc as [Hid Hu].
    exists p. split; [by apply list_elem_of_In|]. split; [by apply Nat.eqb_eq|].
    split; [by apply String.eqb_eq|].
    cbn [existsb] in Hr. rewrite !orb_true_iff, !String.eqb_eq in Hr.
    destruct Hr as [?|[?|[?|?]]]; auto. discriminate.
Qed.

Lemma unauthorised_may_not_operate u i db a inst :
  ~ authorised u i db -> select_active_account i db = Some (a, inst) ->
  may_operate a u db = false.
Proof.
  intros Hno Hsel. apply select_active_account_some in Hsel as (Hin & <- & Hst).
  destruct (may_operate a u db) eqn:Hop; [|done].
  exfalso. apply Hno. by apply may_operate_authorised.
Qed.

(** X20.  Only the owner and the operators of an account move its
    money.  For a user who is neither the owner of the active account
    [i] nor holds a permission row on it with role owner, joint_owner
    or manager (a viewer, for one), [bank_deposit], [bank_withdraw] and
    [bank_transfer] out of [i] all fail and leave the database exactly
    as it was, whatever the amount and the destination. *)
Theorem unauthorised_user_is_refused u i amt db :
  ~ authorised u i db ->
  (fst (bank_deposit i u amt db) = db /\ is_success (snd (bank_deposit i u amt db)) = false)
  /\ (fst (bank_withdraw i u amt db) = db
      /\ is_success (snd (bank_withdraw i u amt db)) = false)
  /\ (forall t descr,
         fst (bank_transfer i t u amt descr db) = db
         /\ is_success (snd (bank_transfer i t u amt descr db)) = false).
Proof.
  intros Hno. split_and!.
  - unfold bank_deposit. destruct (Qleb amt 0); [done|].
    destruct (select_active_account i db) as [[acc inst]|] eqn:Hsel; [|done].
    by rewrite (unauthorised_may_not_operate u i db acc inst Hno Hsel).
  - unfold bank_deposit. destruct (Qleb amt 0); [done|].
    destruct (select_active_account i db) as [[acc inst]|] eqn:Hsel; [|done].
    by rewrite (unauthorised_may_not_operate u i db acc inst Hno Hsel).
  - unfold bank_withdraw. destruct (Qleb amt 0); [done|].
    destruct (select_active_account i db) as [[acc inst]|] eqn:Hsel; [|done].
    by rewrite (unauthorised_may_not_operate u i db acc inst Hno Hsel).
  - unfold bank_withdraw. destruct (Qleb amt 0); [done|].
    destruct (select_active_account i db) as [[acc inst]|] eqn:Hsel; [|done].
    by rewrite (unauthorised_may_not_operate u i db acc inst Hno Hsel).
  - intros t descr. unfold bank_transfer. destruct (Qleb amt 0); [done|].
    destruct (i =? t)%nat; [done|].
    destruct (select_active_account i db) as [[fa fi]|] eqn:Hsel; [|done].
    destruct (select_active_account t db) as [[ta ti]|]; [|done].
    destruct (negb (String.eqb _ _)); [done|].
    by rewrite (unauthorised_may_not_operate u i db fa fi Hno Hsel).
Qed.

Lemma unauthorised_user_is_refused_witness :
  (fst (bank_deposit 1 Sample.carol 5 db_accounts) = db_accounts
   /\ is_success (snd (bank_deposit 1 Sample.carol 5 db_accounts)) = false)
  /\ (fst (bank_withdraw 1 Sample.carol 5 db_accounts) = db_accounts
      /\ is_success (snd (bank_withdraw 1 Sample.carol 5 db_accounts)) = false)
  /\ (forall t descr,
         fst (bank_transfer 1 t Sample.carol 5 descr db_accounts) = db_accounts
         /\ is_success (snd (bank_transfer 1 t Sample.carol 5 descr db_accounts)) = false).
Proof.
  apply (unauthorised_user_is_refused Sample.carol 1 5 db_accounts).
  intros (a & Ha & Hid & _ & [Ho|(p & Hp & _ & _ & Hr)]).
  - simpl in Ha. apply elem_of_cons in Ha as [->|Ha]; [discriminate|].
    apply list_elem_of_singleton in Ha as ->. discriminate.
  - simpl in Hp. apply list_elem_of_singleton in Hp as ->.
    destruct Hr as [?|[?|?]]; discriminate.
Defined.




Lemma run_transaction_result {R} (body : DB -> exec (DB * tx_end R)) exc db db' r :
  run_transaction body exc db = (db', r) ->
  (exists e, r = exc e)
  \/ (exists db2, body db = inr (db2, Rollback r))
  \/ body db = inr (db', Commit r).
Proof.
  unfold run_transaction. destruct (body db) as [e|[db2 [r0|r0]]]; intros [= <- <-]; eauto.
Qed.







(** X24.  A bank transfer is all or nothing.  Whenever [bank_transfer]
    reports a failure (a refusal in front of the transaction, or an
    exception inside it, after which the handler rolls back), the
    database is exactly as it was before the call: neither of the two
    balances has been written alone. *)
Theorem bank_transfer_failure_changes_nothing f t u amt descr db :
  is_success (snd (bank_transfer f t u amt descr db)) = false ->
  fst (bank_transfer f t u amt descr db) = db.
Proof.
  unfold bank_transfer.
  destruct (Qleb amt 0); [done|].
  destruct (f =? t)%nat; [done|].
  destruct (select_active_account f db) as [[fa fi]|]; [|done].
  destruct (select_active_account t db) as [[ta ti]|]; [|done].
  destruct (negb (String.eqb _ _)); [done|].
  destruct (negb (may_operate fa u db)); [done|].
  destruct (Qltb _ amt); [done|].
  match goal with
  | |- context [run_transaction ?b ?e ?d] =>
      destruct (run_transaction b e d) as [db' r] eqn:Hrun
  end.
  cbn [fst snd]. intros Hfail.
  pose proof Hrun as Hrun'.
  apply run_transaction_result in Hrun as [[e He]|[[db2 H]|H]].
  - unfold run_transaction in Hrun'.
    match type of Hrun' with
    | context [match ?b with _ => _ end] => destruct b as [e'|[db2 [r'|r']]] eqn:Hb
    end; try by injection Hrun' as <- _.
    exfalso. cbv beta zeta in Hb. frame_chain Hb. injection Hb as _ <-.
    injection Hrun' as _ <-. discriminate.
  - exfalso. cbv beta zeta in H. frame_chain H. discriminate.
  - exfalso. cbv beta zeta in H. frame_chain H. injection H as _ <-. discriminate.
Qed.

Lemma bank_transfer_failure_changes_nothing_witness :
  fst (bank_transfer 1 2 Sample.alice 75 None db_accounts) = db_accounts.
Proof.
  apply (bank_transfer_failure_changes_nothing 1 2 Sample.alice 75 None db_accounts).
  reflexivity.
Defined.


(** ** Funding a loan *)











(** ** Repaying a loan *)






(** ** Applying for a loan *)



